(** * Easy-Deploy: state detector and deployment orchestrator

    A shallow embedding of [lib/config-detector.js] (class [ConfigDetector]),
    of the deployment orchestrator (class [DeploymentManager]) and of the
    artifact providers, followed by the properties of the specification that
    are stated about them.

    JavaScript values are modelled as follows: objects with a fixed shape are
    records, optional properties are [option]s, [process.env] is a finite map
    from names to strings, a promise that may reject is an [Outcome], and the
    file system, the container daemon, the network and git are read from a
    [World] record that lists what each call answers. *)

From Stdlib Require Import String Ascii List Bool Arith Lia.
From stdpp Require Import base option list strings gmap pretty.
Import ListNotations.
Local Open Scope string_scope.

(** ** JavaScript preliminaries *)

(** An [Error] object: its message, the [code] property node and axios set on
    network failures, and [response.status] when axios rejects a response. *)
Record JsError := mkError {
  e_message : string;
  e_code : option string;
  e_status : option nat
}.

Definition new_Error (msg : string) : JsError :=
  {| e_message := msg; e_code := None; e_status := None |}.

(** The result of awaiting a promise (or of running a block that may throw). *)
Inductive Outcome (A : Type) : Type :=
| Ok (a : A)
| Throw (e : JsError).
Arguments Ok {A} a.
Arguments Throw {A} e.

#[export] Instance outcome_ret : MRet Outcome := fun _ a => Ok a.
#[export] Instance outcome_bind : MBind Outcome := fun _ _ f m =>
  match m with
  | Ok a => f a
  | Throw e => Throw e
  end.

Definition is_Ok {A} (o : Outcome A) : bool :=
  match o with Ok _ => true | Throw _ => false end.

(** [hay.includes(needle)] *)
Fixpoint js_includes (hay needle : string) : bool :=
  String.prefix needle hay ||
  match hay with
  | EmptyString => false
  | String _ rest => js_includes rest needle
  end.

(** [s.replace('/', '')]: a string pattern replaces the first occurrence only. *)
Fixpoint replace_first_slash (s : string) : string :=
  match s with
  | EmptyString => EmptyString
  | String c rest =>
      if Ascii.eqb c "/"%char then rest else String c (replace_first_slash rest)
  end.

(** [s.replace(pat, '')] for a string pattern: the first occurrence goes. *)
Fixpoint drop_chars (n : nat) (s : string) : string :=
  match n, s with
  | S n', String _ rest => drop_chars n' rest
  | _, _ => s
  end.

Fixpoint remove_first (pat s : string) : string :=
  if String.prefix pat s then drop_chars (String.length pat) s
  else match s with
       | EmptyString => EmptyString
       | String c rest => String c (remove_first pat rest)
       end.

(** A line feed. *)
Definition nl : string := String (ascii_of_nat 10) EmptyString.

(** [arr.join(sep)] *)
Definition js_join (sep : string) (l : list string) : string := String.concat sep l.

(** [arr.push(x)], as a new list. *)
Definition push {A} (arr : list A) (x : A) : list A := (arr ++ [x])%list.

(** [`${v}`] of a possibly undefined string property. *)
Definition str_of_opt (o : option string) : string :=
  match o with Some s => s | None => "undefined" end.

(** [v || dflt] for a string property: undefined and the empty string are falsy. *)
Definition str_or (o : option string) (dflt : string) : string :=
  match o with
  | Some s => if String.eqb s EmptyString then dflt else s
  | None => dflt
  end.

(** [path.join(a, b)], without normalisation. *)
Definition path_join (a b : string) : string := a ++ "/" ++ b.

(** [path.basename(p)]: what follows the last separator. *)
Fixpoint basename_from (acc s : string) : string :=
  match s with
  | EmptyString => acc
  | String c rest =>
      if Ascii.eqb c "/"%char then basename_from EmptyString rest
      else basename_from (acc ++ String c EmptyString) rest
  end.

Definition path_basename (p : string) : string := basename_from EmptyString p.

(** [path.resolve(base, p)]: an absolute [p] wins, otherwise it is taken
    relative to [base]. *)
Definition path_resolve (base p : string) : string :=
  if String.prefix "/" p then p else path_join base p.

(** [!process.env[key]]: unset, or set to the empty string. *)
Definition env_unset (env : gmap string string) (key : string) : bool :=
  match env !! key with
  | Some v => String.eqb v EmptyString
  | None => true
  end.

(** ** Project configuration ([easy-deploy.config.js])

    The object that the configuration module exports, with the types that
    the code reads it at: [name], [provider], [source] and [database] are
    strings when they are present. A configuration that holds another type
    there (a number or an array as [source], say) is not a value of this
    type. *)

Record Server := {
  host : option string;
  port : option nat
}.

Record Config := {
  name : option string;
  provider : option string;
  source : option string;
  database : option string;
  server : option Server;
  auth_google_enabled : bool;      (* truthiness of config.auth?.google?.enabled *)
  features_autoCommit : bool;      (* truthiness of config.features?.autoCommit *)
  features_autoDeploy : bool;      (* truthiness of config.features?.autoDeploy *)
  features_nginx : bool;
  features_redis : bool
}.

(** [config.database === s] *)
Definition database_is (c : Config) (s : string) : bool :=
  match database c with
  | Some d => String.eqb d s
  | None => false
  end.

(** A container as dockerode's [listContainers] reports it. *)
Record Container := {
  Id : string;
  Names : list string;
  Image : string;
  State_ : string;
  Status : string
}.

(** ** The state detector ([lib/config-detector.js]) *)

Module ConfigDetector.

Inductive StatKind := IsDirectory | IsFile.

(** What the detector reads from outside: the file system below [baseDir],
    the module loader, the Docker daemon and the process environment. *)
Record World := {
  baseDir : string;
  pathExists : string -> bool;              (* fs.pathExists / fs.existsSync *)
  require_config : Outcome Config;          (* require(configPath) *)
  readdir : string -> Outcome (list string);
  stat : string -> Outcome StatKind;
  docker_ping : Outcome unit;
  docker_listAll : Outcome (list Container);     (* listContainers({ all: true }) *)
  docker_listRunning : Outcome (list Container); (* listContainers() *)
  process_env : gmap string string;
  env_file_contents : string                (* what the .env file holds, if present *)
}.

Inductive StateType := first_launch | configured_not_deployed | running | error.

Inductive ErrorType := docker_not_running | missing_env_vars | source_not_found.

Inductive Severity := critical | high.

Record ArtifactsCheck := {
  a_exists : bool;
  a_count : nat;
  a_artifacts : option (list string)
}.

Record EnvCheck := {
  exists_ : bool;
  valid : bool;
  missing : list string
}.

Record Checks := {
  configExists : bool;
  dockerRunning : bool;
  artifactsExist : ArtifactsCheck;
  deploymentRunning : bool;
  envValid : EnvCheck;
  databaseExists : bool
}.

Record DetectedError := {
  err_type : ErrorType;
  severity : Severity;
  err_message : string;
  err_description : string
}.

Record Fix := {
  fix_error : ErrorType;
  action : string;
  fix_description : string;
  autoFixable : bool;
  instructions : list string
}.

Record Suggestion := {
  sug_type : string;
  sug_message : string;
  sug_artifacts : option (list string);
  sug_action : string
}.

Record ContainerInfo := {
  ci_id : string;
  ci_name : string;
  ci_status : string;
  ci_uptime : string
}.

Record DeploymentInfo := {
  containerCount : nat;
  containers : list ContainerInfo;
  url : string
}.

(** The object [this.state]. A property that a branch does not set is
    [None]; [config] and [deployment] may be set to [null], hence the
    nested option. *)
Record State := {
  type : StateType;
  checks : Checks;
  message : string;
  suggestions : option (list Suggestion);
  config : option (option Config);
  deployment : option (option DeploymentInfo);
  errors : option (list DetectedError);
  fixes : option (list Fix)
}.

Definition configPath (w : World) : string :=
  path_join (baseDir w) "easy-deploy.config.js".

Definition checkConfig (w : World) : bool :=
  pathExists w (configPath w).

Definition checkDocker (w : World) : bool :=
  match docker_ping w with
  | Ok _ => true
  | Throw _ => false
  end.

(** The [for ... of] loop of [checkArtifacts]: keeps the directories, and
    rejects as soon as one [fs.stat] rejects. *)
Fixpoint collect_dirs (w : World) (dir : string) (items : list string)
  : Outcome (list string) :=
  match items with
  | [] => Ok []
  | item :: rest =>
      stats ← stat w (path_join dir item);
      dirs ← collect_dirs w dir rest;
      mret (match stats with
            | IsDirectory => item :: dirs
            | IsFile => dirs
            end)
  end.

Definition checkArtifacts (w : World) : Outcome ArtifactsCheck :=
  let artifactsPath := path_join (baseDir w) "artifacts" in
  if negb (pathExists w artifactsPath) then
    Ok {| a_exists := false; a_count := 0; a_artifacts := None |}
  else
    items ← readdir w artifactsPath;
    artifacts ← collect_dirs w artifactsPath items;
    mret {| a_exists := true; a_count := length artifacts;
            a_artifacts := Some artifacts |}.

Definition loadConfig (w : World) : option Config :=
  if pathExists w (configPath w) then
    match require_config w with
    | Ok c => Some c
    | Throw _ => None
    end
  else None.

Definition checkDeployment (w : World) : bool :=
  match docker_listAll w with
  | Throw _ => false
  | Ok containers =>
      match loadConfig w with
      | None => false
      | Some config =>
          let projectContainers :=
            filter (fun container =>
                      existsb (fun nm =>
                                 js_includes nm (str_of_opt (name config))
                                 || js_includes nm "easy-deploy")
                              (Names container) = true)
                   containers in
          Nat.ltb 0 (length projectContainers)
      end
  end.

(** The list [required] that [checkEnv] builds with [push]. *)
Definition required_vars (config : Config) : list string :=
  let required := ["SESSION_SECRET"] in
  let required :=
    if auth_google_enabled config
    then push (push required "GOOGLE_CLIENT_ID") "GOOGLE_CLIENT_SECRET"
    else required in
  let required :=
    if database_is config "postgresql"
    then push required "DATABASE_URL"
    else required in
  required.

Definition missing_vars (env : gmap string string) (required : list string) : list string :=
  filter (fun key => env_unset env key = true) required.

Definition checkEnv (w : World) : EnvCheck :=
  let envPath := path_join (baseDir w) ".env" in
  if negb (pathExists w envPath) then
    {| exists_ := false; valid := false; missing := [] |}
  else
    match loadConfig w with
    | None => {| exists_ := true; valid := true; missing := [] |}
    | Some config =>
        let missing := missing_vars (process_env w) (required_vars config) in
        {| exists_ := true;
           valid := Nat.eqb (length missing) 0;
           missing := missing |}
    end.

Definition checkDatabase (w : World) : bool :=
  match loadConfig w with
  | None => false
  | Some config =>
      if database_is config "sqlite" then
        let dbPath := str_or (process_env w !! "DATABASE_PATH")
                             (path_join (path_join (baseDir w) "data") "app.db") in
        pathExists w dbPath
      else if database_is config "postgresql" then
        negb (env_unset (process_env w) "DATABASE_URL")
      else false
  end.

Definition detectErrors (w : World) (checks : Checks) : list DetectedError :=
  let errors := [] in
  let errors :=
    if negb (dockerRunning checks) then
      push errors {| err_type := docker_not_running;
                    severity := critical;
                    err_message := "Docker is not running";
                    err_description :=
                      "Docker Desktop needs to be started before deployment" |}
    else errors in
  let errors :=
    if negb (valid (envValid checks))
       && Nat.ltb 0 (length (missing (envValid checks))) then
      push errors {| err_type := missing_env_vars;
                    severity := high;
                    err_message :=
                      "Missing environment variables: "
                      ++ js_join ", " (missing (envValid checks));
                    err_description :=
                      "Required environment variables are not set in .env file" |}
    else errors in
  let errors :=
    match loadConfig w with
    | Some config =>
        match source config with
        | Some src =>
            if String.eqb src EmptyString then errors
            else
              let sourcePath := path_resolve (baseDir w) src in
              if negb (pathExists w sourcePath) then
                push errors {| err_type := source_not_found;
                              severity := high;
                              err_message := "Source not found: " ++ src;
                              err_description :=
                                "The configured artifact source directory does not exist" |}
              else errors
        | None => errors
        end
    | None => errors
    end in
  errors.

Definition fix_for (e : DetectedError) : Fix :=
  match err_type e with
  | docker_not_running =>
      {| fix_error := err_type e;
         action := "start-docker";
         fix_description := "Start Docker Desktop";
         autoFixable := false;
         instructions := ["Open Docker Desktop application";
                          "Wait for Docker to start";
                          "Retry deployment"] |}
  | missing_env_vars =>
      {| fix_error := err_type e;
         action := "update-env";
         fix_description := "Update .env file with missing variables";
         autoFixable := true;
         instructions := ["Edit .env file";
                          "Add missing variables";
                          "Restart application"] |}
  | source_not_found =>
      {| fix_error := err_type e;
         action := "update-source";
         fix_description := "Update source path or create artifacts directory";
         autoFixable := true;
         instructions := ["Check artifact source path in config";
                          "Create artifacts directory if needed";
                          "Add your application files"] |}
  end.

Definition suggestFixes (errors : list DetectedError) : list Fix :=
  map fix_for errors.

(** The second loop over the artifacts directory, in
    [getFirstLaunchSuggestions]. *)
Fixpoint suggestion_dirs (w : World) (dir : string) (items : list string)
  : Outcome (list string) :=
  match items with
  | [] => Ok []
  | item :: rest =>
      stats ← stat w (path_join dir item);
      dirs ← suggestion_dirs w dir rest;
      mret (match stats with
            | IsDirectory => item :: dirs
            | IsFile => dirs
            end)
  end.

Definition getFirstLaunchSuggestions (w : World) : Outcome (list Suggestion) :=
  let suggestions := [] in
  let suggestions :=
    if pathExists w (path_join (baseDir w) "package.json") then
      push suggestions {| sug_type := "nodejs-project";
                         sug_message := "Node.js project detected";
                         sug_artifacts := None;
                         sug_action := "Can set up as Node.js application" |}
    else suggestions in
  let artifactsPath := path_join (baseDir w) "artifacts" in
  if pathExists w artifactsPath then
    items ← readdir w artifactsPath;
    dirs ← suggestion_dirs w artifactsPath items;
    mret (if Nat.ltb 0 (length dirs) then
            push suggestions {| sug_type := "artifacts-found";
                               sug_message :=
                                 "Found " ++ pretty (length dirs) ++ " artifact(s)";
                               sug_artifacts := Some dirs;
                               sug_action := "Can auto-deploy these artifacts" |}
          else suggestions)
  else Ok suggestions.

Definition container_info (c : Container) : ContainerInfo :=
  {| ci_id := String.substring 0 12 (Id c);
     ci_name := replace_first_slash (hd EmptyString (Names c));
     ci_status := State_ c;
     ci_uptime := Status c |}.

(** [getDeploymentInfo]: everything sits in one [try], and any fault (a
    null config, a daemon that does not answer) yields [null]. *)
Definition getDeploymentInfo (w : World) : option DeploymentInfo :=
  match loadConfig w with
  | None => None
  | Some config =>
      match docker_listRunning w with
      | Throw _ => None
      | Ok containers =>
          let projectContainers :=
            filter (fun container =>
                      existsb (fun nm => js_includes nm (str_of_opt (name config)))
                              (Names container) = true)
                   containers in
          let h := match server config with
                   | Some s => str_or (host s) "localhost"
                   | None => "localhost"
                   end in
          let p := match server config with
                   | Some s => match port s with
                               | Some 0 | None => 3000
                               | Some n => n
                               end
                   | None => 3000
                   end in
          Some {| containerCount := length projectContainers;
                  containers := map container_info projectContainers;
                  url := "http://" ++ h ++ ":" ++ pretty p |}
      end
  end.

Definition run_checks (w : World) : Outcome Checks :=
  let configExists := checkConfig w in
  let dockerRunning := checkDocker w in
  artifactsExist ← checkArtifacts w;
  let deploymentRunning := checkDeployment w in
  let envValid := checkEnv w in
  let databaseExists := checkDatabase w in
  mret {| configExists := configExists;
          dockerRunning := dockerRunning;
          artifactsExist := artifactsExist;
          deploymentRunning := deploymentRunning;
          envValid := envValid;
          databaseExists := databaseExists |}.

(** The [if / else if / else if] of [detect] that assigns [this.state];
    when no branch is taken, [this.state] keeps its previous value. *)
Definition classify (prev : option State) (w : World) (checks : Checks)
  : Outcome (option State) :=
  if negb (configExists checks) then
    suggestions ← getFirstLaunchSuggestions w;
    mret (Some {| type := first_launch;
                  checks := checks;
                  message := "No configuration found. Starting setup...";
                  suggestions := Some suggestions;
                  config := None; deployment := None;
                  errors := None; fixes := None |})
  else if configExists checks && negb (deploymentRunning checks) then
    Ok (Some {| type := configured_not_deployed;
                checks := checks;
                message := "Configuration found but not deployed";
                suggestions := None;
                config := Some (loadConfig w); deployment := None;
                errors := None; fixes := None |})
  else if deploymentRunning checks then
    Ok (Some {| type := running;
                checks := checks;
                message := "Deployment is running";
                suggestions := None;
                config := Some (loadConfig w);
                deployment := Some (getDeploymentInfo w);
                errors := None; fixes := None |})
  else Ok prev.

(** [this.state.type = 'error'; this.state.errors = ...; this.state.fixes = ...]:
    the object is updated in place; on [null] the first assignment throws. *)
Definition mark_error (st : option State) (errs : list DetectedError)
  : Outcome (option State) :=
  match st with
  | None => Throw (new_Error "Cannot set properties of null (setting 'type')")
  | Some s =>
      Ok (Some {| type := error;
                  checks := checks s;
                  message := message s;
                  suggestions := suggestions s;
                  config := config s;
                  deployment := deployment s;
                  errors := Some errs;
                  fixes := Some (suggestFixes errs) |})
  end.

(** [detect()], called on a detector whose [this.state] is [prev]
    ([null] after construction). *)
Definition detect (prev : option State) (w : World) : Outcome (option State) :=
  checks ← run_checks w;
  st ← classify prev w checks;
  let errors := detectErrors w checks in
  if Nat.ltb 0 (length errors) then mark_error st errors
  else Ok st.

(** The base classification, read back from the properties that the
    error overlay leaves untouched. *)
Definition base_of (s : State) : option StateType :=
  if String.eqb (message s) "No configuration found. Starting setup..." then
    Some first_launch
  else if String.eqb (message s) "Configuration found but not deployed" then
    Some configured_not_deployed
  else if String.eqb (message s) "Deployment is running" then
    Some running
  else None.

(** The base classification as the conditionals of [detect] compute it
    from the probe results. *)
Definition base_of_checks (c : Checks) : StateType :=
  if negb (configExists c) then first_launch
  else if negb (deploymentRunning c) then configured_not_deployed
  else running.

Definition has_error (t : ErrorType) (s : State) : bool :=
  match errors s with
  | Some errs =>
      existsb (fun e => match err_type e, t with
                        | docker_not_running, docker_not_running => true
                        | missing_env_vars, missing_env_vars => true
                        | source_not_found, source_not_found => true
                        | _, _ => false
                        end) errs
  | None => false
  end.

End ConfigDetector.

(** ** The deployment side: events, the manager's state and its monad *)

(** What a deployment run does to the outside, in order. *)
Inductive Event :=
| EvLog (msg : string)
| EvSleep (ms : nat)
| EvHttpGet (url : string)
| EvDockerPing
| EvProviderValidate
| EvProviderFetch
| EvProviderPrepare
| EvDatabaseInitialize
| EvGenerateDockerfile (artifactType : string)
| EvGenerateComposeFile (artifactType : string)
| EvBuildImage (imageName : string)
| EvGetContainerStatus
| EvGetCurrentCommit
| EvStartContainers (profiles : list string)
| EvGitCommit (msg : string) (push_ : bool)
| EvStopContainers.

Record ContainerStatus := {
  cs_id : string;
  cs_name : string;
  cs_image : string;
  cs_status : string;
  cs_uptime : string
}.

Record RollbackState := {
  timestamp : N;
  rb_containers : list ContainerStatus;
  commitHash : option string
}.

(** The mutable part of a [DeploymentManager], together with the log of
    what it did. *)
Record Manager := {
  rollbackState : option RollbackState;
  trace : list Event
}.

(** [new DeploymentManager(config)] *)
Definition new_Manager : Manager := {| rollbackState := None; trace := [] |}.

(** A method of the manager: it may throw, and what it did before throwing
    stays done. *)
Definition M (A : Type) : Type := Manager -> Outcome A * Manager.

Definition ret {A} (a : A) : M A := fun m => (Ok a, m).

Definition bind {A B} (c : M A) (k : A -> M B) : M B := fun m =>
  match c m with
  | (Ok a, m') => k a m'
  | (Throw e, m') => (Throw e, m')
  end.

Definition throw {A} (e : JsError) : M A := fun m => (Throw e, m).

Definition lift {A} (o : Outcome A) : M A := fun m => (o, m).

Definition emit (ev : Event) : M unit := fun m =>
  (Ok tt, {| rollbackState := rollbackState m; trace := push (trace m) ev |}).

Definition get_rollbackState : M (option RollbackState) := fun m =>
  (Ok (rollbackState m), m).

Definition set_rollbackState (rs : option RollbackState) : M unit := fun m =>
  (Ok tt, {| rollbackState := rs; trace := trace m |}).

(** [try { body } catch (error) { handler(error) }] *)
Definition try_catch_M {A} (body : M A) (handler : JsError -> M A) : M A := fun m =>
  match body m with
  | (Ok a, m') => (Ok a, m')
  | (Throw e, m') => handler e m'
  end.

Declare Scope deploy_scope.
Delimit Scope deploy_scope with deploy.
Notation "'let!' x ':=' c 'in' k" := (bind c (fun x => k))
  (at level 10, x name, c at level 100, k at level 200) : deploy_scope.
Notation "c ';;;' k" := (bind c (fun _ => k))
  (at level 100, k at level 200, right associativity) : deploy_scope.

(** How often an event satisfying [p] occurs in a trace. *)
Definition count_events (p : Event -> bool) (t : list Event) : nat :=
  length (List.filter p t).

Definition is_stop (ev : Event) : bool :=
  match ev with EvStopContainers => true | _ => false end.

Definition is_http_get (ev : Event) : bool :=
  match ev with EvHttpGet _ => true | _ => false end.

Definition is_provider_fetch (ev : Event) : bool :=
  match ev with EvProviderFetch => true | _ => false end.

(** An HTTP exchange as axios sees it: a response with a status, or a
    failure below HTTP with its [code] (ECONNREFUSED, ECONNABORTED, ...). *)
Inductive HttpReply :=
| Response (status : nat)
| NetworkError (code : string) (msg : string).

Record Artifact := {
  art_path : string;
  art_type : string
}.

(** What a deployment run reads from outside. Each field is the answer of
    one call into the file system, the Docker daemon, docker-compose, the
    network, the database driver or git; the bodies of the provider
    downloads and copies, which only move files, are such answers too. *)
Record DeployWorld := {
  cwd : string;
  d_env : gmap string string;
  d_pathExists : string -> bool;
  d_readdir : string -> Outcome (list string);
  d_ping : Outcome unit;
  (* providers *)
  ensureDir : Outcome unit;
  head_content_type : Outcome string;       (* axios.head(url) *)
  download_github : Outcome unit;
  download_zip : Outcome unit;
  download_file : Outcome unit;
  claude_fetch_body : Outcome string;       (* download or copy, then detectType *)
  claude_prepare_body : Outcome unit;
  local_copy : Outcome unit;
  local_detectType : Outcome string;
  (* database, build, containers *)
  init_sqlite : Outcome unit;
  init_postgresql : Outcome unit;
  write_dockerfile : Outcome unit;
  write_compose : Outcome unit;
  docker_build : Outcome unit;              (* docker.buildImage, then followProgress:
                                               rejected by the request or by a stream error *)
  list_containers : Outcome (list Container);
  compose_up : Outcome unit;
  compose_down : Outcome unit;
  (* network *)
  http_health : HttpReply;                  (* GET <url>/health *)
  http_root : HttpReply;                    (* GET <url> *)
  (* git *)
  git_latest_hash : Outcome string;
  git_commit_body : Outcome (option string);
  (* misc *)
  now : N;
  package_version : Outcome (option string);
  today : string
}.

(** ** Artifact providers ([lib/providers]) *)

Module Providers.
Local Open Scope deploy_scope.

(** The three provider classes with their instance fields. *)
Inductive Provider :=
| ClaudeProvider (config : Config) (artifactPath : option string)
| LocalProvider (config : Config) (sourcePath : string)
| URLProvider (config : Config) (downloadedPath : option string).

Definition is_url_provider (p : Provider) : bool :=
  match p with URLProvider _ _ => true | _ => false end.

(** [!field] for a string-or-null field. *)
Definition falsy (o : option string) : bool :=
  match o with
  | Some s => String.eqb s EmptyString
  | None => true
  end.

(** [source.match(/^https?:\/\//)] *)
Definition is_http_url (s : string) : bool :=
  String.prefix "http://" s || String.prefix "https://" s.

Definition TypeError (msg : string) : JsError := new_Error msg.

(** [path.resolve(config.source)]: a missing source is a type error. *)
Definition resolve_source (w : DeployWorld) (config : Config) : Outcome string :=
  match source config with
  | Some src => Ok (path_resolve (cwd w) src)
  | None => Throw (TypeError "The path argument must be of type string. Received undefined")
  end.

Definition new_ClaudeProvider (config : Config) : Outcome Provider :=
  Ok (ClaudeProvider config None).

Definition new_URLProvider (config : Config) : Outcome Provider :=
  Ok (URLProvider config None).

Definition new_LocalProvider (w : DeployWorld) (config : Config) : Outcome Provider :=
  sourcePath ← resolve_source w config;
  mret (LocalProvider config sourcePath).

Definition with_source (config : Config) (src : string) : Config :=
  {| name := name config; provider := provider config; source := Some src;
     database := database config; server := server config;
     auth_google_enabled := auth_google_enabled config;
     features_autoCommit := features_autoCommit config;
     features_autoDeploy := features_autoDeploy config;
     features_nginx := features_nginx config;
     features_redis := features_redis config |}.

Definition detectProvider (w : DeployWorld) (src : option string) (config : Config)
  : Outcome Provider :=
  match src with
  | None => Throw (TypeError "Cannot read properties of undefined (reading 'match')")
  | Some source =>
      if is_http_url source then
        if js_includes source "claude.ai" || js_includes source "anthropic.com" then
          new_ClaudeProvider (with_source config source)
        else new_URLProvider (with_source config source)
      else if d_pathExists w source then
        new_LocalProvider w (with_source config source)
      else
        Throw (new_Error ("Unable to detect provider for source: " ++ source))
  end.

(** [getProvider]: the lookup in the table of the three classes. Names
    that an object literal inherits ([constructor], [toString], ...) are
    not modelled; they are not provider names. *)
Definition getProvider (w : DeployWorld) (providerName : string) (config : Config)
  : Outcome Provider :=
  if String.eqb providerName "claude" then new_ClaudeProvider config
  else if String.eqb providerName "local" then new_LocalProvider w config
  else if String.eqb providerName "url" then new_URLProvider config
  else Throw (new_Error ("Unknown provider: " ++ providerName)).

Definition createProvider (w : DeployWorld) (config : Config) : M Provider :=
  let providerType := str_or (provider config) "auto" in
  if String.eqb providerType "auto" then
    emit (EvLog "Auto-detecting provider...") ;;;
    lift (detectProvider w (source config) config)
  else lift (getProvider w providerType config).

(** Lower-casing for the case-insensitive extension patterns. *)
Definition lower_ascii (c : ascii) : ascii :=
  let n := nat_of_ascii c in
  if Nat.leb 65 n && Nat.leb n 90 then ascii_of_nat (n + 32) else c.

Fixpoint lower (s : string) : string :=
  match s with
  | EmptyString => EmptyString
  | String c rest => String (lower_ascii c) (lower rest)
  end.

Fixpoint ends_with (s suffix : string) : bool :=
  String.eqb s suffix ||
  match s with
  | EmptyString => false
  | String _ rest => ends_with rest suffix
  end.

(** [url.match(/\.ext$/i)] *)
Definition has_ext (url ext : string) : bool := ends_with (lower url) ext.

(** [URLProvider.detectType] *)
Definition url_detectType (w : DeployWorld) (config : Config) : Outcome string :=
  match source config with
  | None => Throw (TypeError "Cannot read properties of undefined (reading 'match')")
  | Some url =>
      if has_ext url ".zip" then Ok "zip"
      else if has_ext url ".tar.gz" then Ok "tarball"
      else if has_ext url ".html" || has_ext url ".htm" then Ok "html"
      else if has_ext url ".md" then Ok "markdown"
      else if js_includes url "github.com" then Ok "github"
      else
        match head_content_type w with
        | Ok contentType =>
            if js_includes contentType "text/html" then Ok "html"
            else if js_includes contentType "text/markdown" then Ok "markdown"
            else if js_includes contentType "application/zip" then Ok "zip"
            else Ok "unknown"
        | Throw _ => Ok "unknown"
        end
  end.

Definition artifacts_dir (w : DeployWorld) (config : Config) (dflt : string) : string :=
  path_join (path_join (cwd w) "artifacts") (str_or (name config) dflt).

(** [validate()]: the outcome, after logging that it was called. *)
Definition validate (w : DeployWorld) (p : Provider) : M bool :=
  emit EvProviderValidate ;;;
  match p with
  | URLProvider _ downloadedPath =>
      if falsy downloadedPath then
        throw (new_Error "Artifact not downloaded yet. Call fetch() first.")
      else
        let path := str_of_opt downloadedPath in
        if negb (d_pathExists w path) then
          throw (new_Error ("Downloaded path does not exist: " ++ path))
        else emit (EvLog "Remote artifact validated") ;;; ret true
  | ClaudeProvider _ artifactPath =>
      if falsy artifactPath then
        throw (new_Error "Artifact not fetched yet. Call fetch() first.")
      else
        let path := str_of_opt artifactPath in
        if negb (d_pathExists w path) then
          throw (new_Error ("Artifact path does not exist: " ++ path))
        else
          let! files := lift (d_readdir w path) in
          if Nat.eqb (length files) 0 then
            throw (new_Error "Artifact directory is empty")
          else emit (EvLog "Artifact validated") ;;; ret true
  | LocalProvider _ sourcePath =>
      if negb (d_pathExists w sourcePath) then
        throw (new_Error ("Source path does not exist: " ++ sourcePath))
      else emit (EvLog "Local artifact validated") ;;; ret true
  end.

(** [fetch()]: the artifact and the provider with its field updated. *)
Definition fetch (w : DeployWorld) (p : Provider) : M (Artifact * Provider) :=
  emit EvProviderFetch ;;;
  match p with
  | URLProvider config _ =>
      emit (EvLog ("Downloading from: " ++ str_of_opt (source config))) ;;;
      let destDir := artifacts_dir w config "remote-artifact" in
      lift (ensureDir w) ;;;
      let! type := lift (url_detectType w config) in
      lift (if String.eqb type "github" then download_github w
            else if String.eqb type "zip" then download_zip w
            else download_file w) ;;;
      emit (EvLog ("Downloaded to " ++ destDir)) ;;;
      ret ({| art_path := destDir; art_type := type |},
           URLProvider config (Some destDir))
  | ClaudeProvider config _ =>
      emit (EvLog "Fetching Claude artifact...") ;;;
      let destDir := artifacts_dir w config "claude-artifact" in
      lift (ensureDir w) ;;;
      let! type := lift (claude_fetch_body w) in
      ret ({| art_path := destDir; art_type := type |},
           ClaudeProvider config (Some destDir))
  | LocalProvider config sourcePath =>
      emit (EvLog ("Fetching from local path: " ++ sourcePath)) ;;;
      if negb (d_pathExists w sourcePath) then
        throw (new_Error ("Source path not found: " ++ sourcePath))
      else
        let destDir := path_join (path_join (cwd w) "artifacts")
                                 (str_or (name config) (path_basename sourcePath)) in
        lift (ensureDir w) ;;;
        lift (local_copy w) ;;;
        emit (EvLog ("Copied to " ++ destDir)) ;;;
        let! type := lift (local_detectType w) in
        ret ({| art_path := destDir; art_type := type |}, p)
  end.

(** [typeof provider.prepare === 'function']: only the Claude provider
    defines [prepare]. *)
Definition has_prepare (p : Provider) : bool :=
  match p with ClaudeProvider _ _ => true | _ => false end.

Definition prepare (w : DeployWorld) (p : Provider) : M unit :=
  emit EvProviderPrepare ;;;
  lift (claude_prepare_body w).

End Providers.

(** ** The deployment orchestrator (class [DeploymentManager]) *)

Module DeploymentManager.
Local Open Scope deploy_scope.

Record DeploymentResult := {
  success : bool;
  artifact : Artifact;
  result_url : string
}.

(** [DockerManager.checkDocker] *)
Definition checkDocker (w : DeployWorld) : M bool :=
  emit EvDockerPing ;;;
  match d_ping w with
  | Ok _ => emit (EvLog "Docker is running") ;;; ret true
  | Throw _ =>
      emit (EvLog "Docker is not running") ;;;
      throw (new_Error "Docker daemon is not running. Please start Docker and try again.")
  end.

(** The list [required] that [validateEnvironment] builds. *)
Definition required_vars (config : Config) : list string :=
  let required := ["SESSION_SECRET"] in
  let required :=
    if auth_google_enabled config
    then push (push required "GOOGLE_CLIENT_ID") "GOOGLE_CLIENT_SECRET"
    else required in
  required.

Definition missing_vars (w : DeployWorld) (config : Config) : list string :=
  filter (fun key => env_unset (d_env w) key = true) (required_vars config).

Definition missing_message (missing : list string) : string :=
  "Missing required environment variables: " ++ js_join ", " missing ++ nl
  ++ "Please update your .env file.".

Definition provider_is (config : Config) (s : string) : bool :=
  match provider config with
  | Some p => String.eqb p s
  | None => false
  end.

Definition validateEnvironment (config : Config) (w : DeployWorld) : M unit :=
  checkDocker w ;;;
  let missing := missing_vars w config in
  if Nat.ltb 0 (length missing) then
    throw (new_Error (missing_message missing))
  else if provider_is config "local" then
    let! sourcePath := lift (Providers.resolve_source w config) in
    if negb (d_pathExists w sourcePath) then
      throw (new_Error ("Artifact source not found: " ++ sourcePath))
    else ret tt
  else ret tt.

Definition fetchArtifact (config : Config) (w : DeployWorld) : M Artifact :=
  let! provider := Providers.createProvider w config in
  Providers.validate w provider ;;;
  let! fetched := Providers.fetch w provider in
  (if Providers.has_prepare (snd fetched)
   then Providers.prepare w (snd fetched)
   else ret tt) ;;;
  ret (fst fetched).

(** [DatabaseManager.initialize] *)
Definition database_initialize (config : Config) (w : DeployWorld) : M unit :=
  emit EvDatabaseInitialize ;;;
  let type := str_or (database config) "sqlite" in
  (if String.eqb type "sqlite" then lift (init_sqlite w)
   else if String.eqb type "postgresql" then lift (init_postgresql w)
   else throw (new_Error ("Unsupported database type: " ++ type))) ;;;
  emit (EvLog "Database initialized").

Definition generateDockerfile (w : DeployWorld) (artifactType : string) : M unit :=
  emit (EvGenerateDockerfile artifactType) ;;;
  lift (write_dockerfile w).

Definition generateComposeFile (w : DeployWorld) (artifactType : string) : M unit :=
  emit (EvGenerateComposeFile artifactType) ;;;
  lift (write_compose w).

Definition buildImage (w : DeployWorld) (imageName : string) : M string :=
  emit (EvBuildImage imageName) ;;;
  match docker_build w with
  | Ok _ => ret imageName
  | Throw e => throw (new_Error ("Failed to build image: " ++ e_message e))
  end.

Definition container_status (c : Container) : ContainerStatus :=
  {| cs_id := String.substring 0 12 (Id c);
     cs_name := replace_first_slash (hd EmptyString (Names c));
     cs_image := Image c;
     cs_status := State_ c;
     cs_uptime := Status c |}.

Definition getContainerStatus (config : Config) (w : DeployWorld)
  : M (list ContainerStatus) :=
  emit EvGetContainerStatus ;;;
  match list_containers w with
  | Ok containers =>
      let projectContainers :=
        filter (fun container =>
                  existsb (fun nm => js_includes nm (str_of_opt (name config)))
                          (Names container) = true)
               containers in
      ret (map container_status projectContainers)
  | Throw e => throw (new_Error ("Failed to get container status: " ++ e_message e))
  end.

(** [GitManager.getCurrentCommit]: [null] when git does not answer. *)
Definition getCurrentCommit (w : DeployWorld) : M (option string) :=
  emit EvGetCurrentCommit ;;;
  match git_latest_hash w with
  | Ok h => ret (Some h)
  | Throw _ => ret None
  end.

Definition saveRollbackState (config : Config) (w : DeployWorld)
  : M (option RollbackState) :=
  try_catch_M
    (let! status := getContainerStatus config w in
     let! hash := getCurrentCommit w in
     ret (Some {| timestamp := now w; rb_containers := status; commitHash := hash |}))
    (fun _ =>
       emit (EvLog "Could not save rollback state (continuing anyway)") ;;;
       ret None).

Definition getActiveProfiles (config : Config) : list string :=
  let profiles := [] in
  let profiles :=
    if database_is config "postgresql" then push profiles "postgres" else profiles in
  let profiles :=
    if features_nginx config then push profiles "nginx" else profiles in
  let profiles :=
    if features_redis config then push profiles "redis" else profiles in
  profiles.

Definition startContainers (config : Config) (w : DeployWorld) : M unit :=
  emit (EvStartContainers (getActiveProfiles config)) ;;;
  match compose_up w with
  | Ok _ => emit (EvLog "Containers started")
  | Throw e => throw (new_Error ("Failed to start containers: " ++ e_message e))
  end.

Definition stopContainers (w : DeployWorld) : M unit :=
  emit EvStopContainers ;;;
  match compose_down w with
  | Ok _ => emit (EvLog "Containers stopped")
  | Throw e => throw (new_Error ("Failed to stop containers: " ++ e_message e))
  end.

(** [axios.get(url, { validateStatus })]: with [validateStatus: () => true]
    every response resolves; by default only a 2xx status does, and any
    other rejects with [error.response.status] set. *)
Definition axios_get (accept_any : bool) (reply : HttpReply) : Outcome nat :=
  match reply with
  | Response status =>
      if accept_any || (Nat.leb 200 status && Nat.ltb status 300) then Ok status
      else Throw {| e_message := "Request failed with status code " ++ pretty status;
                    e_code := None;
                    e_status := Some status |}
  | NetworkError code msg =>
      Throw {| e_message := msg; e_code := Some code; e_status := None |}
  end.

Definition port_str (s : Server) : string :=
  match port s with
  | Some n => pretty n
  | None => "undefined"
  end.

(** [`http://${this.config.server.host}:${this.config.server.port}`]:
    reading [host] of an undefined [server] is a type error. *)
Definition server_url (config : Config) : Outcome string :=
  match server config with
  | Some s => Ok ("http://" ++ str_of_opt (host s) ++ ":" ++ port_str s)
  | None => Throw (Providers.TypeError "Cannot read properties of undefined (reading 'host')")
  end.

Definition status_is (e : JsError) (n : nat) : bool :=
  match e_status e with
  | Some s => Nat.eqb s n
  | None => false
  end.

Definition code_is (e : JsError) (c : string) : bool :=
  match e_code e with
  | Some c' => String.eqb c' c
  | None => false
  end.

Definition verifyDeployment (config : Config) (w : DeployWorld) : M bool :=
  emit (EvSleep 5000) ;;;
  let! base := lift (server_url config) in
  let url := base ++ "/health" in
  try_catch_M
    (emit (EvHttpGet url) ;;;
     let! status := lift (axios_get true (http_health w)) in
     if Nat.eqb status 200 then
       emit (EvLog "Health check passed") ;;; ret true
     else if Nat.ltb status 500 then
       emit (EvLog "No health endpoint, but server is responding") ;;; ret true
     else throw (new_Error ("Server returned status " ++ pretty status)))
    (fun error =>
       if status_is error 404 then
         emit (EvLog "No health endpoint found (this is okay)") ;;; ret true
       else if code_is error "ECONNREFUSED" then
         emit (EvLog "Waiting for containers to be ready...") ;;;
         emit (EvSleep 5000) ;;;
         try_catch_M
           (emit (EvHttpGet (remove_first "/health" url)) ;;;
            lift (axios_get false (http_root w)) ;;;
            ret true)
           (fun retryError =>
              throw (new_Error "Containers started but application is not responding"))
       else throw error).

Definition getVersion (w : DeployWorld) : string :=
  if d_pathExists w (path_join (cwd w) "package.json") then
    match package_version w with
    | Ok v => str_or v "1.0.0"
    | Throw _ => today w
    end
  else today w.

(** [GitManager.commit]: whatever fails inside is re-thrown as
    [Commit failed: ...]. *)
Definition git_commit (w : DeployWorld) (msg : string) (push_ : bool)
  : M (option string) :=
  emit (EvGitCommit msg push_) ;;;
  match git_commit_body w with
  | Ok r => ret r
  | Throw e => throw (new_Error ("Commit failed: " ++ e_message e))
  end.

Definition displayDeploymentInfo (config : Config) : M unit :=
  let! url := lift (server_url config) in
  emit (EvLog ("Deployment Information: " ++ url)).

Definition rollback (w : DeployWorld) : M unit :=
  emit (EvLog "Attempting rollback...") ;;;
  try_catch_M
    (stopContainers w ;;;
     emit (EvLog "Rollback completed"))
    (fun error => emit (EvLog ("Rollback failed: " ++ e_message error))).

(** Steps 1 to 5 of [run]: everything before the rollback state is saved. *)
Definition before_capture (config : Config) (w : DeployWorld) : M Artifact :=
  (* Step 1: Validate environment *)
  validateEnvironment config w ;;;
  (* Step 2: Fetch artifact *)
  let! artifact := fetchArtifact config w in
  (* Step 3: Initialize database *)
  database_initialize config w ;;;
  (* Step 4: Generate Docker files *)
  generateDockerfile w (art_type artifact) ;;;
  generateComposeFile w (art_type artifact) ;;;
  (* Step 5: Build Docker image *)
  buildImage w (str_of_opt (name config) ++ ":latest") ;;;
  ret artifact.

(** Step 9: Git commit (if enabled) *)
Definition commit_step (config : Config) (w : DeployWorld) : M unit :=
  if features_autoCommit config then
    git_commit w ("deploy: " ++ str_of_opt (name config) ++ " v" ++ getVersion w)
               (features_autoDeploy config) ;;;
    emit (EvLog "Git commit created")
  else ret tt.

(** What follows a successful step 9. *)
Definition finish (config : Config) (art : Artifact) : M DeploymentResult :=
  emit (EvLog "Deployment completed successfully!") ;;;
  displayDeploymentInfo config ;;;
  let! url := lift (server_url config) in
  ret {| success := true; artifact := art; result_url := url |}.

(** Steps 7 to 9 of [run] and the successful return. *)
Definition after_capture (config : Config) (w : DeployWorld) (art : Artifact)
  : M DeploymentResult :=
  (* Step 7: Start containers *)
  startContainers config w ;;;
  (* Step 8: Verify deployment *)
  verifyDeployment config w ;;;
  commit_step config w ;;;
  finish config art.

(** The [try] block of [run]. *)
Definition run_body (config : Config) (w : DeployWorld) : M DeploymentResult :=
  let! artifact := before_capture config w in
  (* Step 6: Save rollback state *)
  let! rs := saveRollbackState config w in
  set_rollbackState rs ;;;
  after_capture config w artifact.

(** [DeploymentManager.run] *)
Definition run (config : Config) (w : DeployWorld) : M DeploymentResult :=
  emit (EvLog "Starting deployment...") ;;;
  try_catch_M (run_body config w)
    (fun error =>
       emit (EvLog "Deployment failed") ;;;
       emit (EvLog ("Error: " ++ e_message error)) ;;;
       let! rs := get_rollbackState in
       (match rs with
        | Some _ => rollback w
        | None => ret tt
        end) ;;;
       throw error).

(** The exported [run(options)]: a fresh manager for every deployment. *)
Definition deploy (config : Config) (w : DeployWorld)
  : Outcome DeploymentResult * Manager :=
  run config w new_Manager.

End DeploymentManager.


(** ** Strings: replacing and splitting *)

(** [s.replace(pat, repl)] for string arguments: the first occurrence of
    [pat] is replaced (the replacements used below hold no [$]). *)
Fixpoint js_replace (pat repl s : string) : string :=
  if String.prefix pat s then repl ++ drop_chars (String.length pat) s
  else match s with
       | EmptyString => EmptyString
       | String c rest => String c (js_replace pat repl rest)
       end.

(** [s.split('/')] *)
Fixpoint split_slash (s : string) : list string :=
  match s with
  | EmptyString => [EmptyString]
  | String c rest =>
      if Ascii.eqb c "/"%char then EmptyString :: split_slash rest
      else match split_slash rest with
           | [] => [String c EmptyString]
           | part :: parts => String c part :: parts
           end
  end.

(** [s.endsWith(suffix)] *)
Fixpoint js_endsWith (s suffix : string) : bool :=
  String.eqb s suffix ||
  match s with
  | EmptyString => false
  | String _ rest => js_endsWith rest suffix
  end.

(** [s.replace(/\/$/, '')]: one trailing slash goes. *)
Fixpoint strip_trailing_slash (s : string) : string :=
  match s with
  | EmptyString => EmptyString
  | String c rest =>
      if Ascii.eqb c "/"%char && String.eqb rest EmptyString then EmptyString
      else String c (strip_trailing_slash rest)
  end.

(** Node's [path.basename] on POSIX paths: trailing separators are
    ignored, and what follows the last remaining separator is returned. *)
Fixpoint strip_trailing_slashes (s : string) : string :=
  match s with
  | EmptyString => EmptyString
  | String c rest =>
      match strip_trailing_slashes rest with
      | EmptyString => if Ascii.eqb c "/"%char then EmptyString else String c EmptyString
      | rest' => String c rest'
      end
  end.

Definition posix_basename (p : string) : string :=
  basename_from EmptyString (strip_trailing_slashes p).

(** ** Git automation ([lib/git.js]) *)

Module GitManager.

(** What simple-git's [status()] reports, as far as the manager reads it. *)
Record Status := {
  files : list string;
  created : list string;
  modified : list string;
  deleted : list string;
  renamed : list (string * string);
  current : option string
}.

Definition inferScope (fs : list string) : string :=
  match fs with
  | [] => EmptyString
  | firstFile :: _ =>
      let parts := split_slash firstFile in
      if Nat.ltb 1 (length parts) then hd EmptyString parts else EmptyString
  end.

Definition summarizeFiles (fs : list string) : string :=
  if Nat.eqb (length fs) 0 then "files"
  else if Nat.eqb (length fs) 1 then posix_basename (hd EmptyString fs)
  else if Nat.leb (length fs) 3 then js_join ", " (map posix_basename fs)
  else pretty (length fs) ++ " files".

(** The three variables that [generateCommitMessage] assigns. *)
Definition message_parts (status : Status) : string * string * string :=
  if Nat.ltb 0 (length (created status)) then
    ("feat", inferScope (created status), "add " ++ summarizeFiles (created status))
  else if Nat.ltb 0 (length (modified status)) then
    ("update", inferScope (modified status),
     "update " ++ summarizeFiles (modified status))
  else if Nat.ltb 0 (length (deleted status)) then
    ("remove", inferScope (deleted status),
     "remove " ++ summarizeFiles (deleted status))
  else if Nat.ltb 0 (length (renamed status)) then
    ("refactor", EmptyString,
     "rename " ++ pretty (length (renamed status)) ++ " file"
     ++ (if Nat.ltb 1 (length (renamed status)) then "s" else EmptyString))
  else ("chore", EmptyString, EmptyString).

Definition generateCommitMessage (status : Status) : string :=
  match message_parts status with
  | (type, scope, subject) =>
      if String.eqb scope EmptyString then type ++ ": " ++ subject
      else type ++ "(" ++ scope ++ "): " ++ subject
  end.

(** What the repository answers to each git command. *)
Record GitWorld := {
  g_status : Outcome Status;          (* git status, before the commit *)
  g_add : Outcome unit;               (* git add . *)
  g_commit : Outcome unit;            (* git commit -m ... *)
  g_status_after : Outcome Status;    (* git status, read by push() *)
  g_push : Outcome unit               (* git push <remote> <branch> *)
}.

Inductive GitEvent :=
| GAdd (what : string)
| GCommit (fullMessage : string)
| GPush (remote : string) (branch : string).

Record CommitOptions := {
  opt_message : option string;
  opt_push : bool;
  opt_staged : bool
}.

(** The robot emoji of the footer, in UTF-8. *)
Definition robot : string :=
  String (ascii_of_nat 240) (String (ascii_of_nat 159)
    (String (ascii_of_nat 164) (String (ascii_of_nat 150) EmptyString))).

Definition footer : string := nl ++ nl ++ robot ++ " Generated with Easy Deploy".

(** A git command: its outcome and the commands issued so far. *)
Definition G (A : Type) : Type := list GitEvent -> Outcome A * list GitEvent.

Definition g_ret {A} (a : A) : G A := fun t => (Ok a, t).

Definition g_bind {A B} (c : G A) (k : A -> G B) : G B := fun t =>
  match c t with
  | (Ok a, t') => k a t'
  | (Throw e, t') => (Throw e, t')
  end.

Definition g_call (ev : option GitEvent) {A} (answer : Outcome A) : G A := fun t =>
  (answer, match ev with Some e => push t e | None => t end).

(** [try { body } catch (error) { throw new Error(prefix + error.message) }] *)
Definition g_rethrow {A} (prefix : string) (body : G A) : G A := fun t =>
  match body t with
  | (Ok a, t') => (Ok a, t')
  | (Throw e, t') => (Throw (new_Error (prefix ++ e_message e)), t')
  end.

Definition stage (w : GitWorld) (what : string) : G unit :=
  g_rethrow "Failed to stage files: " (g_call (Some (GAdd what)) (g_add w)).

(** [push()] with its default arguments: remote [origin], the current
    branch read from a fresh [status()]. *)
Definition push_default (w : GitWorld) : G unit :=
  g_rethrow "Push failed: "
    (g_bind (g_call None (g_status_after w)) (fun status =>
     g_call (Some (GPush "origin" (str_of_opt (current status)))) (g_push w))).

Definition commit (w : GitWorld) (options : CommitOptions) : G (option string) :=
  g_rethrow "Commit failed: "
    (g_bind (g_call None (g_status w)) (fun status =>
     if Nat.eqb (length (files status)) 0 then g_ret None
     else
       g_bind (if negb (opt_staged options) then stage w "." else g_ret tt) (fun _ =>
       let message :=
         match opt_message options with
         | Some m => if String.eqb m EmptyString then generateCommitMessage status else m
         | None => generateCommitMessage status
         end in
       let fullMessage := message ++ footer in
       g_bind (g_call (Some (GCommit fullMessage)) (g_commit w)) (fun _ =>
       g_bind (if opt_push options then push_default w else g_ret tt) (fun _ =>
       g_ret (Some message)))))).

Definition is_commit (ev : GitEvent) : bool :=
  match ev with GCommit _ => true | _ => false end.

End GitManager.

(** ** Type detection of the providers and the GitHub download *)

Module ArtifactTypes.

(** A [package.json], as far as [detectDirectoryType] reads it. *)
Record PackageJson := {
  dependencies : gmap string string;
  devDependencies : gmap string string
}.

(** [deps.key], as a condition. *)
Definition dep (deps : gmap string string) (key : string) : bool :=
  match deps !! key with
  | Some v => negb (String.eqb v EmptyString)
  | None => false
  end.

(** [{ ...packageJson.dependencies, ...packageJson.devDependencies }]:
    on a common key the later spread wins. *)
Definition all_deps (pkg : PackageJson) : gmap string string :=
  devDependencies pkg ∪ dependencies pkg.

(** [LocalProvider.detectDirectoryType], given the listing of the
    directory and what reading its [package.json] answers. *)
Definition detectDirectoryType (listing : list string) (readJSON : Outcome PackageJson)
  : Outcome string :=
  if existsb (String.eqb "package.json") listing then
    packageJson ← readJSON;
    let deps := all_deps packageJson in
    if dep deps "react" || dep deps "react-dom" then Ok "react"
    else if dep deps "vue" then Ok "vue"
    else if dep deps "svelte" then Ok "svelte"
    else if dep deps "next" then Ok "next"
    else if dep deps "nuxt" then Ok "nuxt"
    else Ok "node"
  else if existsb (fun f => js_endsWith f ".html") listing then Ok "html"
  else if existsb (fun f => js_endsWith f ".md") listing then Ok "markdown"
  else Ok "unknown".

Definition reactPatterns : list string :=
  ["import React"; "from 'react'"; "from " ++ String (ascii_of_nat 34) "react"
                                          ++ String (ascii_of_nat 34) EmptyString;
   "useState"; "useEffect"; "className="; "jsx"; "React.Component"; "<div";
   "export default function"].

Definition containsReactPatterns (content : string) : bool :=
  existsb (fun pattern => js_includes content pattern) reactPatterns.

(** [ClaudeProvider.detectType], given the artifact content, the source
    and whether the content matches [/^#\s+/m]. *)
Definition claude_detectType (content : string) (src : string) (heading : bool)
  : string :=
  if containsReactPatterns content then "react"
  else if js_includes content "<!DOCTYPE html>" || js_includes content "<html" then "html"
  else if js_endsWith src ".md" || heading then "markdown"
  else if js_includes content "<template>" || js_includes content "Vue.component" then "vue"
  else if js_includes content "<script>" && js_includes content "<style>"
          && js_endsWith src ".svelte" then "svelte"
  else "unknown".

(** The download URL that [URLProvider.fetchFromGitHub] builds. *)
Definition github_zip_url (src : string) : string :=
  if js_includes src "/tree/" then
    js_replace "/tree/" "/archive/refs/heads/" src ++ ".zip"
  else if negb (js_endsWith src ".zip") then
    strip_trailing_slash src ++ "/archive/refs/heads/main.zip"
  else src.

End ArtifactTypes.

(** ** Docker files and status ([lib/docker.js]) *)

Module DockerFiles.
Local Open Scope deploy_scope.

Definition build_marker : string := "# Build if needed".

Definition customizeForReact (template : string) : string :=
  js_replace build_marker ("# Build React app" ++ nl ++ "RUN npm run build") template.

Definition customizeForHTML (template : string) : string :=
  "FROM nginx:alpine" ++ nl ++ "COPY . /usr/share/nginx/html" ++ nl
  ++ "EXPOSE 80" ++ nl
  ++ "CMD [" ++ String (ascii_of_nat 34) "nginx" ++ String (ascii_of_nat 34) ", "
  ++ String (ascii_of_nat 34) "-g" ++ String (ascii_of_nat 34) ", "
  ++ String (ascii_of_nat 34) "daemon off;" ++ String (ascii_of_nat 34) "]".

Definition customizeForNext (template : string) : string :=
  js_replace "npm start" "npm run start" template.

(** The text that [generateDockerfile] writes, given the template. *)
Definition dockerfile_for (artifactType template : string) : string :=
  if String.eqb artifactType "react" then customizeForReact template
  else if String.eqb artifactType "html" then customizeForHTML template
  else if String.eqb artifactType "next" then customizeForNext template
  else template.

(** What [checkStatus] returns. *)
Record StatusReport := {
  sr_running : bool;
  sr_containers : option (list ContainerStatus);
  sr_error : option string
}.

(** [checkStatus(configPath)], given what loading the configuration
    answers. *)
Definition checkStatus (loaded : Outcome Config) (w : DeployWorld) : M StatusReport :=
  try_catch_M
    (let! config := lift loaded in
     DeploymentManager.checkDocker w ;;;
     let! status := DeploymentManager.getContainerStatus config w in
     if Nat.eqb (length status) 0 then
       emit (EvLog "No containers running") ;;;
       ret {| sr_running := false; sr_containers := Some []; sr_error := None |}
     else
       emit (EvLog (pretty (length status) ++ " container(s) running:")) ;;;
       ret {| sr_running := true; sr_containers := Some status; sr_error := None |})
    (fun error =>
       emit (EvLog ("Error checking status: " ++ e_message error)) ;;;
       ret {| sr_running := false; sr_containers := None;
              sr_error := Some (e_message error) |}).

End DockerFiles.


(** * Concrete environments

    Small worlds on which the definitions above are run: they serve as
    test inputs, witnesses and counterexamples below. *)

Module Examples.
Import ConfigDetector.

Definition ENOENT : JsError :=
  {| e_message := "ENOENT: no such file or directory";
     e_code := Some "ENOENT"; e_status := None |}.

Definition EACCES : JsError :=
  {| e_message := "EACCES: permission denied, scandir";
     e_code := Some "EACCES"; e_status := None |}.

Definition ECONNREFUSED : JsError :=
  {| e_message := "connect ECONNREFUSED /var/run/docker.sock";
     e_code := Some "ECONNREFUSED"; e_status := None |}.

(** A configuration as the setup wizard writes it, with Google OAuth on. *)
Definition shop_config : Config :=
  {| name := Some "shop";
     provider := Some "local";
     source := Some "./app";
     database := Some "sqlite";
     server := Some {| host := Some "localhost"; port := Some 3000 |};
     auth_google_enabled := true;
     features_autoCommit := true;
     features_autoDeploy := false;
     features_nginx := false;
     features_redis := false |}.

(** The same project on the networked database, without OAuth. *)
Definition pg_config : Config :=
  {| name := Some "shop";
     provider := Some "local";
     source := Some "./app";
     database := Some "postgresql";
     server := Some {| host := Some "localhost"; port := Some 3000 |};
     auth_google_enabled := false;
     features_autoCommit := false;
     features_autoDeploy := false;
     features_nginx := false;
     features_redis := false |}.

(** The same project fetched from a plain URL. *)
Definition url_config : Config :=
  {| name := Some "shop";
     provider := Some "url";
     source := Some "https://example.org/site.zip";
     database := Some "sqlite";
     server := Some {| host := Some "localhost"; port := Some 3000 |};
     auth_google_enabled := false;
     features_autoCommit := false;
     features_autoDeploy := false;
     features_nginx := false;
     features_redis := false |}.

(** The same project with Google OAuth on and the networked database. *)
Definition pg_oauth_config : Config :=
  {| name := Some "shop";
     provider := Some "local";
     source := Some "./app";
     database := Some "postgresql";
     server := Some {| host := Some "localhost"; port := Some 3000 |};
     auth_google_enabled := true;
     features_autoCommit := false;
     features_autoDeploy := false;
     features_nginx := false;
     features_redis := false |}.

Definition one_of (paths : list string) (p : string) : bool :=
  existsb (String.eqb p) paths.

(** An empty directory and a Docker daemon that does not answer. *)
Definition empty_dir_daemon_down : World :=
  {| baseDir := "/srv/shop";
     pathExists := fun _ => false;
     require_config := Throw ENOENT;
     readdir := fun _ => Throw ENOENT;
     stat := fun _ => Throw ENOENT;
     docker_ping := Throw ECONNREFUSED;
     docker_listAll := Throw ECONNREFUSED;
     docker_listRunning := Throw ECONNREFUSED;
     process_env := ∅;
     env_file_contents := EmptyString |}.

(** A Node.js project that was never configured (a [package.json], no
    configuration file), and a Docker daemon that does not answer. *)
Definition node_project_daemon_down : World :=
  {| baseDir := "/srv/shop";
     pathExists := one_of ["/srv/shop/package.json"];
     require_config := Throw ENOENT;
     readdir := fun _ => Throw ENOENT;
     stat := fun _ => Throw ENOENT;
     docker_ping := Throw ECONNREFUSED;
     docker_listAll := Throw ECONNREFUSED;
     docker_listRunning := Throw ECONNREFUSED;
     process_env := ∅;
     env_file_contents := EmptyString |}.

(** A configured project whose source exists, no [.env] file, no variable
    set, and a Docker daemon that does not answer. *)
Definition configured_daemon_down : World :=
  {| baseDir := "/srv/shop";
     pathExists := one_of ["/srv/shop/easy-deploy.config.js"; "/srv/shop/./app"];
     require_config := Ok shop_config;
     readdir := fun _ => Throw ENOENT;
     stat := fun _ => Throw ENOENT;
     docker_ping := Throw ECONNREFUSED;
     docker_listAll := Throw ECONNREFUSED;
     docker_listRunning := Throw ECONNREFUSED;
     process_env := ∅;
     env_file_contents := EmptyString |}.

(** A configured project with a [.env] file, a running daemon without
    containers, OAuth on, and only [SESSION_SECRET] set. *)
Definition configured_oauth_unset : World :=
  {| baseDir := "/srv/shop";
     pathExists := one_of ["/srv/shop/easy-deploy.config.js"; "/srv/shop/./app";
                           "/srv/shop/.env"];
     require_config := Ok shop_config;
     readdir := fun _ => Throw ENOENT;
     stat := fun _ => Throw ENOENT;
     docker_ping := Ok tt;
     docker_listAll := Ok [];
     docker_listRunning := Ok [];
     process_env := {[ "SESSION_SECRET" := "s3cret" ]};
     env_file_contents := "SESSION_SECRET=s3cret" |}.

(** A configured project with OAuth on and the networked database, an
    (empty) [.env] file, and no variable set in the process environment. *)
Definition configured_nothing_set : World :=
  {| baseDir := "/srv/shop";
     pathExists := one_of ["/srv/shop/easy-deploy.config.js"; "/srv/shop/./app";
                           "/srv/shop/.env"];
     require_config := Ok pg_oauth_config;
     readdir := fun _ => Throw ENOENT;
     stat := fun _ => Throw ENOENT;
     docker_ping := Ok tt;
     docker_listAll := Ok [];
     docker_listRunning := Ok [];
     process_env := ∅;
     env_file_contents := EmptyString |}.

(** No configuration yet, and an [artifacts] directory that cannot be
    listed. *)
Definition artifacts_unreadable : World :=
  {| baseDir := "/srv/shop";
     pathExists := one_of ["/srv/shop/artifacts"];
     require_config := Throw ENOENT;
     readdir := fun _ => Throw EACCES;
     stat := fun _ => Throw ENOENT;
     docker_ping := Ok tt;
     docker_listAll := Ok [];
     docker_listRunning := Ok [];
     process_env := ∅;
     env_file_contents := EmptyString |}.

(** No configuration yet, and an [artifacts] directory that holds a
    dangling symbolic link, on which [fs.stat] rejects. *)
Definition artifacts_dangling_link : World :=
  {| baseDir := "/srv/shop";
     pathExists := one_of ["/srv/shop/artifacts"];
     require_config := Throw ENOENT;
     readdir := fun _ => Ok ["old-build"];
     stat := fun _ => Throw ENOENT;
     docker_ping := Ok tt;
     docker_listAll := Ok [];
     docker_listRunning := Ok [];
     process_env := ∅;
     env_file_contents := EmptyString |}.

(** Replacing what the [.env] file holds. *)
Definition with_env_file_contents (w : World) (contents : string) : World :=
  {| baseDir := baseDir w;
     pathExists := pathExists w;
     require_config := require_config w;
     readdir := readdir w;
     stat := stat w;
     docker_ping := docker_ping w;
     docker_listAll := docker_listAll w;
     docker_listRunning := docker_listRunning w;
     process_env := process_env w;
     env_file_contents := contents |}.

(** What a test looks at in the outcome of [detect]: the displayed type,
    the base classification, and the messages of the errors. *)
Definition summary (o : Outcome (option State))
  : option (StateType * option StateType * list string) :=
  match o with
  | Ok (Some s) =>
      Some (type s, base_of s,
            match errors s with
            | Some es => map err_message es
            | None => []
            end)
  | _ => None
  end.

End Examples.


(** * Auxiliary notions for the deployment run *)

Module RunSpec.
Import DeploymentManager.
Local Open Scope deploy_scope.

(** The manager when the [try] block of [run] is entered on a fresh
    [DeploymentManager]: nothing captured, one line logged. *)
Definition started : Manager :=
  {| rollbackState := None; trace := [EvLog "Starting deployment..."] |}.

(** Steps 1 to 8 of [run], in the order of its [try] block. *)
Definition through_verify (config : Config) (w : DeployWorld) : M Artifact :=
  let! artifact := before_capture config w in
  let! rs := saveRollbackState config w in
  set_rollbackState rs ;;;
  startContainers config w ;;;
  verifyDeployment config w ;;;
  ret artifact.

(** The provider that [createProvider] hands to [fetchArtifact]. *)
Definition selected_provider (w : DeployWorld) (config : Config)
  : Outcome Providers.Provider :=
  fst (Providers.createProvider w config new_Manager).

(** A method that neither stops containers nor touches the captured
    rollback state. *)
Definition quiet {A} (c : M A) : Prop :=
  forall (m : Manager) (r : Outcome A) (m' : Manager),
    c m = (r, m') ->
    rollbackState m' = rollbackState m
    /\ count_events is_stop (trace m') = count_events is_stop (trace m).

(** What the URL provider's [validate] throws before any [fetch]. *)
Definition not_downloaded : JsError :=
  new_Error "Artifact not downloaded yet. Call fetch() first.".

(** [v] occurs in [s]. *)
Definition occurs_in (v s : string) : Prop :=
  exists pre post : string, s = pre ++ v ++ post.

Definition refused : HttpReply :=
  NetworkError "ECONNREFUSED" "connect ECONNREFUSED 127.0.0.1:3000".

(** A deployment environment in which every call succeeds, except for
    the ones given as arguments. *)
Definition world_with (env : gmap string string)
           (up down : Outcome unit) (health root : HttpReply)
           (commit : Outcome (option string)) : DeployWorld :=
  {| cwd := "/srv/shop";
     d_env := env;
     d_pathExists := Examples.one_of ["/srv/shop/./app"];
     d_readdir := fun _ => Ok ["index.html"];
     d_ping := Ok tt;
     ensureDir := Ok tt;
     head_content_type := Ok "text/html";
     download_github := Ok tt;
     download_zip := Ok tt;
     download_file := Ok tt;
     claude_fetch_body := Ok "html";
     claude_prepare_body := Ok tt;
     local_copy := Ok tt;
     local_detectType := Ok "html";
     init_sqlite := Ok tt;
     init_postgresql := Ok tt;
     write_dockerfile := Ok tt;
     write_compose := Ok tt;
     docker_build := Ok tt;
     list_containers := Ok [];
     compose_up := up;
     compose_down := down;
     http_health := health;
     http_root := root;
     git_latest_hash := Ok "4f2a9c1";
     git_commit_body := commit;
     now := 1700000000%N;
     package_version := Ok (Some "1.2.0");
     today := "2024-01-01" |}.

Definition full_env : gmap string string :=
  {[ "SESSION_SECRET" := "s3cret";
     "GOOGLE_CLIENT_ID" := "id";
     "GOOGLE_CLIENT_SECRET" := "secret" ]}.

Definition git_failure : JsError := new_Error "nothing added to commit".

Definition compose_failure : JsError := new_Error "Command failed: docker-compose".

(** Everything works. *)
Definition happy : DeployWorld :=
  world_with full_env (Ok tt) (Ok tt) (Response 200) (Response 200)
             (Ok (Some "deploy: shop v1.2.0")).

(** Everything works up to the git commit, which fails. *)
Definition commit_fails : DeployWorld :=
  world_with full_env (Ok tt) (Ok tt) (Response 200) (Response 200)
             (Throw git_failure).

(** The containers do not start, and stopping them fails as well. *)
Definition start_fails : DeployWorld :=
  world_with full_env (Throw compose_failure) (Throw compose_failure)
             (Response 200) (Response 200) (Ok None).

(** No variable is set. *)
Definition nothing_set : DeployWorld :=
  world_with ∅ (Ok tt) (Ok tt) (Response 200) (Response 200) (Ok None).

(** The first probe is refused; the retry is answered with 404. *)
Definition refused_then_404 : DeployWorld :=
  world_with full_env (Ok tt) (Ok tt) refused (Response 404) (Ok None).

(** The first probe is answered with 404: the server runs and has no
    health endpoint. *)
Definition first_answered_404 : DeployWorld :=
  world_with full_env (Ok tt) (Ok tt) (Response 404) (Response 404) (Ok None).

(** The first probe is refused; the retry is answered with 200. *)
Definition refused_then_200 : DeployWorld :=
  world_with full_env (Ok tt) (Ok tt) refused (Response 200) (Ok None).

(** What a test looks at in the outcome of a run. *)
Definition outcome_message {A} (r : Outcome A * Manager) : option string :=
  match fst r with
  | Ok _ => None
  | Throw e => Some (e_message e)
  end.

Definition stops {A} (r : Outcome A * Manager) : nat :=
  count_events is_stop (trace (snd r)).

Definition http_gets {A} (r : Outcome A * Manager) : nat :=
  count_events is_http_get (trace (snd r)).

End RunSpec.


(** * Auxiliary notions for the further properties *)

Module DetectorSpec.
Import ConfigDetector.

(** The kinds of the errors that a state carries, in order. *)
Definition error_types (s : State) : list ErrorType :=
  match errors s with
  | Some es => map err_type es
  | None => []
  end.

(** A configuration is loaded, names a source, and the source is not on
    disk. *)
Definition source_missing (w : World) : bool :=
  match loadConfig w with
  | Some config =>
      match source config with
      | Some src =>
          negb (String.eqb src EmptyString)
          && negb (pathExists w (path_resolve (baseDir w) src))
      | None => false
      end
  | None => false
  end.

Definition is_docker_error (e : DetectedError) : bool :=
  match err_type e with docker_not_running => true | _ => false end.

(** A fix answers an error. *)
Definition fix_answers (e : DetectedError) (f : Fix) : Prop :=
  fix_error f = err_type e
  /\ autoFixable f = negb (is_docker_error e)
  /\ length (instructions f) = 3.

(** A variable is set to a non-empty value. *)
Definition env_set (env : gmap string string) (key : string) : Prop :=
  exists v : string, env !! key = Some v /\ v <> EmptyString.

(** A container of the daemon that [checkDeployment] counts for the
    project. *)
Definition project_container (config : Config) (c : Container) : Prop :=
  exists nm : string,
    In nm (Names c)
    /\ (js_includes nm (str_of_opt (name config)) = true
        \/ js_includes nm "easy-deploy" = true).

(** A configured project without a [database] entry whose SQLite file
    exists. *)
Definition no_database_entry : Config :=
  {| name := Some "shop";
     provider := Some "local";
     source := Some "./app";
     database := None;
     server := None;
     auth_google_enabled := false;
     features_autoCommit := false;
     features_autoDeploy := false;
     features_nginx := false;
     features_redis := false |}.

Definition sqlite_file_present : World :=
  {| baseDir := "/srv/shop";
     pathExists := Examples.one_of ["/srv/shop/easy-deploy.config.js"; "/srv/shop/./app";
                                    "/srv/shop/.env"; "/srv/shop/data/app.db"];
     require_config := Ok no_database_entry;
     readdir := fun _ => Throw Examples.ENOENT;
     stat := fun _ => Throw Examples.ENOENT;
     docker_ping := Ok tt;
     docker_listAll :=
       Ok [{| Id := "0123456789abcdef"; Names := ["/easy-deploy-proxy"];
              Image := "nginx"; State_ := "exited"; Status := "Exited (0)" |}];
     docker_listRunning := Ok [];
     process_env := {[ "SESSION_SECRET" := EmptyString ]};
     env_file_contents := "SESSION_SECRET=" |}.

End DetectorSpec.

Module RunMore.
Import DeploymentManager RunSpec.

(** The same world with another answer of the container listing. *)
Definition with_list_containers (w : DeployWorld) (answer : Outcome (list Container))
  : DeployWorld :=
  {| cwd := cwd w;
     d_env := d_env w;
     d_pathExists := d_pathExists w;
     d_readdir := d_readdir w;
     d_ping := d_ping w;
     ensureDir := ensureDir w;
     head_content_type := head_content_type w;
     download_github := download_github w;
     download_zip := download_zip w;
     download_file := download_file w;
     claude_fetch_body := claude_fetch_body w;
     claude_prepare_body := claude_prepare_body w;
     local_copy := local_copy w;
     local_detectType := local_detectType w;
     init_sqlite := init_sqlite w;
     init_postgresql := init_postgresql w;
     write_dockerfile := write_dockerfile w;
     write_compose := write_compose w;
     docker_build := docker_build w;
     list_containers := answer;
     compose_up := compose_up w;
     compose_down := compose_down w;
     http_health := http_health w;
     http_root := http_root w;
     git_latest_hash := git_latest_hash w;
     git_commit_body := git_commit_body w;
     now := now w;
     package_version := package_version w;
     today := today w |}.

(** The containers cannot be listed, and then do not start. *)
Definition no_capture_start_fails : DeployWorld :=
  with_list_containers start_fails (Throw Examples.ECONNREFUSED).

(** The first probe runs into the timeout. *)
Definition health_times_out : DeployWorld :=
  world_with full_env (Ok tt) (Ok tt)
             (NetworkError "ECONNABORTED" "timeout of 10000ms exceeded")
             (Response 200) (Ok None).

(** The same project with an artifact published on claude.ai, the
    provider left to auto-detection. *)
Definition claude_config : Config :=
  {| name := Some "shop";
     provider := None;
     source := Some "https://claude.ai/public/artifacts/1234";
     database := Some "sqlite";
     server := Some {| host := Some "localhost"; port := Some 3000 |};
     auth_google_enabled := false;
     features_autoCommit := false;
     features_autoDeploy := false;
     features_nginx := false;
     features_redis := false |}.

Definition is_start (ev : Event) : bool :=
  match ev with EvStartContainers _ => true | _ => false end.

(** A method that starts no container. *)
Definition starts_nothing {A} (c : M A) : Prop :=
  forall (m : Manager) (r : Outcome A) (m' : Manager),
    c m = (r, m') ->
    count_events is_start (trace m') = count_events is_start (trace m).

(** Steps 1 to 4 of [run]. *)
Definition through_generate (config : Config) (w : DeployWorld) : M Artifact :=
  bind (bind (validateEnvironment config w) (fun _ => fetchArtifact config w))
       (fun artifact =>
          bind (database_initialize config w) (fun _ =>
          bind (generateDockerfile w (art_type artifact)) (fun _ =>
          bind (generateComposeFile w (art_type artifact)) (fun _ =>
          ret artifact)))).

(** The build request is rejected: the disk is full. *)
Definition build_rejected : DeployWorld :=
  {| cwd := cwd happy;
     d_env := d_env happy;
     d_pathExists := d_pathExists happy;
     d_readdir := d_readdir happy;
     d_ping := d_ping happy;
     ensureDir := ensureDir happy;
     head_content_type := head_content_type happy;
     download_github := download_github happy;
     download_zip := download_zip happy;
     download_file := download_file happy;
     claude_fetch_body := claude_fetch_body happy;
     claude_prepare_body := claude_prepare_body happy;
     local_copy := local_copy happy;
     local_detectType := local_detectType happy;
     init_sqlite := init_sqlite happy;
     init_postgresql := init_postgresql happy;
     write_dockerfile := write_dockerfile happy;
     write_compose := write_compose happy;
     docker_build := Throw (new_Error "no space left on device");
     list_containers := list_containers happy;
     compose_up := compose_up happy;
     compose_down := compose_down happy;
     http_health := http_health happy;
     http_root := http_root happy;
     git_latest_hash := git_latest_hash happy;
     git_commit_body := git_commit_body happy;
     now := now happy;
     package_version := package_version happy;
     today := today happy |}.

(** The property names that every object literal inherits: looked up in
    the provider table of [getProvider] they do not give [undefined]. *)
Definition inherited_names : list string :=
  ["constructor"; "__proto__"; "hasOwnProperty"; "isPrototypeOf";
   "propertyIsEnumerable"; "toLocaleString"; "toString"; "valueOf";
   "__defineGetter__"; "__defineSetter__"; "__lookupGetter__"; "__lookupSetter__"].

(** The types that [URLProvider.detectType] can answer. *)
Definition url_types : list string :=
  ["zip"; "tarball"; "html"; "markdown"; "github"; "unknown"].

(** What [saveRollbackState] records of git. *)
Definition recorded_hash (w : DeployWorld) : option string :=
  match git_latest_hash w with
  | Ok h => Some h
  | Throw _ => None
  end.

End RunMore.

Module MoreExamples.
Import GitManager ArtifactTypes DockerFiles.

(** Two new files below [src], nothing else. *)
Definition two_new_files : Status :=
  {| files := ["src/app.js"; "src/lib/util.js"];
     created := ["src/app.js"; "src/lib/util.js"];
     modified := [];
     deleted := [];
     renamed := [];
     current := Some "main" |}.

Definition clean_tree : Status :=
  {| files := []; created := []; modified := []; deleted := []; renamed := [];
     current := Some "main" |}.

Definition rejected : JsError := new_Error "remote rejected".

(** Changes to commit, and a remote that rejects the push. *)
Definition push_rejected : GitWorld :=
  {| g_status := Ok two_new_files;
     g_add := Ok tt;
     g_commit := Ok tt;
     g_status_after := Ok clean_tree;
     g_push := Throw rejected |}.

(** Nothing to commit. *)
Definition nothing_to_commit : GitWorld :=
  {| g_status := Ok clean_tree;
     g_add := Ok tt;
     g_commit := Ok tt;
     g_status_after := Ok clean_tree;
     g_push := Ok tt |}.

Definition commit_and_push : CommitOptions :=
  {| opt_message := None; opt_push := true; opt_staged := false |}.

(** A Next.js application: it depends on [next] and on [react]. *)
Definition next_app : PackageJson :=
  {| dependencies := {[ "next" := "14.0.0"; "react" := "^18.2.0";
                        "react-dom" := "^18.2.0" ]};
     devDependencies := {[ "eslint" := "^8.0.0" ]} |}.

(** A Dockerfile template with the build marker. *)
Definition node_template : string :=
  "FROM node:18-alpine" ++ nl ++ "COPY . ." ++ nl ++ "# Build if needed" ++ nl
  ++ "CMD npm start".

Definition directory_types : list string :=
  ["react"; "vue"; "svelte"; "next"; "nuxt"; "node"].

End MoreExamples.

Module FirstLaunch.
Import ConfigDetector.

(** No configuration yet; the [artifacts] directory holds a directory and
    a file. *)
Definition one_artifact : World :=
  {| baseDir := "/srv/shop";
     pathExists := Examples.one_of ["/srv/shop/artifacts"; "/srv/shop/package.json"];
     require_config := Throw Examples.ENOENT;
     readdir := fun _ => Ok ["landing"; "notes.txt"];
     stat := fun p => if String.eqb p "/srv/shop/artifacts/landing"
                      then Ok IsDirectory else Ok IsFile;
     docker_ping := Ok tt;
     docker_listAll := Ok [];
     docker_listRunning := Ok [];
     process_env := ∅;
     env_file_contents := EmptyString |}.

End FirstLaunch.


(** * Properties of the state detector *)

Section DetectorFacts.
Import ConfigDetector.

Lemma bind_Ok_inv {A B} (m : Outcome A) (f : A -> Outcome B) (b : B) :
  m ≫= f = Ok b -> exists a, m = Ok a /\ f a = Ok b.
Proof.
  destruct m as [a|e]; simpl; intros H.
  - exists a. split; [reflexivity | exact H].
  - discriminate H.
Qed.

(** The three conditionals of [detect] cover every combination of probe
    results, so a fresh state object is always assigned. *)
Lemma classify_assigns (prev : option State) (w : World) (c : Checks)
      (st : option State) :
  classify prev w c = Ok st ->
  exists s, st = Some s
            /\ type s = base_of_checks c
            /\ base_of s = Some (type s)
            /\ checks s = c
            /\ errors s = None /\ fixes s = None.
Proof.
  unfold classify, base_of_checks.
  destruct (configExists c) eqn:Hc, (deploymentRunning c) eqn:Hd; simpl; intros H.
  - inversion H; subst; clear H. eexists; repeat split; reflexivity.
  - inversion H; subst; clear H. eexists; repeat split; reflexivity.
  - apply bind_Ok_inv in H as (sg & _ & H). inversion H; subst; clear H.
    eexists; repeat split; reflexivity.
  - apply bind_Ok_inv in H as (sg & _ & H). inversion H; subst; clear H.
    eexists; repeat split; reflexivity.
Qed.

(** The first branch of [detect]: without a configuration file the state
    that is assigned holds the first-launch message and the suggestions,
    and neither [config] nor [deployment]. *)
Lemma classify_first_launch (prev : option State) (w : World) (c : Checks)
      (base : State) :
  configExists c = false ->
  classify prev w c = Ok (Some base) ->
  message base = "No configuration found. Starting setup..."
  /\ (exists sgs : list Suggestion,
         getFirstLaunchSuggestions w = Ok sgs /\ suggestions base = Some sgs)
  /\ config base = None
  /\ deployment base = None.
Proof.
  unfold classify. intros -> H. simpl in H.
  apply bind_Ok_inv in H as (sgs & Hsg & H). inversion H; subst; clear H. simpl.
  split; [reflexivity|]. split; [|split; reflexivity].
  exists sgs. split; [exact Hsg | reflexivity].
Qed.

(** What [detect] returns, in terms of its three phases. *)
Lemma detect_inv (prev : option State) (w : World) (s : State) :
  detect prev w = Ok (Some s) ->
  exists c base,
    run_checks w = Ok c
    /\ classify prev w c = Ok (Some base)
    /\ ((detectErrors w c = [] /\ s = base)
        \/ (detectErrors w c <> []
            /\ mark_error (Some base) (detectErrors w c) = Ok (Some s))).
Proof.
  unfold detect. intros H.
  apply bind_Ok_inv in H as (c & Hc & H).
  apply bind_Ok_inv in H as (st & Hst & H).
  destruct (classify_assigns _ _ _ _ Hst) as (base & -> & _).
  exists c, base. repeat split; try assumption.
  destruct (detectErrors w c) as [|e es] eqn:He; simpl in H.
  - left. split; [reflexivity | congruence].
  - right. split; [discriminate | exact H].
Qed.

Lemma run_checks_fields (w : World) (c : Checks) :
  run_checks w = Ok c ->
  configExists c = checkConfig w
  /\ dockerRunning c = checkDocker w
  /\ deploymentRunning c = checkDeployment w
  /\ envValid c = checkEnv w
  /\ databaseExists c = checkDatabase w.
Proof.
  unfold run_checks. intros H.
  apply bind_Ok_inv in H as (a & _ & H). inversion H; subst; clear H.
  repeat split; reflexivity.
Qed.

Lemma loadConfig_no_file (w : World) :
  checkConfig w = false -> loadConfig w = None.
Proof. unfold checkConfig, loadConfig. intros ->. reflexivity. Qed.

(** The [filter] of [checkEnv]: what it keeps, and that it keeps
    everything when nothing is set. *)
Lemma missing_vars_In (env : gmap string string) (required : list string) (v : string) :
  In v (missing_vars env required) <-> In v required /\ env_unset env v = true.
Proof.
  unfold missing_vars. rewrite <- !list_elem_of_In, list_elem_of_filter. tauto.
Qed.

Lemma missing_vars_all_unset (env : gmap string string) (required : list string) :
  (forall v : string, In v required -> env_unset env v = true) ->
  missing_vars env required = required.
Proof.
  unfold missing_vars. induction required as [|r rest IH]; intros Hall.
  - reflexivity.
  - rewrite filter_cons_True by (apply Hall; left; reflexivity).
    f_equal. apply IH. intros v Hv. apply Hall. right. exact Hv.
Qed.

End DetectorFacts.

Section DetectorClaims.
Import ConfigDetector Examples.

Example detect_configured_daemon_down :
  summary (detect None configured_daemon_down) =
  Some (error, Some configured_not_deployed, ["Docker is not running"]).
Proof. vm_compute. reflexivity. Qed.

Example detect_oauth_unset :
  summary (detect None configured_oauth_unset) =
  Some (error, Some configured_not_deployed,
        ["Missing environment variables: GOOGLE_CLIENT_ID, GOOGLE_CLIENT_SECRET"]).
Proof. vm_compute. reflexivity. Qed.

Lemma required_vars_list (config : Config) :
  required_vars config =
    (["SESSION_SECRET"]
       ++ (if auth_google_enabled config
           then ["GOOGLE_CLIENT_ID"; "GOOGLE_CLIENT_SECRET"] else [])
       ++ (if database_is config "postgresql" then ["DATABASE_URL"] else []))%list.
Proof.
  unfold required_vars, push.
  destruct (auth_google_enabled config), (database_is config "postgresql"); reflexivity.
Qed.

Lemma required_vars_In (config : Config) (v : string) :
  In v (required_vars config) <->
  v = "SESSION_SECRET"
  \/ (auth_google_enabled config = true
      /\ (v = "GOOGLE_CLIENT_ID" \/ v = "GOOGLE_CLIENT_SECRET"))
  \/ (database_is config "postgresql" = true /\ v = "DATABASE_URL").
Proof.
  rewrite required_vars_list.
  destruct (auth_google_enabled config), (database_is config "postgresql"); simpl;
    intuition (try discriminate; auto).
Qed.

(** C8. The list of required variables that the env probe builds is exactly
    [SESSION_SECRET], followed by the two Google variables when (and only
    when) OAuth is enabled, followed by [DATABASE_URL] when (and only when)
    the database is ['postgresql']; it has no duplicates, and for each of
    the four combinations it is the expected list. The probe itself shows
    this set: with a [.env] file and the configuration loaded, [checkEnv]
    reports a variable as missing exactly when it is in the set and unset
    in the process environment, it is valid exactly when none is reported,
    and with nothing set it reports the whole list, in this order. *)
Theorem required_vars_exact (config : Config) :
  required_vars config =
    (["SESSION_SECRET"]
       ++ (if auth_google_enabled config
           then ["GOOGLE_CLIENT_ID"; "GOOGLE_CLIENT_SECRET"] else [])
       ++ (if database_is config "postgresql" then ["DATABASE_URL"] else []))%list
  /\ NoDup (required_vars config)
  /\ (forall v : string,
         In v (required_vars config) <->
         v = "SESSION_SECRET"
         \/ (auth_google_enabled config = true
             /\ (v = "GOOGLE_CLIENT_ID" \/ v = "GOOGLE_CLIENT_SECRET"))
         \/ (database_is config "postgresql" = true /\ v = "DATABASE_URL"))
  /\ (forall w : World,
         pathExists w (path_join (baseDir w) ".env") = true ->
         loadConfig w = Some config ->
         exists_ (checkEnv w) = true
         /\ (forall v : string,
                In v (missing (checkEnv w)) <->
                env_unset (process_env w) v = true
                /\ (v = "SESSION_SECRET"
                    \/ (auth_google_enabled config = true
                        /\ (v = "GOOGLE_CLIENT_ID" \/ v = "GOOGLE_CLIENT_SECRET"))
                    \/ (database_is config "postgresql" = true /\ v = "DATABASE_URL")))
         /\ (valid (checkEnv w) = true <-> missing (checkEnv w) = [])
         /\ ((forall v : string, env_unset (process_env w) v = true) ->
             missing (checkEnv w) =
               (["SESSION_SECRET"]
                  ++ (if auth_google_enabled config
                      then ["GOOGLE_CLIENT_ID"; "GOOGLE_CLIENT_SECRET"] else [])
                  ++ (if database_is config "postgresql"
                      then ["DATABASE_URL"] else []))%list)).
Proof.
  split; [apply required_vars_list|]. split; [|split; [apply required_vars_In|]].
  - rewrite required_vars_list.
    destruct (auth_google_enabled config), (database_is config "postgresql"); simpl;
      repeat constructor; rewrite ?list_elem_of_In; simpl; intuition discriminate.
  - intros w Henv Hcfg. unfold checkEnv. rewrite Henv, Hcfg.
    cbn [negb exists_ valid missing].
    split; [reflexivity|]. split; [|split].
    + intros v. rewrite missing_vars_In, required_vars_In. tauto.
    + rewrite Nat.eqb_eq. split.
      * apply nil_length_inv.
      * intros ->. reflexivity.
    + intros Hall. rewrite <- required_vars_list.
      apply missing_vars_all_unset. intros v _. apply Hall.
Qed.

(** Witness for C8: OAuth on, the networked database, a [.env] file and
    nothing set; the probe reports the four variables. *)
Lemma required_vars_exact_witness :
  missing (checkEnv configured_nothing_set)
  = ["SESSION_SECRET"; "GOOGLE_CLIENT_ID"; "GOOGLE_CLIENT_SECRET"; "DATABASE_URL"].
Proof.
  destruct (proj2 (proj2 (proj2 (required_vars_exact pg_oauth_config)))
              configured_nothing_set
              ltac:(vm_compute; reflexivity) ltac:(vm_compute; reflexivity))
    as (_ & _ & _ & Hall).
  apply Hall. intros v. unfold env_unset. simpl. rewrite lookup_empty. reflexivity.
Defined.

Lemma checkEnv_no_env_file (w : World) :
  pathExists w (path_join (baseDir w) ".env") = false ->
  checkEnv w = {| exists_ := false; valid := false; missing := [] |}.
Proof. unfold checkEnv. intros ->. reflexivity. Qed.

(** The errors that [detectErrors] reports when the env probe lists no
    missing variable: none of them is [missing_env_vars]. *)
Lemma detectErrors_no_missing (w : World) (c : Checks) :
  missing (envValid c) = [] ->
  existsb (fun e => match err_type e with missing_env_vars => true | _ => false end)
          (detectErrors w c) = false.
Proof.
  intros Hm. unfold detectErrors. rewrite Hm. simpl.
  rewrite andb_false_r.
  destruct (negb (dockerRunning c)); destruct (loadConfig w) as [cfg|]; simpl;
    try reflexivity;
    destruct (source cfg) as [src|]; simpl; try reflexivity;
    destruct (String.eqb src EmptyString); simpl; try reflexivity;
    destruct (negb (pathExists w (path_resolve (baseDir w) src))); reflexivity.
Qed.

Lemma has_error_missing_unfold (s : State) :
  has_error missing_env_vars s =
  match errors s with
  | Some errs =>
      existsb (fun e => match err_type e with missing_env_vars => true | _ => false end) errs
  | None => false
  end.
Proof.
  unfold has_error. destruct (errors s) as [errs|]; reflexivity.
Qed.

(** C10. The env probe looks at [process.env] only: what the [.env] file
    holds does not change its answer. When the [.env] file is absent the
    probe reports an empty [missing] list, and no state that [detect]
    returns then carries a [missing-env-vars] error, whatever the
    configuration requires and whatever is set. *)
Theorem absent_env_file_never_missing_env_error :
  (forall (w : World) (contents : string),
      checkEnv (with_env_file_contents w contents) = checkEnv w)
  /\ (forall w : World,
         pathExists w (path_join (baseDir w) ".env") = false ->
         missing (checkEnv w) = [])
  /\ (forall (prev : option State) (w : World) (s : State),
         pathExists w (path_join (baseDir w) ".env") = false ->
         detect prev w = Ok (Some s) ->
         has_error missing_env_vars s = false).
Proof.
  split; [|split].
  - intros w contents. reflexivity.
  - intros w H. rewrite (checkEnv_no_env_file w H). reflexivity.
  - intros prev w s Hno Hd.
    destruct (detect_inv _ _ _ Hd) as (c & base & Hc & Hb & Hs).
    destruct (classify_assigns _ _ _ _ Hb) as (b' & Heq & _ & _ & _ & Herr & _).
    inversion Heq; subst b'; clear Heq.
    destruct (run_checks_fields _ _ Hc) as (_ & _ & _ & Henv & _).
    rewrite has_error_missing_unfold.
    destruct Hs as [[_ ->] | [_ Hm]].
    + rewrite Herr. reflexivity.
    + simpl in Hm. inversion Hm; subst s; clear Hm. simpl.
      apply detectErrors_no_missing.
      rewrite Henv, (checkEnv_no_env_file w Hno). reflexivity.
Qed.

(** Witness for C10: OAuth is on, nothing is set in the process
    environment, there is no [.env] file, and the detected state has no
    [missing-env-vars] error. *)
Lemma absent_env_file_witness :
  exists s : State,
    detect None configured_daemon_down = Ok (Some s)
    /\ In "GOOGLE_CLIENT_ID"
          (missing_vars (process_env configured_daemon_down) (required_vars shop_config))
    /\ has_error missing_env_vars s = false.
Proof.
  eexists. split; [vm_compute; reflexivity|]. split.
  - vm_compute. right. left. reflexivity.
  - apply (proj2 (proj2 absent_env_file_never_missing_env_error)
                 None configured_daemon_down).
    + vm_compute. reflexivity.
    + vm_compute. reflexivity.
Defined.

(** C1. Every state that [detect] returns is the base state assigned by the
    classification step (first launch, configured-not-deployed or running),
    possibly overlaid: its probe results, message, suggestions, config and
    deployment are those of the base state, and the base classification
    can be read back from it, is unique, and is the one the probe results
    determine. When at least one pathology was found, the returned state
    has type [error] and carries the errors and one fix per error; when
    none was found it is the base state itself. *)
Theorem detect_error_carries_base (prev : option State) (w : World) (s : State) :
  detect prev w = Ok (Some s) ->
  (exists base : State,
      classify prev w (checks s) = Ok (Some base)
      /\ type base = base_of_checks (checks s)
      /\ type base <> error
      /\ checks base = checks s
      /\ message base = message s
      /\ suggestions base = suggestions s
      /\ config base = config s
      /\ deployment base = deployment s
      /\ base_of s = Some (type base)
      /\ (forall b : StateType, base_of s = Some b -> b = type base)
      /\ (detectErrors w (checks s) = [] -> s = base))
  /\ (detectErrors w (checks s) <> [] ->
      type s = error
      /\ errors s = Some (detectErrors w (checks s))
      /\ fixes s = Some (suggestFixes (detectErrors w (checks s)))
      /\ length (suggestFixes (detectErrors w (checks s)))
         = length (detectErrors w (checks s))).
Proof.
  intros Hd.
  destruct (detect_inv _ _ _ Hd) as (c & base & Hc & Hb & Hs).
  destruct (classify_assigns _ _ _ _ Hb) as (b' & Heq & Hty & Hbase & Hck & _).
  inversion Heq; subst b'; clear Heq.
  assert (Hne : type base <> error).
  { rewrite Hty. unfold base_of_checks.
    destruct (negb (configExists c)), (negb (deploymentRunning c)); discriminate. }
  assert (Hkeep : checks s = c /\ message s = message base
                  /\ suggestions s = suggestions base /\ config s = config base
                  /\ deployment s = deployment base).
  { destruct Hs as [[_ ->] | [_ Hm]].
    - repeat split; try reflexivity. exact Hck.
    - simpl in Hm. inversion Hm; subst s; simpl. repeat split; try reflexivity.
      exact Hck. }
  destruct Hkeep as (Hcs & Hmsg & Hsug & Hcfg & Hdep).
  assert (Hread : base_of s = Some (type base)).
  { unfold base_of in *. rewrite Hmsg. exact Hbase. }
  split.
  - exists base. rewrite Hcs.
    split; [exact Hb|]. split; [exact Hty|]. split; [exact Hne|].
    split; [exact Hck|]. split; [symmetry; exact Hmsg|].
    split; [symmetry; exact Hsug|]. split; [symmetry; exact Hcfg|].
    split; [symmetry; exact Hdep|]. split; [exact Hread|]. split.
    + intros b Hb'. congruence.
    + intros Hnil. destruct Hs as [[_ ->] | [Hnon _]]; [reflexivity | contradiction].
  - rewrite Hcs. intros Herrs.
    destruct Hs as [[Hnil _] | [_ Hm]]; [contradiction|].
    simpl in Hm. inversion Hm; subst s; simpl.
    repeat split. unfold suggestFixes. apply length_map.
Qed.

(** Witness for C1: OAuth is on and the Google variables are unset; the
    state is an error state over a configured-not-deployed base. *)
Lemma detect_error_carries_base_witness :
  exists s : State,
    detect None configured_oauth_unset = Ok (Some s)
    /\ type s = error
    /\ base_of s = Some configured_not_deployed.
Proof.
  eexists. split; [vm_compute; reflexivity|].
  split.
  - eapply (proj2 (detect_error_carries_base None configured_oauth_unset _ _)).
    vm_compute. discriminate.
  - vm_compute. reflexivity.
  Unshelve. vm_compute. reflexivity.
Defined.

Lemma checkEnv_no_config (w : World) :
  checkConfig w = false -> missing (checkEnv w) = [].
Proof.
  intros H. unfold checkEnv. rewrite (loadConfig_no_file w H).
  destruct (negb (pathExists w (path_join (baseDir w) ".env"))); reflexivity.
Qed.

(** Without a configuration file the only pathology that can be reported
    is the unreachable daemon. *)
Lemma detectErrors_no_config (w : World) (c : Checks) :
  checkConfig w = false ->
  envValid c = checkEnv w ->
  detectErrors w c =
  if dockerRunning c then []
  else [{| err_type := docker_not_running;
           severity := critical;
           err_message := "Docker is not running";
           err_description := "Docker Desktop needs to be started before deployment" |}].
Proof.
  intros Hno Henv. unfold detectErrors.
  rewrite Henv, (checkEnv_no_config w Hno), (loadConfig_no_file w Hno). simpl.
  rewrite andb_false_r.
  destruct (dockerRunning c); reflexivity.
Qed.

(** C2, as the code has it. When no configuration file is present, every
    state that [detect] returns has first launch as its base classification:
    it holds the first-launch message and the first-launch suggestions (what
    [getFirstLaunchSuggestions] answered), and neither a configuration nor
    deployment information. Its displayed type is [first_launch] when the
    daemon probe succeeds; when the daemon is unreachable the type is
    [error], with the single error [docker-not-running]. *)
Theorem no_config_first_launch_base (prev : option State) (w : World) (s : State) :
  checkConfig w = false ->
  detect prev w = Ok (Some s) ->
  base_of s = Some first_launch
  /\ message s = "No configuration found. Starting setup..."
  /\ (exists sgs : list Suggestion,
         getFirstLaunchSuggestions w = Ok sgs /\ suggestions s = Some sgs)
  /\ config s = None
  /\ deployment s = None
  /\ (checkDocker w = true -> type s = first_launch /\ errors s = None)
  /\ (checkDocker w = false ->
      type s = error
      /\ exists e, errors s = Some [e] /\ err_type e = docker_not_running).
Proof.
  intros Hno Hd.
  destruct (detect_inv _ _ _ Hd) as (c & base & Hc & Hb & Hs).
  destruct (classify_assigns _ _ _ _ Hb) as (b' & Heq & Hty & Hbase & _ & Herr & _).
  inversion Heq; subst b'; clear Heq.
  destruct (run_checks_fields _ _ Hc) as (Hcfg & Hdock & _ & Henv & _).
  assert (Hfl : type base = first_launch).
  { rewrite Hty. unfold base_of_checks. rewrite Hcfg, Hno. reflexivity. }
  assert (Hcfg' : configExists c = false) by (rewrite Hcfg; exact Hno).
  destruct (classify_first_launch _ _ _ _ Hcfg' Hb) as (Hmsg & Hsg & Hconf & Hdep).
  rewrite (detectErrors_no_config w c Hno Henv), Hdock in Hs.
  destruct Hs as [[Hnil ->] | [Hne Hm]].
  - split; [congruence|]. repeat (split; [assumption|]). split.
    + intros _. split; assumption.
    + intros Hdown. rewrite Hdown in Hnil. discriminate Hnil.
  - destruct (checkDocker w) eqn:Hping; [contradiction Hne; reflexivity|].
    simpl in Hm. inversion Hm; subst s; clear Hm. simpl.
    split; [rewrite Hfl in Hbase; exact Hbase|].
    repeat (split; [assumption|]). split.
    + intros Habs. discriminate Habs.
    + intros _. split; [reflexivity|]. eexists. split; reflexivity.
Qed.

(** Witness for C2, as the code has it: a Node.js project without a
    configuration file while the daemon is down. The state is an error
    state over first launch, and it still suggests the Node.js setup. *)
Lemma no_config_first_launch_base_witness :
  exists s : State,
    detect None node_project_daemon_down = Ok (Some s)
    /\ base_of s = Some first_launch
    /\ type s = error
    /\ option_map (map sug_type) (suggestions s) = Some ["nodejs-project"].
Proof.
  eexists. split; [vm_compute; reflexivity|].
  destruct (no_config_first_launch_base None node_project_daemon_down _
              ltac:(vm_compute; reflexivity) ltac:(vm_compute; reflexivity))
    as (Hbase & _ & (sgs & Hsgs & Hsug) & _ & _ & _ & Hdown).
  split; [exact Hbase|]. split; [exact (proj1 (Hdown eq_refl))|].
  rewrite Hsug. vm_compute in Hsgs. inversion Hsgs. reflexivity.
Defined.

(** Counterexample to C2 as stated: no configuration file, the daemon does
    not answer, and the returned state has type [error], not
    [first_launch]. *)
Lemma no_config_daemon_down_type_error :
  checkConfig empty_dir_daemon_down = false
  /\ checkDocker empty_dir_daemon_down = false
  /\ exists s : State,
       detect None empty_dir_daemon_down = Ok (Some s)
       /\ type s = error
       /\ type s <> first_launch.
Proof.
  split; [vm_compute; reflexivity|]. split; [vm_compute; reflexivity|].
  eexists. split; [vm_compute; reflexivity|]. split; [reflexivity | discriminate].
Qed.

(** [detect] returns a state as soon as the artifacts directory can be
    read: with a configuration file nothing else can throw, without one the
    suggestions read the same directory again. *)
Lemma detect_returns (prev : option State) (w : World) (a : ArtifactsCheck) :
  checkArtifacts w = Ok a ->
  (checkConfig w = true \/ is_Ok (getFirstLaunchSuggestions w) = true) ->
  exists s, detect prev w = Ok (Some s).
Proof.
  intros Ha Hsg. unfold detect, run_checks. rewrite Ha. simpl.
  unfold classify. simpl.
  destruct (checkConfig w) eqn:Hc; simpl.
  - destruct (checkDeployment w); simpl;
      match goal with
      | |- context [Nat.ltb 0 (length ?l)] => destruct l; simpl; eexists; reflexivity
      end.
  - destruct Hsg as [Hf|Hsg]; [discriminate Hf|].
    destruct (getFirstLaunchSuggestions w) as [sg|e]; [|discriminate Hsg]. simpl.
    match goal with
    | |- context [Nat.ltb 0 (length ?l)] => destruct l; simpl; eexists; reflexivity
    end.
Qed.

(** A fault of [fs.readdir] on an existing [artifacts] directory leaves
    [detect] as it is. *)
Lemma detect_propagates_readdir_fault (prev : option State) (w : World) (e : JsError) :
  pathExists w (path_join (baseDir w) "artifacts") = true ->
  readdir w (path_join (baseDir w) "artifacts") = Throw e ->
  detect prev w = Throw e.
Proof.
  intros Hex Hrd. unfold detect, run_checks, checkArtifacts.
  rewrite Hex, Hrd. reflexivity.
Qed.

(** C7. The artifacts probe has no handler of its own: when listing the
    [artifacts] directory is refused, or when [fs.stat] rejects on one of
    its entries, the fault leaves [checkArtifacts] and [detect] raises it,
    although the daemon probes of the same pass answer. *)
Theorem detect_raises_on_artifacts_fault :
  checkArtifacts artifacts_unreadable = Throw EACCES
  /\ detect None artifacts_unreadable = Throw EACCES
  /\ checkArtifacts artifacts_dangling_link = Throw ENOENT
  /\ detect None artifacts_dangling_link = Throw ENOENT
  /\ checkDocker artifacts_unreadable = true.
Proof. repeat split; vm_compute; reflexivity. Qed.

End DetectorClaims.


(** * Properties of the deployment orchestrator *)

Section DeployTests.
Import DeploymentManager RunSpec Examples.

Example happy_run_succeeds :
  fst (deploy shop_config happy) =
  Ok {| success := true;
        artifact := {| art_path := "/srv/shop/artifacts/shop"; art_type := "html" |};
        result_url := "http://localhost:3000" |}
  /\ stops (deploy shop_config happy) = 0.
Proof. vm_compute. split; reflexivity. Qed.

Example happy_run_trace :
  trace (snd (deploy shop_config happy)) =
  [EvLog "Starting deployment..."; EvDockerPing; EvLog "Docker is running";
   EvProviderValidate; EvLog "Local artifact validated";
   EvProviderFetch; EvLog "Fetching from local path: /srv/shop/./app";
   EvLog "Copied to /srv/shop/artifacts/shop";
   EvDatabaseInitialize; EvLog "Database initialized";
   EvGenerateDockerfile "html"; EvGenerateComposeFile "html";
   EvBuildImage "shop:latest";
   EvGetContainerStatus; EvGetCurrentCommit;
   EvStartContainers []; EvLog "Containers started";
   EvSleep 5000; EvHttpGet "http://localhost:3000/health";
   EvLog "Health check passed";
   EvGitCommit "deploy: shop v2024-01-01" false; EvLog "Git commit created";
   EvLog "Deployment completed successfully!";
   EvLog "Deployment Information: http://localhost:3000"].
Proof. vm_compute. reflexivity. Qed.

Example start_failure_rolls_back :
  outcome_message (deploy shop_config start_fails) =
  Some "Failed to start containers: Command failed: docker-compose"
  /\ stops (deploy shop_config start_fails) = 1.
Proof. vm_compute. split; reflexivity. Qed.

Example nothing_set_message :
  outcome_message (deploy shop_config nothing_set) =
  Some ("Missing required environment variables: "
        ++ "SESSION_SECRET, GOOGLE_CLIENT_ID, GOOGLE_CLIENT_SECRET"
        ++ nl ++ "Please update your .env file.").
Proof. vm_compute. reflexivity. Qed.

End DeployTests.

(** ** Counting events and the [quiet] methods *)

Section Quiet.
Import DeploymentManager RunSpec.
Local Open Scope deploy_scope.

Lemma count_events_push (p : Event -> bool) (t : list Event) (ev : Event) :
  count_events p (push t ev) = count_events p t + (if p ev then 1 else 0).
Proof.
  unfold count_events, push. rewrite List.filter_app, length_app. simpl.
  destruct (p ev); reflexivity.
Qed.

Lemma quiet_ret {A} (a : A) : quiet (ret a).
Proof. intros m r m' H. inversion H; subst. split; reflexivity. Qed.

Lemma quiet_throw {A} (e : JsError) : quiet (@throw A e).
Proof. intros m r m' H. inversion H; subst. split; reflexivity. Qed.

Lemma quiet_lift {A} (o : Outcome A) : quiet (lift o).
Proof. intros m r m' H. inversion H; subst. split; reflexivity. Qed.

Lemma quiet_get : quiet get_rollbackState.
Proof. intros m r m' H. inversion H; subst. split; reflexivity. Qed.

Lemma quiet_emit (ev : Event) : is_stop ev = false -> quiet (emit ev).
Proof.
  intros Hev m r m' H. inversion H; subst; simpl. split; [reflexivity|].
  rewrite count_events_push, Hev. lia.
Qed.

Lemma quiet_bind {A B} (c : M A) (k : A -> M B) :
  quiet c -> (forall a, quiet (k a)) -> quiet (bind c k).
Proof.
  intros Hc Hk m r m' H. unfold bind in H.
  destruct (c m) as [[a|e] m1] eqn:Hcm.
  - destruct (Hc _ _ _ Hcm) as [Hr Ht]. destruct (Hk a _ _ _ H) as [Hr' Ht'].
    split; congruence.
  - inversion H; subst. exact (Hc _ _ _ Hcm).
Qed.

Lemma quiet_try_catch {A} (body : M A) (handler : JsError -> M A) :
  quiet body -> (forall e, quiet (handler e)) -> quiet (try_catch_M body handler).
Proof.
  intros Hb Hh m r m' H. unfold try_catch_M in H.
  destruct (body m) as [[a|e] m1] eqn:Hbm.
  - inversion H; subst. exact (Hb _ _ _ Hbm).
  - destruct (Hb _ _ _ Hbm) as [Hr Ht]. destruct (Hh e _ _ _ H) as [Hr' Ht'].
    split; congruence.
Qed.

Ltac quiet_step :=
  match goal with
  | |- quiet (bind _ _) => apply quiet_bind; [| intros ?]
  | |- quiet (try_catch_M _ _) => apply quiet_try_catch; [| intros ?]
  | |- quiet (ret _) => apply quiet_ret
  | |- quiet (throw _) => apply quiet_throw
  | |- quiet (lift _) => apply quiet_lift
  | |- quiet (emit _) => apply quiet_emit; reflexivity
  | |- quiet get_rollbackState => apply quiet_get
  | |- quiet (if ?b then _ else _) => destruct b
  | |- quiet (match ?x with _ => _ end) => destruct x
  end.

Ltac quiet_solve := repeat quiet_step.

Lemma quiet_validateEnvironment config w : quiet (validateEnvironment config w).
Proof. unfold validateEnvironment, checkDocker. quiet_solve. Qed.

Lemma quiet_createProvider config w : quiet (Providers.createProvider w config).
Proof. unfold Providers.createProvider. quiet_solve. Qed.

Lemma quiet_validate w p : quiet (Providers.validate w p).
Proof. unfold Providers.validate. quiet_solve. Qed.

Lemma quiet_fetch w p : quiet (Providers.fetch w p).
Proof. unfold Providers.fetch. quiet_solve. Qed.

Lemma quiet_fetchArtifact config w : quiet (fetchArtifact config w).
Proof.
  unfold fetchArtifact.
  apply quiet_bind; [apply quiet_createProvider | intros p].
  apply quiet_bind; [apply quiet_validate | intros _].
  apply quiet_bind; [apply quiet_fetch | intros fetched].
  unfold Providers.prepare. quiet_solve.
Qed.

Lemma quiet_database_initialize config w : quiet (database_initialize config w).
Proof. unfold database_initialize. quiet_solve. Qed.

Lemma quiet_buildImage w img : quiet (buildImage w img).
Proof. unfold buildImage. quiet_solve. Qed.

Lemma quiet_before_capture config w : quiet (before_capture config w).
Proof.
  unfold before_capture.
  apply quiet_bind; [apply quiet_validateEnvironment | intros _].
  apply quiet_bind; [apply quiet_fetchArtifact | intros art].
  apply quiet_bind; [apply quiet_database_initialize | intros _].
  unfold generateDockerfile, generateComposeFile.
  apply quiet_bind; [quiet_solve | intros _].
  apply quiet_bind; [quiet_solve | intros _].
  apply quiet_bind; [apply quiet_buildImage | intros _].
  apply quiet_ret.
Qed.

Lemma quiet_saveRollbackState config w : quiet (saveRollbackState config w).
Proof. unfold saveRollbackState, getContainerStatus, getCurrentCommit. quiet_solve. Qed.

Lemma quiet_startContainers config w : quiet (startContainers config w).
Proof. unfold startContainers. quiet_solve. Qed.

Lemma quiet_verifyDeployment config w : quiet (verifyDeployment config w).
Proof. unfold verifyDeployment. quiet_solve. Qed.

Lemma quiet_commit_step config w : quiet (commit_step config w).
Proof. unfold commit_step, git_commit. quiet_solve. Qed.

Lemma quiet_finish config art : quiet (finish config art).
Proof. unfold finish, displayDeploymentInfo. quiet_solve. Qed.

Lemma quiet_after_capture config w art : quiet (after_capture config w art).
Proof.
  unfold after_capture.
  apply quiet_bind; [apply quiet_startContainers | intros _].
  apply quiet_bind; [apply quiet_verifyDeployment | intros _].
  apply quiet_bind; [apply quiet_commit_step | intros _].
  apply quiet_finish.
Qed.

(** [rollback] never throws: a failure to stop the containers is logged
    and swallowed. It stops the containers exactly once. *)
Lemma rollback_returns (w : DeployWorld) (m : Manager) :
  exists m', rollback w m = (Ok tt, m')
             /\ count_events is_stop (trace m') = S (count_events is_stop (trace m)).
Proof.
  unfold rollback, stopContainers, try_catch_M, bind, emit, throw.
  destruct (compose_down w) as [u|e]; simpl;
    eexists; (split; [reflexivity|]); simpl;
    rewrite !count_events_push; simpl; lia.
Qed.

Lemma deploy_unfold (config : Config) (w : DeployWorld) :
  deploy config w =
  try_catch_M (run_body config w)
    (fun error =>
       emit (EvLog "Deployment failed") ;;;
       emit (EvLog ("Error: " ++ e_message error)) ;;;
       let! rs := get_rollbackState in
       (match rs with Some _ => rollback w | None => ret tt end) ;;;
       throw error)
    started.
Proof. reflexivity. Qed.

(** The [catch] block of [run]: the error that entered it is the error
    that leaves it. *)
Lemma run_handler (config : Config) (w : DeployWorld) (e : JsError) (m1 : Manager) :
  run_body config w started = (Throw e, m1) ->
  exists m', deploy config w = (Throw e, m')
             /\ count_events is_stop (trace m') =
                count_events is_stop (trace m1)
                + (match rollbackState m1 with Some _ => 1 | None => 0 end).
Proof.
  intros Hb. rewrite deploy_unfold.
  unfold try_catch_M. rewrite Hb.
  unfold bind, emit, get_rollbackState, throw, ret. simpl.
  destruct (rollbackState m1) as [rs|] eqn:Hrs.
  - match goal with |- context [rollback w ?m] =>
      destruct (rollback_returns w m) as (m' & Hr & Hcount) end.
    rewrite Hr. eexists. split; [reflexivity|].
    rewrite Hcount. simpl. rewrite !count_events_push. simpl. lia.
  - eexists. split; [reflexivity|]. simpl.
    rewrite !count_events_push. simpl. lia.
Qed.

End Quiet.

(** ** The pipeline and its rollback *)

Section RunClaims.
Import DeploymentManager RunSpec Examples.
Local Open Scope deploy_scope.

Lemma count_stop_started : count_events is_stop (trace started) = 0.
Proof. reflexivity. Qed.

(** A failure before the capture leaves the rollback state unset, so the
    handler of [run] only re-throws. *)
Lemma before_capture_failure (config : Config) (w : DeployWorld)
      (e : JsError) (m1 : Manager) :
  before_capture config w started = (Throw e, m1) ->
  exists m', deploy config w = (Throw e, m')
             /\ count_events is_stop (trace m') = 0.
Proof.
  intros H1.
  assert (Hb : run_body config w started = (Throw e, m1)).
  { unfold run_body, bind. rewrite H1. reflexivity. }
  destruct (run_handler _ _ _ _ Hb) as (m' & Hd & Hc).
  exists m'. split; [exact Hd|].
  destruct (quiet_before_capture config w _ _ _ H1) as [Hr Ht].
  rewrite Hc, Ht, Hr. reflexivity.
Qed.

(** C6. On a fresh manager, a failure in steps 1 to 5 makes [run] throw
    that failure without stopping any container; a failure in a step after
    a successful capture makes [run] throw that failure after stopping the
    containers exactly once; and whatever the rollback does (the theorem
    holds for every answer of [docker-compose down]), the error thrown by
    [run] is the error of the failed step. *)
Theorem rollback_gating (config : Config) (w : DeployWorld) :
  (forall (e : JsError) (m1 : Manager),
      before_capture config w started = (Throw e, m1) ->
      exists m', deploy config w = (Throw e, m')
                 /\ count_events is_stop (trace m') = 0)
  /\ (forall (art : Artifact) (m1 : Manager) (rs : RollbackState) (m2 : Manager)
             (e : JsError) (m3 : Manager),
         before_capture config w started = (Ok art, m1) ->
         saveRollbackState config w m1 = (Ok (Some rs), m2) ->
         after_capture config w art (snd (set_rollbackState (Some rs) m2))
         = (Throw e, m3) ->
         exists m', deploy config w = (Throw e, m')
                    /\ count_events is_stop (trace m') = 1)
  /\ (forall (e : JsError) (m1 : Manager),
         run_body config w started = (Throw e, m1) ->
         fst (deploy config w) = Throw e).
Proof.
  split; [|split].
  - intros e m1 H1. exact (before_capture_failure config w e m1 H1).
  - intros art m1 rs m2 e m3 H1 H2 H3.
    assert (Hb : run_body config w started = (Throw e, m3)).
    { unfold run_body, bind. rewrite H1, H2. simpl. simpl in H3. rewrite H3.
      reflexivity. }
    destruct (run_handler _ _ _ _ Hb) as (m' & Hd & Hc).
    exists m'. split; [exact Hd|].
    destruct (quiet_before_capture config w _ _ _ H1) as [_ Ht1].
    destruct (quiet_saveRollbackState config w _ _ _ H2) as [_ Ht2].
    destruct (quiet_after_capture config w art _ _ _ H3) as [Hr3 Ht3].
    simpl in Hr3, Ht3.
    rewrite Hc, Hr3, Ht3, Ht2, Ht1. reflexivity.
  - intros e m1 Hb.
    destruct (run_handler _ _ _ _ Hb) as (m' & Hd & _).
    rewrite Hd. reflexivity.
Qed.

(** Witness for C6: with no variable set, step 1 fails and nothing is
    stopped; when the containers do not start (and cannot be stopped
    either), the start failure is what [run] throws, after one rollback
    attempt. *)
Lemma rollback_gating_witness :
  (exists m', deploy shop_config nothing_set
              = (Throw (new_Error (missing_message
                   ["SESSION_SECRET"; "GOOGLE_CLIENT_ID"; "GOOGLE_CLIENT_SECRET"])), m')
              /\ count_events is_stop (trace m') = 0)
  /\ (exists m', deploy shop_config start_fails
                 = (Throw (new_Error
                      "Failed to start containers: Command failed: docker-compose"), m')
                 /\ count_events is_stop (trace m') = 1).
Proof.
  split.
  - eapply (proj1 (rollback_gating shop_config nothing_set)).
    vm_compute. reflexivity.
  - eapply (proj1 (proj2 (rollback_gating shop_config start_fails))).
    + vm_compute. reflexivity.
    + vm_compute. reflexivity.
    + vm_compute. reflexivity.
Defined.

Lemma run_body_split (config : Config) (w : DeployWorld) (m : Manager) :
  run_body config w m =
  bind (through_verify config w)
       (fun art => commit_step config w ;;; finish config art) m.
Proof.
  unfold run_body, through_verify, after_capture, bind.
  destruct (before_capture config w m) as [[art|e] m1]; [|reflexivity].
  destruct (saveRollbackState config w m1) as [[rs|e] m2]; [|reflexivity].
  destruct (set_rollbackState rs m2) as [[u|e] m3]; [|reflexivity].
  destruct (startContainers config w m3) as [[u'|e] m4]; [|reflexivity].
  destruct (verifyDeployment config w m4) as [[b|e] m5]; reflexivity.
Qed.

Lemma through_verify_stops (config : Config) (w : DeployWorld) (m : Manager)
      (r : Outcome Artifact) (m8 : Manager) :
  through_verify config w m = (r, m8) ->
  count_events is_stop (trace m8) = count_events is_stop (trace m).
Proof.
  unfold through_verify, bind. intros H.
  destruct (before_capture config w m) as [[art|e] m1] eqn:H1;
    destruct (quiet_before_capture config w _ _ _ H1) as [_ Ht1];
    [|inversion H; subst; exact Ht1].
  destruct (saveRollbackState config w m1) as [[rs|e] m2] eqn:H2;
    destruct (quiet_saveRollbackState config w _ _ _ H2) as [_ Ht2];
    [|inversion H; subst; congruence].
  simpl in H.
  destruct (startContainers config w _) as [[u|e] m4] eqn:H4 in H;
    destruct (quiet_startContainers config w _ _ _ H4) as [_ Ht4]; simpl in Ht4;
    [|inversion H; subst; congruence].
  destruct (verifyDeployment config w m4) as [[b|e] m5] eqn:H5;
    destruct (quiet_verifyDeployment config w _ _ _ H5) as [_ Ht5];
    inversion H; subst; congruence.
Qed.

(** C3, as the code has it. When steps 1 to 8 succeed, auto-commit is set
    and the git commit of step 9 fails, [run] throws the commit failure
    instead of returning a result, and the containers are stopped once
    exactly when step 6 had captured a rollback state. *)
Theorem commit_failure_fails_run (config : Config) (w : DeployWorld)
        (art : Artifact) (m8 : Manager) (e : JsError) :
  through_verify config w started = (Ok art, m8) ->
  features_autoCommit config = true ->
  git_commit_body w = Throw e ->
  exists m',
    deploy config w = (Throw (new_Error ("Commit failed: " ++ e_message e)), m')
    /\ count_events is_stop (trace m') =
       match rollbackState m8 with Some _ => 1 | None => 0 end.
Proof.
  intros Htv Hauto Hgit.
  pose proof (through_verify_stops _ _ _ _ _ Htv) as Hstops.
  rewrite count_stop_started in Hstops.
  assert (Hb : exists m9,
             run_body config w started
             = (Throw (new_Error ("Commit failed: " ++ e_message e)), m9)
             /\ rollbackState m9 = rollbackState m8
             /\ count_events is_stop (trace m9) = 0).
  { rewrite run_body_split. unfold bind at 1. rewrite Htv.
    unfold commit_step. rewrite Hauto.
    unfold git_commit, bind, emit, throw. rewrite Hgit. simpl.
    eexists. split; [reflexivity|]. simpl. split; [reflexivity|].
    rewrite count_events_push, Hstops. reflexivity. }
  destruct Hb as (m9 & Hb & Hrs & Hc9).
  destruct (run_handler _ _ _ _ Hb) as (m' & Hd & Hc).
  exists m'. split; [exact Hd|]. rewrite Hc, Hc9, Hrs. reflexivity.
Qed.

(** Witness for C3, as the code has it. *)
Lemma commit_failure_fails_run_witness :
  exists m',
    deploy shop_config commit_fails
    = (Throw (new_Error "Commit failed: nothing added to commit"), m')
    /\ count_events is_stop (trace m') = 1.
Proof.
  destruct (commit_failure_fails_run shop_config commit_fails
              {| art_path := "/srv/shop/artifacts/shop"; art_type := "html" |}
              (snd (through_verify shop_config commit_fails started))
              git_failure) as (m' & Hd & Hc).
  - vm_compute. reflexivity.
  - reflexivity.
  - reflexivity.
  - exists m'. split; [exact Hd|]. rewrite Hc. vm_compute. reflexivity.
Defined.

(** Counterexample to C3 as stated: steps 1 to 8 succeed, auto-commit is
    set, the commit fails; [run] throws, and the containers that were just
    verified are stopped. *)
Lemma commit_failure_rolls_back :
  is_Ok (fst (through_verify shop_config commit_fails started)) = true
  /\ features_autoCommit shop_config = true
  /\ git_commit_body commit_fails = Throw git_failure
  /\ is_Ok (fst (deploy shop_config commit_fails)) = false
  /\ outcome_message (deploy shop_config commit_fails)
     = Some "Commit failed: nothing added to commit"
  /\ stops (deploy shop_config commit_fails) = 1.
Proof. vm_compute. repeat split; reflexivity. Qed.

End RunClaims.

(** ** Health verification *)

Section VerifyClaims.
Import DeploymentManager RunSpec Examples.
Local Open Scope deploy_scope.

Example verify_refused_then_200 :
  fst (verifyDeployment shop_config refused_then_200 new_Manager) = Ok true
  /\ trace (snd (verifyDeployment shop_config refused_then_200 new_Manager)) =
     [EvSleep 5000; EvHttpGet "http://localhost:3000/health";
      EvLog "Waiting for containers to be ready..."; EvSleep 5000;
      EvHttpGet "http://localhost:3000"].
Proof. vm_compute. split; reflexivity. Qed.

(** X29. The verification policy, with a configured server: a first
    response below 500 (404 included) is success, after one request; a
    first response of 500 or more is fatal, after one request and with the
    status in the message; a refused first request followed by a retry that
    is answered with a 2xx status is success, after two requests; two
    refused requests are fatal, after two requests. *)
Theorem verifyDeployment_policy (config : Config) (w : DeployWorld)
        (srv : Server) (m : Manager) :
  server config = Some srv ->
  (http_health w = Response 404 ->
   fst (verifyDeployment config w m) = Ok true)
  /\ (forall s : nat,
         http_health w = Response s -> s < 500 ->
         fst (verifyDeployment config w m) = Ok true
         /\ http_gets (verifyDeployment config w m)
            = count_events is_http_get (trace m) + 1)
  /\ (forall s : nat,
         http_health w = Response s -> 500 <= s ->
         fst (verifyDeployment config w m)
         = Throw (new_Error ("Server returned status " ++ pretty s))
         /\ http_gets (verifyDeployment config w m)
            = count_events is_http_get (trace m) + 1)
  /\ (forall (msg : string) (s : nat),
         http_health w = NetworkError "ECONNREFUSED" msg ->
         http_root w = Response s -> 200 <= s < 300 ->
         fst (verifyDeployment config w m) = Ok true
         /\ http_gets (verifyDeployment config w m)
            = count_events is_http_get (trace m) + 2)
  /\ (forall msg msg' : string,
         http_health w = NetworkError "ECONNREFUSED" msg ->
         http_root w = NetworkError "ECONNREFUSED" msg' ->
         fst (verifyDeployment config w m)
         = Throw (new_Error "Containers started but application is not responding")
         /\ http_gets (verifyDeployment config w m)
            = count_events is_http_get (trace m) + 2).
Proof.
  intros Hsrv.
  assert (Hlow : forall s : nat,
             http_health w = Response s -> s < 500 ->
             fst (verifyDeployment config w m) = Ok true
             /\ http_gets (verifyDeployment config w m)
                = count_events is_http_get (trace m) + 1).
  { intros s Hh Hs.
    unfold http_gets, verifyDeployment, server_url. rewrite Hsrv.
    unfold bind, lift, emit, try_catch_M, axios_get, ret. rewrite Hh.
    cbn -[Nat.eqb Nat.ltb pretty count_events push].
    destruct (Nat.eqb s 200).
    - cbn -[count_events push]. split; [reflexivity|].
      rewrite !count_events_push. simpl. lia.
    - apply Nat.ltb_lt in Hs. rewrite Hs.
      cbn -[count_events push]. split; [reflexivity|].
      rewrite !count_events_push. simpl. lia. }
  split; [|split; [exact Hlow|split; [|split]]].
  - intros Hh. apply (Hlow 404 Hh). lia.
  - intros s Hh Hs.
    unfold http_gets, verifyDeployment, server_url. rewrite Hsrv.
    unfold bind, lift, emit, try_catch_M, axios_get, ret, throw. rewrite Hh.
    cbn -[Nat.eqb Nat.ltb pretty count_events push].
    assert (H200 : Nat.eqb s 200 = false) by (apply Nat.eqb_neq; lia).
    assert (H500 : Nat.ltb s 500 = false) by (apply Nat.ltb_ge; lia).
    rewrite H200, H500.
    cbn -[pretty count_events push]. split; [reflexivity|].
    rewrite !count_events_push. simpl. lia.
  - intros msg s Hh Hr Hs.
    unfold http_gets, verifyDeployment, server_url. rewrite Hsrv.
    unfold bind, lift, emit, try_catch_M, axios_get, ret, throw. rewrite Hh, Hr.
    assert (H2 : Nat.leb 200 s && Nat.ltb s 300 = true).
    { apply andb_true_intro. split; [apply Nat.leb_le | apply Nat.ltb_lt]; lia. }
    cbn -[Nat.leb Nat.ltb pretty count_events push]. rewrite H2.
    cbn -[count_events push]. split; [reflexivity|].
    rewrite !count_events_push. simpl. lia.
  - intros msg msg' Hh Hr.
    unfold http_gets, verifyDeployment, server_url. rewrite Hsrv.
    unfold bind, lift, emit, try_catch_M, axios_get, ret, throw. rewrite Hh, Hr.
    cbn -[count_events push]. split; [reflexivity|].
    rewrite !count_events_push. simpl. lia.
Qed.

(** Witness for X29: a refused probe, then 200. *)
Lemma verifyDeployment_policy_witness :
  fst (verifyDeployment shop_config refused_then_200 new_Manager) = Ok true
  /\ http_gets (verifyDeployment shop_config refused_then_200 new_Manager) = 2.
Proof.
  eapply (proj1 (proj2 (proj2 (proj2
            (verifyDeployment_policy shop_config refused_then_200
               {| host := Some "localhost"; port := Some 3000 |} new_Manager
               eq_refl))))).
  - reflexivity.
  - reflexivity.
  - lia.
Defined.

(** C5. The defect, at a concrete input. The first probe is refused and
    the retry is answered with status 404, a response below 500 from a
    server that runs: the verification throws [Containers started but
    application is not responding], the run fails with that message and
    stops the containers. The same answer given to the first probe is a
    success: only the first request is told to accept every status. *)
Lemma retry_answered_404_is_fatal :
  http_health refused_then_404 = refused
  /\ http_root refused_then_404 = Response 404
  /\ 404 < 500
  /\ fst (verifyDeployment shop_config refused_then_404 new_Manager)
     = Throw (new_Error "Containers started but application is not responding")
  /\ outcome_message (deploy shop_config refused_then_404)
     = Some "Containers started but application is not responding"
  /\ stops (deploy shop_config refused_then_404) = 1
  /\ http_health first_answered_404 = Response 404
  /\ fst (verifyDeployment shop_config first_answered_404 new_Manager) = Ok true
  /\ is_Ok (fst (deploy shop_config first_answered_404)) = true.
Proof.
  split; [reflexivity|]. split; [reflexivity|]. split; [lia|].
  repeat split; vm_compute; reflexivity.
Qed.

End VerifyClaims.

(** ** Environment validation *)

Section ValidateClaims.
Import DeploymentManager RunSpec Examples.
Local Open Scope deploy_scope.

Lemma str_app_assoc (a b c : string) : (a ++ b) ++ c = a ++ (b ++ c).
Proof.
  induction a as [|ch a IH]; [reflexivity|].
  change (String ch ((a ++ b) ++ c) = String ch (a ++ (b ++ c))).
  rewrite IH. reflexivity.
Qed.

Lemma str_app_empty_r (a : string) : a ++ EmptyString = a.
Proof.
  induction a as [|ch a IH]; [reflexivity|].
  change (String ch (a ++ EmptyString) = String ch a).
  rewrite IH. reflexivity.
Qed.

Lemma occurs_in_self (v : string) : occurs_in v v.
Proof. exists EmptyString, EmptyString. simpl. rewrite str_app_empty_r. reflexivity. Qed.

Lemma occurs_in_app_l (v a s : string) : occurs_in v s -> occurs_in v (a ++ s).
Proof.
  intros (pre & post & ->). exists (a ++ pre), post.
  rewrite str_app_assoc. reflexivity.
Qed.

Lemma occurs_in_app_r (v s b : string) : occurs_in v s -> occurs_in v (s ++ b).
Proof.
  intros (pre & post & ->). exists pre, (post ++ b).
  rewrite !str_app_assoc. reflexivity.
Qed.

(** Every element of a joined array occurs in the result. *)
Lemma occurs_in_join (sep : string) (l : list string) (v : string) :
  In v l -> occurs_in v (js_join sep l).
Proof.
  unfold js_join. induction l as [|x xs IH]; intros Hin; [contradiction|].
  destruct xs as [|y ys].
  - destruct Hin as [->|[]]. apply occurs_in_self.
  - change (String.concat sep (x :: y :: ys))
      with (x ++ sep ++ String.concat sep (y :: ys)).
    destruct Hin as [->|Hin].
    + apply occurs_in_app_r, occurs_in_self.
    + apply occurs_in_app_l, occurs_in_app_l, IH, Hin.
Qed.

Lemma missing_vars_spec (w : DeployWorld) (config : Config) (v : string) :
  In v (missing_vars w config) <->
  In v (DeploymentManager.required_vars config) /\ env_unset (d_env w) v = true.
Proof.
  unfold missing_vars. rewrite <- !list_elem_of_In, list_elem_of_filter. tauto.
Qed.

Example detector_requires_database_url :
  ConfigDetector.required_vars pg_config = ["SESSION_SECRET"; "DATABASE_URL"]
  /\ DeploymentManager.required_vars pg_config = ["SESSION_SECRET"].
Proof. split; reflexivity. Qed.

(** C4, as the code has it. Step 1 checks [SESSION_SECRET], and the two
    Google variables when OAuth is enabled: the detector's list without
    [DATABASE_URL], hence the same list whenever the database is not
    ['postgresql']. When a required variable is unset and the daemon
    answers, step 1 throws one error whose message contains every missing
    variable. *)
Theorem validateEnvironment_required_vars (config : Config) :
  (forall v : string,
      In v (DeploymentManager.required_vars config) <->
      In v (ConfigDetector.required_vars config) /\ v <> "DATABASE_URL")
  /\ (database_is config "postgresql" = false ->
      DeploymentManager.required_vars config = ConfigDetector.required_vars config)
  /\ (forall (w : DeployWorld) (m : Manager),
         is_Ok (d_ping w) = true ->
         missing_vars w config <> [] ->
         (exists m',
             validateEnvironment config w m
             = (Throw (new_Error (missing_message (missing_vars w config))), m'))
         /\ (forall v : string,
                In v (DeploymentManager.required_vars config) ->
                env_unset (d_env w) v = true ->
                occurs_in v (missing_message (missing_vars w config)))).
Proof.
  split; [|split].
  - intros v. unfold DeploymentManager.required_vars, ConfigDetector.required_vars, push.
    destruct (auth_google_enabled config), (database_is config "postgresql"); simpl;
      intuition (subst; try discriminate; auto).
  - intros Hdb. unfold DeploymentManager.required_vars, ConfigDetector.required_vars.
    rewrite Hdb. reflexivity.
  - intros w m Hping Hmiss. split.
    + unfold validateEnvironment, checkDocker, bind, emit, throw, ret.
      destruct (d_ping w) as [u|e]; [|discriminate Hping]. simpl.
      destruct (missing_vars w config) as [|x xs]; [contradiction Hmiss; reflexivity|].
      simpl. eexists. reflexivity.
    + intros v Hreq Hunset. unfold missing_message.
      apply occurs_in_app_l, occurs_in_app_r, occurs_in_join.
      apply missing_vars_spec. split; assumption.
Qed.

(** Witness for C4, as the code has it. *)
Lemma validateEnvironment_required_vars_witness :
  occurs_in "GOOGLE_CLIENT_SECRET"
            (missing_message (missing_vars nothing_set shop_config)).
Proof.
  eapply (proj2 (proj2 (validateEnvironment_required_vars shop_config))
                nothing_set new_Manager).
  - reflexivity.
  - vm_compute. discriminate.
  - vm_compute. right. right. left. reflexivity.
  - reflexivity.
Defined.

(** Counterexample to C4 as stated: on the networked database with only
    [SESSION_SECRET] set, the detector requires [DATABASE_URL] and reports
    it missing, while step 1 of the run does not look at it and passes. *)
Lemma database_url_not_validated :
  database_is pg_config "postgresql" = true
  /\ In "DATABASE_URL" (ConfigDetector.required_vars pg_config)
  /\ ~ In "DATABASE_URL" (DeploymentManager.required_vars pg_config)
  /\ ConfigDetector.missing_vars {[ "SESSION_SECRET" := "s3cret" ]}
       (ConfigDetector.required_vars pg_config) = ["DATABASE_URL"]
  /\ fst (validateEnvironment pg_config
            (world_with {[ "SESSION_SECRET" := "s3cret" ]} (Ok tt) (Ok tt)
                        (Response 200) (Response 200) (Ok None))
            new_Manager) = Ok tt.
Proof.
  split; [reflexivity|]. split; [right; left; reflexivity|].
  split; [simpl; intuition discriminate|].
  split; vm_compute; reflexivity.
Qed.

End ValidateClaims.

(** ** The URL provider *)

Section ProviderClaims.
Import DeploymentManager RunSpec Examples Providers.
Local Open Scope deploy_scope.

Example url_config_selects_url_provider :
  selected_provider happy url_config = Ok (URLProvider url_config None).
Proof. vm_compute. reflexivity. Qed.

Example url_run_fails :
  outcome_message (deploy url_config happy)
  = Some "Artifact not downloaded yet. Call fetch() first."
  /\ count_events is_provider_fetch (trace (snd (deploy url_config happy))) = 0.
Proof. vm_compute. split; reflexivity. Qed.

(** Every provider object is created with its path field unset. *)
Lemma detectProvider_url_fresh w src config c d :
  detectProvider w src config = Ok (URLProvider c d) -> d = None.
Proof.
  unfold detectProvider, new_ClaudeProvider, new_URLProvider, new_LocalProvider.
  destruct src as [s|]; [|discriminate].
  destruct (is_http_url s).
  - destruct (js_includes s "claude.ai" || js_includes s "anthropic.com");
      intros H; inversion H; reflexivity.
  - destruct (d_pathExists w s); [|discriminate].
    destruct (resolve_source w (with_source config s)); simpl; discriminate.
Qed.

Lemma getProvider_url_fresh w providerName config c d :
  getProvider w providerName config = Ok (URLProvider c d) -> d = None.
Proof.
  unfold getProvider, new_ClaudeProvider, new_URLProvider, new_LocalProvider.
  destruct (String.eqb providerName "claude"); [discriminate|].
  destruct (String.eqb providerName "local").
  - destruct (resolve_source w config); simpl; discriminate.
  - destruct (String.eqb providerName "url"); [|discriminate].
    intros H; inversion H; reflexivity.
Qed.

Lemma createProvider_inv w config m :
  exists t,
    createProvider w config m
    = (selected_provider w config,
       {| rollbackState := rollbackState m; trace := (trace m ++ t)%list |})
    /\ count_events is_provider_fetch t = 0
    /\ ((String.eqb (str_or (provider config) "auto") "auto" = true
         /\ selected_provider w config = detectProvider w (source config) config)
        \/ selected_provider w config
           = getProvider w (str_or (provider config) "auto") config).
Proof.
  unfold selected_provider, createProvider.
  destruct (String.eqb (str_or (provider config) "auto") "auto").
  - exists [EvLog "Auto-detecting provider..."]. split; [reflexivity|].
    split; [reflexivity|]. left. split; reflexivity.
  - exists []. unfold lift. rewrite app_nil_r. destruct m; simpl.
    split; [reflexivity|]. split; [reflexivity|]. right. reflexivity.
Qed.

Lemma selected_url_fresh w config c d :
  selected_provider w config = Ok (URLProvider c d) -> d = None.
Proof.
  intros H. destruct (createProvider_inv w config new_Manager) as (t & _ & _ & [[_ Hs]|Hs]);
    rewrite Hs in H.
  - eapply detectProvider_url_fresh, H.
  - eapply getProvider_url_fresh, H.
Qed.

(** C9. When the provider selected for a run is the URL provider,
    [fetchArtifact] throws, from every state of the manager, the error of
    [validate] that asks for [fetch] to be called first, and [fetch] is not
    called. Hence the run never returns a result: when step 1 passes it
    throws that error, without any rollback. *)
Theorem url_provider_fetch_always_fails (config : Config) (w : DeployWorld)
        (p : Provider) :
  selected_provider w config = Ok p ->
  is_url_provider p = true ->
  (forall m : Manager,
      exists m',
        fetchArtifact config w m = (Throw not_downloaded, m')
        /\ count_events is_provider_fetch (trace m')
           = count_events is_provider_fetch (trace m))
  /\ (forall (u : unit) (m1 : Manager),
         validateEnvironment config w started = (Ok u, m1) ->
         exists m', deploy config w = (Throw not_downloaded, m')
                    /\ count_events is_stop (trace m') = 0)
  /\ is_Ok (fst (deploy config w)) = false.
Proof.
  intros Hsel Hurl.
  destruct p as [c a | c sp | c d]; try discriminate Hurl.
  pose proof (selected_url_fresh _ _ _ _ Hsel) as ->.
  assert (Hfetch : forall m : Manager,
             exists m',
               fetchArtifact config w m = (Throw not_downloaded, m')
               /\ count_events is_provider_fetch (trace m')
                  = count_events is_provider_fetch (trace m)).
  { intros m. destruct (createProvider_inv w config m) as (t & Hc & Ht & _).
    unfold fetchArtifact. unfold bind at 1. rewrite Hc, Hsel.
    unfold bind at 1. unfold validate, bind, emit, throw. simpl.
    eexists. split; [reflexivity|]. simpl.
    rewrite count_events_push. unfold count_events in *.
    rewrite List.filter_app, length_app, Ht. simpl. lia. }
  split; [exact Hfetch|].
  assert (Hstep2 : forall (u : unit) (m1 : Manager),
             validateEnvironment config w started = (Ok u, m1) ->
             exists m', deploy config w = (Throw not_downloaded, m')
                        /\ count_events is_stop (trace m') = 0).
  { intros u m1 Hv. destruct (Hfetch m1) as (m2 & Hf & _).
    apply (before_capture_failure config w not_downloaded m2).
    unfold before_capture. unfold bind at 1. rewrite Hv.
    unfold bind at 1. rewrite Hf. reflexivity. }
  split; [exact Hstep2|].
  destruct (validateEnvironment config w started) as [[u|e] m1] eqn:Hv.
  - destruct (Hstep2 u m1 eq_refl) as (m' & Hd & _). rewrite Hd. reflexivity.
  - assert (Hb : before_capture config w started = (Throw e, m1)).
    { unfold before_capture. unfold bind at 1. rewrite Hv. reflexivity. }
    destruct (before_capture_failure config w e m1 Hb) as (m' & Hd & _).
    rewrite Hd. reflexivity.
Qed.

(** Witness for C9: a project fetched from a plain URL, in a world where
    every call would succeed. *)
Lemma url_provider_fetch_always_fails_witness :
  is_Ok (fst (deploy url_config happy)) = false.
Proof.
  eapply (url_provider_fetch_always_fails url_config happy
            (URLProvider url_config None)).
  - vm_compute. reflexivity.
  - reflexivity.
Defined.

End ProviderClaims.


(** * Further properties of the state detector *)

Section DetectorMore.
Import ConfigDetector Examples DetectorSpec.

Example detect_sqlite_file_present :
  summary (detect None sqlite_file_present) =
  Some (error, Some running, ["Missing environment variables: SESSION_SECRET"]).
Proof. vm_compute. reflexivity. Qed.

Lemma classify_ignores_prev (prev prev' : option State) (w : World) (c : Checks) :
  classify prev w c = classify prev' w c.
Proof.
  unfold classify.
  destruct (configExists c), (deploymentRunning c); reflexivity.
Qed.

(** X1. What [detect] answers does not depend on the state that an
    earlier call left in the detector: a detector that is used again
    (as the dashboard does on retry) answers as a fresh one. *)
Theorem detect_independent_of_previous_state
        (prev prev' : option State) (w : World) :
  detect prev w = detect prev' w.
Proof.
  unfold detect. destruct (run_checks w) as [c|e]; [|reflexivity]. simpl.
  rewrite (classify_ignores_prev prev prev'). reflexivity.
Qed.

Lemma checkEnv_condition (w : World) :
  negb (valid (checkEnv w)) && Nat.ltb 0 (length (missing (checkEnv w)))
  = negb (Nat.eqb (length (missing (checkEnv w))) 0).
Proof.
  unfold checkEnv.
  destruct (negb (pathExists w (path_join (baseDir w) ".env"))); [reflexivity|].
  destruct (loadConfig w) as [config|]; [|reflexivity]. simpl.
  destruct (length (missing_vars (process_env w) (required_vars config))); reflexivity.
Qed.

Lemma detectErrors_types (w : World) (c : Checks) :
  envValid c = checkEnv w ->
  map err_type (detectErrors w c) =
  ((if dockerRunning c then [] else [docker_not_running])
     ++ (if Nat.eqb (length (missing (checkEnv w))) 0 then [] else [missing_env_vars])
     ++ (if source_missing w then [source_not_found] else []))%list.
Proof.
  intros Henv. unfold detectErrors, source_missing. rewrite Henv, checkEnv_condition.
  destruct (dockerRunning c); simpl;
    destruct (Nat.eqb (length (missing (checkEnv w))) 0); simpl;
    destruct (loadConfig w) as [config|]; try reflexivity;
    destruct (source config) as [src|]; try reflexivity;
    destruct (String.eqb src EmptyString); simpl; try reflexivity;
    destruct (pathExists w (path_resolve (baseDir w) src)); reflexivity.
Qed.

(** X2. The errors of a detected state mirror the probes, in the fixed
    order daemon, environment, source: [docker-not-running] is there
    exactly when the ping fails, [missing-env-vars] exactly when the env
    probe lists a missing variable, [source-not-found] exactly when a
    loaded configuration names a source that is not on disk; each occurs
    at most once, and the type is [error] exactly when one is there. *)
Theorem detect_errors_mirror_probes (prev : option State) (w : World) (s : State) :
  detect prev w = Ok (Some s) ->
  error_types s =
    ((if checkDocker w then [] else [docker_not_running])
       ++ (if Nat.eqb (length (missing (checkEnv w))) 0 then [] else [missing_env_vars])
       ++ (if source_missing w then [source_not_found] else []))%list
  /\ (type s = error <-> error_types s <> []).
Proof.
  intros Hd.
  destruct (detect_inv _ _ _ Hd) as (c & base & Hc & Hb & Hs).
  destruct (classify_assigns _ _ _ _ Hb) as (b' & Heq & Hty & _ & _ & Herr & _).
  inversion Heq; subst b'; clear Heq.
  destruct (run_checks_fields _ _ Hc) as (_ & Hdock & _ & Henv & _).
  pose proof (detectErrors_types w c Henv) as Htypes. rewrite Hdock in Htypes.
  assert (Hne : type base <> error).
  { rewrite Hty. unfold base_of_checks.
    destruct (negb (configExists c)), (negb (deploymentRunning c)); discriminate. }
  destruct Hs as [[Hnil ->] | [Hnon Hm]].
  - unfold error_types. rewrite Herr. rewrite Hnil in Htypes. simpl in Htypes.
    split; [exact Htypes|]. split; [intros; contradiction | intros H; contradiction H; reflexivity].
  - simpl in Hm. inversion Hm; subst s; clear Hm. unfold error_types. simpl.
    split; [exact Htypes|]. split; [|reflexivity].
    intros _ Hmap. apply Hnon. destruct (detectErrors w c); [reflexivity | discriminate Hmap].
Qed.

(** Witness for X2: the only variable is set to the empty string. *)
Lemma detect_errors_mirror_probes_witness :
  exists s : State,
    detect None sqlite_file_present = Ok (Some s)
    /\ error_types s = [missing_env_vars].
Proof.
  eexists. split; [vm_compute; reflexivity|].
  eapply eq_trans.
  - eapply (proj1 (detect_errors_mirror_probes None sqlite_file_present _ _)).
  - vm_compute. reflexivity.
  Unshelve. vm_compute. reflexivity.
Defined.

Lemma suggestFixes_answers (es : list DetectedError) :
  Forall2 fix_answers es (suggestFixes es).
Proof.
  induction es as [|e es IH]; simpl; constructor; [|exact IH].
  unfold fix_answers, fix_for, is_docker_error.
  destruct (err_type e); repeat split; reflexivity.
Qed.

(** X3. In every detected state that carries errors, the fixes answer the
    errors one by one and in the same order: each fix names the kind of its
    error and gives three instructions, and it is marked auto-fixable
    unless the error is the unreachable daemon. *)
Theorem detect_fixes_answer_errors (prev : option State) (w : World) (s : State)
        (es : list DetectedError) :
  detect prev w = Ok (Some s) ->
  errors s = Some es ->
  exists fs : list Fix, fixes s = Some fs /\ Forall2 fix_answers es fs.
Proof.
  intros Hd Hes.
  destruct (detect_inv _ _ _ Hd) as (c & base & Hc & Hb & Hs).
  destruct (classify_assigns _ _ _ _ Hb) as (b' & Heq & _ & _ & _ & Herr & _).
  inversion Heq; subst b'; clear Heq.
  destruct Hs as [[_ ->] | [_ Hm]].
  - rewrite Herr in Hes. discriminate Hes.
  - simpl in Hm. inversion Hm; subst s; clear Hm. simpl in *.
    inversion Hes; subst es. eexists. split; [reflexivity|].
    apply suggestFixes_answers.
Qed.

(** Witness for X3. *)
Lemma detect_fixes_answer_errors_witness :
  exists (s : State) (es : list DetectedError) (fs : list Fix),
    detect None configured_daemon_down = Ok (Some s)
    /\ errors s = Some es /\ fixes s = Some fs /\ Forall2 fix_answers es fs.
Proof.
  eexists. eexists.
  destruct (detect_fixes_answer_errors None configured_daemon_down _ _
              ltac:(vm_compute; reflexivity) ltac:(vm_compute; reflexivity))
    as (fs & Hfs & Hall).
  exists fs. split; [vm_compute; reflexivity|]. split; [vm_compute; reflexivity|].
  split; assumption.
Defined.

Lemma env_unset_false_iff (env : gmap string string) (key : string) :
  env_unset env key = false <-> env_set env key.
Proof.
  unfold env_unset, env_set. destruct (env !! key) as [v|].
  - rewrite <- Bool.not_true_iff_false, String.eqb_eq. split.
    + intros Hv. exists v. split; [reflexivity | exact Hv].
    + intros (v' & Heq & Hv). inversion Heq; subst. exact Hv.
  - split; [discriminate|]. intros (v & Heq & _). discriminate Heq.
Qed.

(** X4. With a [.env] file and a loaded configuration, the env probe
    answers [valid] exactly when every required variable is set to a
    non-empty value in the process environment; its [missing] list holds
    exactly the required variables that are unset or empty, in the order
    of the requirements. *)
Theorem checkEnv_valid_iff_all_set (w : World) (config : Config) :
  pathExists w (path_join (baseDir w) ".env") = true ->
  loadConfig w = Some config ->
  (valid (checkEnv w) = true <->
   forall v : string, In v (required_vars config) -> env_set (process_env w) v)
  /\ (forall v : string,
         In v (missing (checkEnv w)) <->
         In v (required_vars config) /\ ~ env_set (process_env w) v)
  /\ sublist (missing (checkEnv w)) (required_vars config).
Proof.
  intros Henv Hcfg. unfold checkEnv. rewrite Henv, Hcfg. simpl.
  assert (Hin : forall v : string,
             In v (missing_vars (process_env w) (required_vars config)) <->
             In v (required_vars config) /\ ~ env_set (process_env w) v).
  { intros v. rewrite missing_vars_In, <- env_unset_false_iff.
    destruct (env_unset (process_env w) v); intuition congruence. }
  split; [|split].
  - rewrite Nat.eqb_eq, length_zero_iff_nil. split.
    + intros Hnil v Hv.
      destruct (env_unset (process_env w) v) eqn:Hu.
      * assert (Hm : In v (missing_vars (process_env w) (required_vars config))).
        { apply missing_vars_In. split; assumption. }
        rewrite Hnil in Hm. contradiction.
      * apply env_unset_false_iff. exact Hu.
    + intros Hall.
      destruct (missing_vars (process_env w) (required_vars config)) as [|v vs] eqn:Hm;
        [reflexivity|].
      assert (Hv : In v (v :: vs)) by (left; reflexivity).
      apply Hin in Hv. destruct Hv as [Hreq Hnot].
      contradiction (Hnot (Hall v Hreq)).
  - exact Hin.
  - unfold missing_vars. apply sublist_filter.
Qed.

(** Witness for X4: [SESSION_SECRET] is set to the empty string, and is
    reported missing. *)
Lemma checkEnv_valid_iff_all_set_witness :
  In "SESSION_SECRET" (missing (checkEnv sqlite_file_present)).
Proof.
  apply (proj1 (proj2 (checkEnv_valid_iff_all_set sqlite_file_present no_database_entry
                         ltac:(vm_compute; reflexivity) ltac:(vm_compute; reflexivity)))).
  split.
  - left. reflexivity.
  - intros (v & Hv & Hne). vm_compute in Hv. inversion Hv; subst. apply Hne. reflexivity.
Defined.

(** X5. The deployment probe answers [true] exactly when the daemon lists
    its containers, the configuration loads, and some listed container,
    running or not, has a name that includes the project name or
    [easy-deploy]. *)
Theorem checkDeployment_iff (w : World) :
  checkDeployment w = true <->
  exists (cs : list Container) (config : Config) (c : Container),
    docker_listAll w = Ok cs
    /\ loadConfig w = Some config
    /\ In c cs
    /\ project_container config c.
Proof.
  unfold checkDeployment, project_container. split.
  - destruct (docker_listAll w) as [cs|e]; [|discriminate].
    destruct (loadConfig w) as [config|]; [|discriminate].
    intros H. apply Nat.ltb_lt in H.
    match type of H with
    | 0 < length ?l => destruct l as [|c rest] eqn:Hl; [simpl in H; lia|]
    end.
    assert (Hc : c ∈ (c :: rest)) by (left).
    rewrite <- Hl in Hc. apply list_elem_of_filter in Hc as [Hp Hin].
    apply existsb_exists in Hp as (nm & Hnm & Hor).
    apply orb_true_iff in Hor.
    exists cs, config, c. split; [reflexivity|]. split; [reflexivity|].
    split; [apply list_elem_of_In; exact Hin|].
    exists nm. split; assumption.
  - intros (cs & config & c & -> & -> & Hin & nm & Hnm & Hor).
    apply Nat.ltb_lt.
    match goal with
    | |- 0 < length ?l =>
        assert (Hc : c ∈ l); [|destruct l; [inversion Hc | simpl; lia]]
    end.
    apply list_elem_of_filter. split; [|apply list_elem_of_In; exact Hin].
    apply existsb_exists. exists nm. split; [exact Hnm|].
    apply orb_true_iff. exact Hor.
Qed.

(** X6. For a configuration whose [source] is a string or absent (every
    [Config] is; a [source] of another type makes [path.resolve] in
    [detectErrors] throw, and is outside this statement), [detect] raises
    only what reading the [artifacts] directory raises: an error that
    leaves it comes from the artifacts probe or, at first launch, from the
    suggestions that read the same directory. In particular, without an
    [artifacts] directory [detect] returns a state, whether or not the
    daemon answers, the configuration file loads and the variables are
    set. *)
Theorem detect_raises_only_artifact_faults (prev : option State) (w : World) :
  (forall e : JsError,
      detect prev w = Throw e ->
      checkArtifacts w = Throw e
      \/ (checkConfig w = false /\ getFirstLaunchSuggestions w = Throw e))
  /\ (pathExists w (path_join (baseDir w) "artifacts") = false ->
      exists s : State, detect prev w = Ok (Some s)).
Proof.
  split.
  - intros e H. unfold detect, run_checks in H.
    destruct (checkArtifacts w) as [a|e'] eqn:Ha; [|left; simpl in H; congruence]. simpl in H.
    right. unfold classify in H. simpl in H.
    destruct (checkConfig w) eqn:Hc; simpl in H.
    + destruct (checkDeployment w); simpl in H;
        match type of H with
        | context [Nat.ltb 0 (length ?l)] => destruct l; simpl in H; discriminate H
        end.
    + split; [reflexivity|].
      destruct (getFirstLaunchSuggestions w) as [sg|e'] eqn:Hsg; [|simpl in H; congruence].
      simpl in H.
      match type of H with
      | context [Nat.ltb 0 (length ?l)] => destruct l; simpl in H; discriminate H
      end.
  - intros Hno. apply (detect_returns prev w {| a_exists := false; a_count := 0;
                                                a_artifacts := None |}).
    + unfold checkArtifacts. rewrite Hno. reflexivity.
    + right. unfold getFirstLaunchSuggestions. rewrite Hno.
      destruct (pathExists w (path_join (baseDir w) "package.json")); reflexivity.
Qed.

(** Witness for X6. *)
Lemma detect_raises_only_artifact_faults_witness :
  exists s : State, detect None configured_daemon_down = Ok (Some s).
Proof.
  apply (proj2 (detect_raises_only_artifact_faults None configured_daemon_down)).
  vm_compute. reflexivity.
Defined.

(** X7. A configuration without a [database] entry is treated in two
    ways: the deployment initialises SQLite for it, while the database
    probe of the detector answers [false] for it, even when the SQLite
    file is on disk. *)
Theorem missing_database_entry_disagreement (config : Config) :
  database config = None ->
  (forall w : World, loadConfig w = Some config -> checkDatabase w = false)
  /\ (forall (dw : DeployWorld) (m : Manager),
         fst (DeploymentManager.database_initialize config dw m)
         = match init_sqlite dw with
           | Ok _ => Ok tt
           | Throw e => Throw e
           end).
Proof.
  intros Hdb. split.
  - intros w Hcfg. unfold checkDatabase, database_is. rewrite Hcfg, Hdb. reflexivity.
  - intros dw m. unfold DeploymentManager.database_initialize, str_or.
    rewrite Hdb. unfold bind, emit, lift. simpl.
    destruct (init_sqlite dw) as [u|e]; reflexivity.
Qed.

(** Witness for X7: the SQLite file is on disk, and the probe answers
    [false]. *)
Lemma missing_database_entry_disagreement_witness :
  pathExists sqlite_file_present "/srv/shop/data/app.db" = true
  /\ checkDatabase sqlite_file_present = false.
Proof.
  split; [vm_compute; reflexivity|].
  apply (proj1 (missing_database_entry_disagreement no_database_entry eq_refl)).
  vm_compute. reflexivity.
Defined.

Lemma suggestion_dirs_eq (w : World) (dir : string) (items : list string) :
  suggestion_dirs w dir items = collect_dirs w dir items.
Proof.
  induction items as [|item rest IH]; [reflexivity|].
  cbn [suggestion_dirs collect_dirs]. rewrite IH. reflexivity.
Qed.

(** The directories that the artifacts probe keeps are the entries on
    which [fs.stat] answers a directory, in the order of the listing. *)
Lemma collect_dirs_spec (w : World) (dir : string) (items dirs : list string) :
  collect_dirs w dir items = Ok dirs ->
  dirs = List.filter (fun item => match stat w (path_join dir item) with
                                  | Ok IsDirectory => true
                                  | _ => false
                                  end) items.
Proof.
  revert dirs. induction items as [|item rest IH]; intros dirs H.
  - inversion H. reflexivity.
  - cbn [collect_dirs] in H. apply bind_Ok_inv in H as (st & Hst & H).
    apply bind_Ok_inv in H as (ds & Hds & H). inversion H; subst; clear H.
    cbn [List.filter]. rewrite Hst, (IH ds Hds). destruct st; reflexivity.
Qed.

Lemma run_checks_artifacts (w : World) (c : Checks) :
  run_checks w = Ok c -> checkArtifacts w = Ok (artifactsExist c).
Proof.
  unfold run_checks. intros H.
  apply bind_Ok_inv in H as (a & Ha & H). inversion H; subst; clear H. exact Ha.
Qed.

(** X28. At first launch the suggestions and the artifacts probe agree,
    although each reads the directory on its own: the state suggests
    [artifacts-found] exactly when the probe counted at least one
    artifact, and then with the same directories, which are the entries of
    [artifacts] that are directories, in listing order. *)
Theorem first_launch_suggests_probed_artifacts (prev : option State) (w : World)
        (s : State) :
  checkConfig w = false ->
  detect prev w = Ok (Some s) ->
  exists sgs : list Suggestion,
    suggestions s = Some sgs
    /\ (a_count (artifactsExist (checks s)) = 0 ->
        forall sg : Suggestion, In sg sgs -> sug_type sg <> "artifacts-found")
    /\ (0 < a_count (artifactsExist (checks s)) ->
        exists (sg : Suggestion) (items : list string),
          In sg sgs
          /\ sug_type sg = "artifacts-found"
          /\ sug_artifacts sg = a_artifacts (artifactsExist (checks s))
          /\ readdir w (path_join (baseDir w) "artifacts") = Ok items
          /\ sug_artifacts sg
             = Some (List.filter
                       (fun item =>
                          match stat w (path_join (path_join (baseDir w) "artifacts") item)
                          with
                          | Ok IsDirectory => true
                          | _ => false
                          end) items)).
Proof.
  intros Hno Hd.
  destruct (detect_inv _ _ _ Hd) as (c & base & Hc & Hb & Hs).
  destruct (run_checks_fields _ _ Hc) as (Hcfg & _).
  pose proof (run_checks_artifacts _ _ Hc) as Ha.
  assert (Hbase : exists sgs, getFirstLaunchSuggestions w = Ok sgs
                              /\ suggestions base = Some sgs /\ checks base = c).
  { unfold classify in Hb. rewrite Hcfg, Hno in Hb. simpl in Hb.
    apply bind_Ok_inv in Hb as (sgs & Hsg & Hb). inversion Hb; subst; clear Hb.
    exists sgs. repeat split. exact Hsg. }
  destruct Hbase as (sgs & Hsg & Hsugg & Hck).
  assert (Hkeep : suggestions s = Some sgs /\ checks s = c).
  { destruct Hs as [[_ ->] | [_ Hm]].
    - split; assumption.
    - simpl in Hm. inversion Hm; subst s; simpl. split; assumption. }
  destruct Hkeep as [Hss Hcs]. exists sgs. split; [exact Hss|]. rewrite Hcs.
  unfold checkArtifacts in Ha. unfold getFirstLaunchSuggestions in Hsg.
  destruct (pathExists w (path_join (baseDir w) "artifacts")) eqn:Hex; simpl in Ha, Hsg.
  - apply bind_Ok_inv in Ha as (items & Hitems & Ha).
    apply bind_Ok_inv in Ha as (dirs & Hdirs & Ha). inversion Ha as [Hac]; clear Ha.
    rewrite Hitems in Hsg. simpl in Hsg. rewrite suggestion_dirs_eq, Hdirs in Hsg.
    simpl in Hsg. simpl.
    pose proof (collect_dirs_spec _ _ _ _ Hdirs) as Hspec.
    destruct dirs as [|d ds]; simpl in Hsg; inversion Hsg; subst sgs; clear Hsg.
    + split; [|simpl; lia]. intros _ sg Hin.
      destruct (pathExists w (path_join (baseDir w) "package.json")); simpl in Hin.
      * destruct Hin as [<-|[]]. discriminate.
      * contradiction.
    + split; [simpl; discriminate|]. intros _.
      eexists. exists items. split.
      * unfold push. apply in_or_app. right. left. reflexivity.
      * simpl. split; [reflexivity|]. split; [reflexivity|]. split; [exact Hitems|].
        rewrite Hspec. reflexivity.
  - inversion Ha as [Hac]; clear Ha. simpl. split; [|lia].
    intros _ sg Hin. inversion Hsg; subst sgs.
    destruct (pathExists w (path_join (baseDir w) "package.json")); simpl in Hin.
    + destruct Hin as [<-|[]]. discriminate.
    + contradiction.
Qed.

(** Witness for X28: one directory and one file below [artifacts]. *)
Lemma first_launch_suggests_probed_artifacts_witness :
  exists (s : State) (sg : Suggestion),
    detect None FirstLaunch.one_artifact = Ok (Some s)
    /\ sug_type sg = "artifacts-found"
    /\ sug_artifacts sg = Some ["landing"].
Proof.
  eexists.
  destruct (first_launch_suggests_probed_artifacts None FirstLaunch.one_artifact _
              ltac:(vm_compute; reflexivity) ltac:(vm_compute; reflexivity))
    as (sgs & _ & _ & Hfound).
  destruct Hfound as (sg & items & _ & Hty & _ & Hitems & Hdirs).
  - vm_compute. lia.
  - exists sg. split; [vm_compute; reflexivity|]. split; [exact Hty|].
    rewrite Hdirs. vm_compute in Hitems. inversion Hitems; subst items.
    vm_compute. reflexivity.
Defined.

End DetectorMore.


(** * Further properties of the deployment orchestrator *)

Section DeployMore.
Import DeploymentManager RunSpec RunMore Examples Providers.
Local Open Scope deploy_scope.

Example no_capture_no_rollback :
  outcome_message (deploy shop_config no_capture_start_fails)
  = Some "Failed to start containers: Command failed: docker-compose"
  /\ stops (deploy shop_config no_capture_start_fails) = 0.
Proof. vm_compute. split; reflexivity. Qed.

Lemma saveRollbackState_never_throws_aux (config : Config) (w : DeployWorld)
      (m : Manager) :
  exists (rs : option RollbackState) (m' : Manager),
    saveRollbackState config w m = (Ok rs, m').
Proof.
  unfold saveRollbackState, getContainerStatus, getCurrentCommit,
    try_catch_M, bind, emit, ret, throw.
  destruct (list_containers w) as [cs|e]; simpl.
  - destruct (git_latest_hash w) as [h|e]; simpl; eexists; eexists; reflexivity.
  - eexists; eexists; reflexivity.
Qed.

(** X8. Capturing the rollback state never throws. It answers [null]
    exactly when the containers cannot be listed; otherwise it records the
    time and the current commit, or no commit when git does not answer. *)
Theorem saveRollbackState_never_throws (config : Config) (w : DeployWorld)
        (m : Manager) :
  exists (rs : option RollbackState) (m' : Manager),
    saveRollbackState config w m = (Ok rs, m')
    /\ (rs = None <-> is_Ok (list_containers w) = false)
    /\ (forall r : RollbackState,
           rs = Some r -> timestamp r = now w /\ commitHash r = recorded_hash w).
Proof.
  unfold saveRollbackState, getContainerStatus, getCurrentCommit, recorded_hash,
    try_catch_M, bind, emit, ret, throw.
  destruct (list_containers w) as [cs|e]; simpl.
  - destruct (git_latest_hash w) as [h|e]; simpl;
      (eexists; eexists; split; [reflexivity|]; split;
       [split; discriminate | intros r Hr; inversion Hr; subst; split; reflexivity]).
  - eexists; eexists. split; [reflexivity|]. split.
    + split; reflexivity.
    + intros r Hr. discriminate Hr.
Qed.

Lemma run_body_stops (config : Config) (w : DeployWorld) (m : Manager)
      (r : Outcome DeploymentResult) (m' : Manager) :
  run_body config w m = (r, m') ->
  count_events is_stop (trace m') = count_events is_stop (trace m).
Proof.
  unfold run_body, bind. intros H.
  destruct (before_capture config w m) as [[art|e] m1] eqn:H1;
    destruct (quiet_before_capture config w _ _ _ H1) as [_ Ht1];
    [|inversion H; subst; exact Ht1].
  destruct (saveRollbackState config w m1) as [[rs|e] m2] eqn:H2;
    destruct (quiet_saveRollbackState config w _ _ _ H2) as [_ Ht2];
    [|inversion H; subst; congruence].
  simpl in H.
  destruct (quiet_after_capture config w art _ _ _ H) as [_ Ht3]. simpl in Ht3.
  congruence.
Qed.

Lemma finish_inv (config : Config) (art : Artifact) (m : Manager)
      (res : DeploymentResult) (m' : Manager) :
  finish config art m = (Ok res, m') ->
  success res = true /\ artifact res = art /\ server_url config = Ok (result_url res).
Proof.
  unfold finish, displayDeploymentInfo, bind, emit, lift, ret.
  destruct (server_url config) as [url|e]; simpl; intros H; inversion H; subst.
  repeat split.
Qed.

Lemma run_body_result (config : Config) (w : DeployWorld) (m : Manager)
      (res : DeploymentResult) (m' : Manager) :
  run_body config w m = (Ok res, m') ->
  success res = true /\ server_url config = Ok (result_url res).
Proof.
  rewrite run_body_split. unfold bind. intros H.
  destruct (through_verify config w m) as [[art|e] m1]; [|discriminate H].
  destruct (commit_step config w m1) as [[u|e] m2]; [|discriminate H].
  destruct (finish_inv _ _ _ _ _ H) as (Hs & _ & Hu). split; assumption.
Qed.

Lemma deploy_Ok_inv (config : Config) (w : DeployWorld)
      (res : DeploymentResult) (m' : Manager) :
  deploy config w = (Ok res, m') -> run_body config w started = (Ok res, m').
Proof.
  rewrite deploy_unfold. unfold try_catch_M.
  destruct (run_body config w started) as [[r|e] m1]; [intros H; exact H|].
  unfold bind, emit, get_rollbackState, throw, ret. simpl.
  destruct (rollbackState m1).
  - match goal with |- context [rollback w ?m] =>
      destruct (rollback_returns w m) as (m2 & Hr & _) end.
    rewrite Hr. discriminate.
  - discriminate.
Qed.

(** X9. A run that returns a result never stopped a container: the
    result says [success], its URL is that of the configured server, and
    no rollback took place. *)
Theorem successful_run_never_rolls_back (config : Config) (w : DeployWorld)
        (res : DeploymentResult) (m' : Manager) :
  deploy config w = (Ok res, m') ->
  success res = true
  /\ server_url config = Ok (result_url res)
  /\ count_events is_stop (trace m') = 0.
Proof.
  intros H. apply deploy_Ok_inv in H.
  destruct (run_body_result _ _ _ _ _ H) as [Hs Hu].
  split; [exact Hs|]. split; [exact Hu|].
  rewrite (run_body_stops _ _ _ _ _ H). reflexivity.
Qed.

(** Witness for X9. *)
Lemma successful_run_never_rolls_back_witness :
  count_events is_stop (trace (snd (deploy shop_config happy))) = 0.
Proof.
  eapply (successful_run_never_rolls_back shop_config happy).
  vm_compute. reflexivity.
Defined.

(** X10. When the capture of step 6 fails, the run goes on without
    rollback state, and a later failure is thrown without any rollback. *)
Theorem no_rollback_without_capture (config : Config) (w : DeployWorld)
        (art : Artifact) (m1 m2 : Manager) (e : JsError) (m3 : Manager) :
  before_capture config w started = (Ok art, m1) ->
  saveRollbackState config w m1 = (Ok None, m2) ->
  after_capture config w art (snd (set_rollbackState None m2)) = (Throw e, m3) ->
  exists m', deploy config w = (Throw e, m')
             /\ count_events is_stop (trace m') = 0.
Proof.
  intros H1 H2 H3.
  assert (Hb : run_body config w started = (Throw e, m3)).
  { unfold run_body, bind. rewrite H1, H2. simpl. simpl in H3. rewrite H3.
    reflexivity. }
  destruct (run_handler _ _ _ _ Hb) as (m' & Hd & Hc).
  exists m'. split; [exact Hd|].
  destruct (quiet_after_capture config w art _ _ _ H3) as [Hr3 _]. simpl in Hr3.
  rewrite Hc, Hr3, (run_body_stops _ _ _ _ _ Hb). reflexivity.
Qed.

(** Witness for X10. *)
Lemma no_rollback_without_capture_witness :
  exists m', deploy shop_config no_capture_start_fails
             = (Throw (new_Error
                  "Failed to start containers: Command failed: docker-compose"), m')
             /\ count_events is_stop (trace m') = 0.
Proof.
  eapply (no_rollback_without_capture shop_config no_capture_start_fails).
  - vm_compute. reflexivity.
  - vm_compute. reflexivity.
  - vm_compute. reflexivity.
Defined.

(** X11. Step 1 passes exactly when the daemon answers, every variable it
    requires is set, and, for the local provider, the source is configured
    and on disk. The daemon is checked first: when it does not answer, its
    error is the one thrown, whatever is missing. *)
Theorem validateEnvironment_ok_iff (config : Config) (w : DeployWorld) (m : Manager) :
  (fst (validateEnvironment config w m) = Ok tt <->
   is_Ok (d_ping w) = true
   /\ missing_vars w config = []
   /\ (provider_is config "local" = true ->
       exists src : string,
         source config = Some src
         /\ d_pathExists w (path_resolve (cwd w) src) = true))
  /\ (is_Ok (d_ping w) = false ->
      fst (validateEnvironment config w m)
      = Throw (new_Error
                 "Docker daemon is not running. Please start Docker and try again.")).
Proof.
  unfold validateEnvironment, checkDocker, resolve_source, bind, emit, lift, throw, ret.
  destruct (d_ping w) as [u|e]; simpl.
  - split; [|discriminate].
    destruct (missing_vars w config) as [|v vs]; simpl.
    + destruct (provider_is config "local"); simpl.
      * destruct (source config) as [src|]; simpl.
        -- destruct (d_pathExists w (path_resolve (cwd w) src)) eqn:Hex; simpl.
           ++ split; [|reflexivity]. intros _. repeat split.
              intros _. exists src. split; [reflexivity | exact Hex].
           ++ split; [discriminate|]. intros (_ & _ & Hsrc).
              destruct (Hsrc eq_refl) as (src' & Heq & Hex').
              inversion Heq; subst. congruence.
        -- split; [discriminate|]. intros (_ & _ & Hsrc).
           destruct (Hsrc eq_refl) as (src' & Heq & _). discriminate Heq.
      * split; [|reflexivity]. intros _. repeat split. discriminate.
    + split; [discriminate|]. intros (_ & Hm & _). discriminate Hm.
  - split; [|reflexivity]. split; [discriminate|]. intros (Hp & _). discriminate Hp.
Qed.

(** Witness for X11: everything is set, the source is on disk. *)
Lemma validateEnvironment_ok_iff_witness :
  fst (validateEnvironment shop_config happy new_Manager) = Ok tt.
Proof.
  apply (proj1 (validateEnvironment_ok_iff shop_config happy new_Manager)).
  split; [reflexivity|]. split; [vm_compute; reflexivity|].
  intros _. exists "./app". split; [reflexivity | vm_compute; reflexivity].
Defined.

(** X13. A first probe that fails below HTTP with anything other than a
    refused connection (a timeout, an unknown host) is not retried: the
    verification throws that very error after one request. *)
Theorem verify_other_failures_not_retried (config : Config) (w : DeployWorld)
        (srv : Server) (m : Manager) (code msg : string) :
  server config = Some srv ->
  http_health w = NetworkError code msg ->
  code <> "ECONNREFUSED" ->
  fst (verifyDeployment config w m)
  = Throw {| e_message := msg; e_code := Some code; e_status := None |}
  /\ http_gets (verifyDeployment config w m)
     = count_events is_http_get (trace m) + 1.
Proof.
  intros Hsrv Hh Hcode.
  unfold http_gets, verifyDeployment, server_url. rewrite Hsrv.
  unfold bind, lift, emit, try_catch_M, axios_get, ret, throw, status_is, code_is.
  rewrite Hh. cbn -[count_events push String.eqb].
  assert (Hneq : String.eqb code "ECONNREFUSED" = false)
    by (apply String.eqb_neq; exact Hcode).
  rewrite Hneq. cbn -[count_events push]. split; [reflexivity|].
  rewrite !count_events_push. simpl. lia.
Qed.

(** Witness for X13: the first probe times out. *)
Lemma verify_other_failures_not_retried_witness :
  http_gets (verifyDeployment shop_config health_times_out new_Manager) = 1.
Proof.
  eapply (verify_other_failures_not_retried shop_config health_times_out
            {| host := Some "localhost"; port := Some 3000 |} new_Manager
            "ECONNABORTED" "timeout of 10000ms exceeded").
  - reflexivity.
  - reflexivity.
  - discriminate.
Defined.

End DeployMore.

(** ** Provider selection *)

Section ProviderMore.
Import DeploymentManager RunSpec RunMore Examples Providers.
Local Open Scope deploy_scope.

Example claude_config_selects_claude :
  selected_provider happy claude_config
  = Ok (ClaudeProvider claude_config None).
Proof. vm_compute. reflexivity. Qed.

Example claude_run_fails :
  outcome_message (deploy claude_config happy)
  = Some "Artifact not fetched yet. Call fetch() first.".
Proof. vm_compute. reflexivity. Qed.

Lemma detectProvider_claude_fresh w src config c a :
  detectProvider w src config = Ok (ClaudeProvider c a) -> a = None.
Proof.
  unfold detectProvider, new_ClaudeProvider, new_URLProvider, new_LocalProvider.
  destruct src as [s|]; [|discriminate].
  destruct (is_http_url s).
  - destruct (js_includes s "claude.ai" || js_includes s "anthropic.com");
      intros H; inversion H; reflexivity.
  - destruct (d_pathExists w s); [|discriminate].
    destruct (resolve_source w (with_source config s)); simpl; discriminate.
Qed.

Lemma getProvider_claude_fresh w providerName config c a :
  getProvider w providerName config = Ok (ClaudeProvider c a) -> a = None.
Proof.
  unfold getProvider, new_ClaudeProvider, new_URLProvider, new_LocalProvider.
  destruct (String.eqb providerName "claude"); [intros H; inversion H; reflexivity|].
  destruct (String.eqb providerName "local").
  - destruct (resolve_source w config); simpl; discriminate.
  - destruct (String.eqb providerName "url"); discriminate.
Qed.

Lemma selected_claude_fresh w config c a :
  selected_provider w config = Ok (ClaudeProvider c a) -> a = None.
Proof.
  intros H. destruct (createProvider_inv w config new_Manager) as (t & _ & _ & [[_ Hs]|Hs]);
    rewrite Hs in H.
  - eapply detectProvider_claude_fresh, H.
  - eapply getProvider_claude_fresh, H.
Qed.

(** Unless the selected provider is the local one, [fetchArtifact]
    throws from every state of the manager. *)
Lemma fetchArtifact_throws_unless_local (config : Config) (w : DeployWorld) :
  (forall c sp, selected_provider w config <> Ok (LocalProvider c sp)) ->
  forall m : Manager, exists e m', fetchArtifact config w m = (Throw e, m').
Proof.
  intros Hnot m. destruct (createProvider_inv w config m) as (t & Hc & _ & _).
  unfold fetchArtifact. unfold bind at 1. rewrite Hc.
  destruct (selected_provider w config) as [[c a|c sp|c d]|e] eqn:Hsel.
  - pose proof (selected_claude_fresh _ _ _ _ Hsel) as ->.
    unfold bind at 1. unfold validate, bind, emit, throw. simpl.
    eexists; eexists; reflexivity.
  - contradiction (Hnot c sp). reflexivity.
  - pose proof (selected_url_fresh _ _ _ _ Hsel) as ->.
    unfold bind at 1. unfold validate, bind, emit, throw. simpl.
    eexists; eexists; reflexivity.
  - eexists; eexists; reflexivity.
Qed.

(** X12. A run can only return a result with the local provider: the URL
    and the Claude provider both refuse [validate] before [fetch], and
    [fetchArtifact] validates first. *)
Theorem only_local_provider_can_succeed (config : Config) (w : DeployWorld) :
  is_Ok (fst (deploy config w)) = true ->
  exists (c : Config) (sourcePath : string),
    selected_provider w config = Ok (LocalProvider c sourcePath)
    /\ d_pathExists w sourcePath = true.
Proof.
  intros Hok.
  destruct (selected_provider w config) as [[c a|c sp|c d]|e] eqn:Hsel.
  1,3,4: exfalso;
    assert (Hnot : forall c' sp', selected_provider w config <> Ok (LocalProvider c' sp'))
      by (intros c' sp'; rewrite Hsel; discriminate);
    pose proof (fetchArtifact_throws_unless_local config w Hnot) as Hf;
    destruct (validateEnvironment config w started) as [[u|e1] m1] eqn:Hv;
    [ destruct (Hf m1) as (e2 & m2 & Hf2);
      assert (Hb : before_capture config w started = (Throw e2, m2))
        by (unfold before_capture; unfold bind at 1; rewrite Hv;
            unfold bind at 1; rewrite Hf2; reflexivity)
    | assert (Hb : before_capture config w started = (Throw e1, m1))
        by (unfold before_capture; unfold bind at 1; rewrite Hv; reflexivity) ];
    destruct (before_capture_failure _ _ _ _ Hb) as (m' & Hd & _);
    rewrite Hd in Hok; discriminate Hok.
  exists c, sp. split; [reflexivity|].
  destruct (d_pathExists w sp) eqn:Hex; [reflexivity|]. exfalso.
  assert (Hf : forall m, exists e m', fetchArtifact config w m = (Throw e, m')).
  { intros m. destruct (createProvider_inv w config m) as (t & Hc & _ & _).
    unfold fetchArtifact. unfold bind at 1. rewrite Hc, Hsel.
    unfold bind at 1. unfold validate, bind, emit, throw. simpl. rewrite Hex. simpl.
    eexists; eexists; reflexivity. }
  destruct (validateEnvironment config w started) as [[u|e1] m1] eqn:Hv;
    [ destruct (Hf m1) as (e2 & m2 & Hf2);
      assert (Hb : before_capture config w started = (Throw e2, m2))
        by (unfold before_capture; unfold bind at 1; rewrite Hv;
            unfold bind at 1; rewrite Hf2; reflexivity)
    | assert (Hb : before_capture config w started = (Throw e1, m1))
        by (unfold before_capture; unfold bind at 1; rewrite Hv; reflexivity) ];
    destruct (before_capture_failure _ _ _ _ Hb) as (m' & Hd & _);
    rewrite Hd in Hok; discriminate Hok.
Qed.

(** Witness for X12. *)
Lemma only_local_provider_can_succeed_witness :
  exists (c : Config) (sourcePath : string),
    selected_provider happy shop_config = Ok (LocalProvider c sourcePath)
    /\ d_pathExists happy sourcePath = true.
Proof.
  apply (only_local_provider_can_succeed shop_config happy).
  vm_compute. reflexivity.
Defined.

(** X14. How the provider is selected. A configured name wins over the
    shape of the source: [url], [claude] and [local] select their class,
    any other name but [auto] (and but the names that an object literal
    inherits) is refused. Without a name (or with [auto])
    an http(s) source selects the Claude provider when it mentions
    claude.ai or anthropic.com and the URL provider otherwise, an existing
    path selects the local provider, and anything else is refused. *)
Theorem provider_selection (config : Config) (w : DeployWorld) :
  (provider config = Some "url" ->
   selected_provider w config = Ok (URLProvider config None))
  /\ (provider config = Some "claude" ->
      selected_provider w config = Ok (ClaudeProvider config None))
  /\ (forall src : string,
         provider config = Some "local" -> source config = Some src ->
         selected_provider w config
         = Ok (LocalProvider config (path_resolve (cwd w) src)))
  /\ (forall p : string,
         provider config = Some p ->
         p <> EmptyString -> p <> "auto" -> p <> "claude" -> p <> "local" -> p <> "url" ->
         ~ In p inherited_names ->
         selected_provider w config = Throw (new_Error ("Unknown provider: " ++ p)))
  /\ (forall src : string,
         str_or (provider config) "auto" = "auto" ->
         source config = Some src ->
         selected_provider w config =
         if is_http_url src then
           if js_includes src "claude.ai" || js_includes src "anthropic.com"
           then Ok (ClaudeProvider (with_source config src) None)
           else Ok (URLProvider (with_source config src) None)
         else if d_pathExists w src
              then Ok (LocalProvider (with_source config src) (path_resolve (cwd w) src))
              else Throw (new_Error ("Unable to detect provider for source: " ++ src))).
Proof.
  unfold selected_provider, createProvider.
  split; [|split; [|split; [|split]]].
  - intros ->. reflexivity.
  - intros ->. reflexivity.
  - intros src -> Hsrc. simpl. unfold lift, getProvider, new_LocalProvider, resolve_source.
    simpl. rewrite Hsrc. reflexivity.
  - intros p -> Hne Hauto Hc Hl Hu _. unfold str_or.
    apply String.eqb_neq in Hne, Hauto, Hc, Hl, Hu.
    rewrite Hne, Hauto. unfold lift, getProvider. simpl.
    rewrite Hc, Hl, Hu. reflexivity.
  - intros src Hp Hsrc. rewrite Hp. simpl. unfold bind, emit, lift. simpl.
    unfold detectProvider. rewrite Hsrc.
    unfold new_ClaudeProvider, new_URLProvider, new_LocalProvider, resolve_source.
    destruct (is_http_url src); [reflexivity|].
    destruct (d_pathExists w src); reflexivity.
Qed.

(** Witness for X14: a claude.ai address with no provider configured. *)
Lemma provider_selection_witness :
  selected_provider happy claude_config
  = Ok (ClaudeProvider (with_source claude_config
                          "https://claude.ai/public/artifacts/1234") None).
Proof.
  eapply eq_trans.
  - apply (proj2 (proj2 (proj2 (proj2 (provider_selection claude_config happy))))
                 "https://claude.ai/public/artifacts/1234"); reflexivity.
  - reflexivity.
Defined.

(** X15. The type detection of the URL provider never throws when a
    source is configured, and answers one of six types. The extension of
    the URL decides first, case-insensitively: a GitHub address that ends
    in [.zip] is a [zip], not a [github] source; [github] is only answered
    for addresses that mention github.com; and when the extension and the
    host say nothing, a failed HEAD request gives [unknown]. *)
Theorem url_detectType_answers (config : Config) (w : DeployWorld) (url : string) :
  source config = Some url ->
  exists t : string,
    url_detectType w config = Ok t
    /\ In t url_types
    /\ (has_ext url ".zip" = true -> t = "zip")
    /\ (t = "github" -> js_includes url "github.com" = true)
    /\ (t = "github" -> has_ext url ".zip" = false)
    /\ (is_Ok (head_content_type w) = false ->
        t <> "unknown" ->
        has_ext url ".zip" || has_ext url ".tar.gz" || has_ext url ".html"
        || has_ext url ".htm" || has_ext url ".md" || js_includes url "github.com" = true).
Proof.
  intros Hsrc. unfold url_detectType, url_types. rewrite Hsrc.
  destruct (has_ext url ".zip");
    [eexists; split; [reflexivity|]; simpl; intuition (try discriminate; auto)|].
  destruct (has_ext url ".tar.gz");
    [eexists; split; [reflexivity|]; simpl; intuition (try discriminate; auto)|].
  destruct (has_ext url ".html");
    [eexists; split; [reflexivity|]; simpl; intuition (try discriminate; auto)|].
  destruct (has_ext url ".htm");
    [eexists; split; [reflexivity|]; simpl; intuition (try discriminate; auto)|].
  destruct (has_ext url ".md");
    [eexists; split; [reflexivity|]; simpl; intuition (try discriminate; auto)|].
  destruct (js_includes url "github.com");
    [eexists; split; [reflexivity|]; simpl; intuition (try discriminate; auto)|].
  simpl.
  destruct (head_content_type w) as [ct|e].
  - destruct (js_includes ct "text/html");
      [eexists; split; [reflexivity|]; simpl; intuition (try discriminate; auto)|].
    destruct (js_includes ct "text/markdown");
      [eexists; split; [reflexivity|]; simpl; intuition (try discriminate; auto)|].
    destruct (js_includes ct "application/zip");
      eexists; (split; [reflexivity|]); simpl; intuition (try discriminate; auto).
  - eexists; split; [reflexivity|]; simpl; intuition (try discriminate; auto).
Qed.

(** Witness for X15: an archive on GitHub, in capitals. *)
Lemma url_detectType_answers_witness :
  exists t : string,
    url_detectType happy
      (with_source url_config "https://github.com/acme/site/archive/V1.ZIP") = Ok t
    /\ t = "zip".
Proof.
  destruct (url_detectType_answers
              (with_source url_config "https://github.com/acme/site/archive/V1.ZIP")
              happy "https://github.com/acme/site/archive/V1.ZIP" eq_refl)
    as (t & Ht & _ & Hzip & _).
  exists t. split; [exact Ht|]. apply Hzip. vm_compute. reflexivity.
Defined.

(** X16. The compose profiles of a run: [postgres] exactly for the
    ['postgresql'] database, [nginx] and [redis] exactly when their
    feature is on, in that order and without repetition. *)
Theorem active_profiles_exact (config : Config) :
  sublist (getActiveProfiles config) ["postgres"; "nginx"; "redis"]
  /\ (forall p : string,
         In p (getActiveProfiles config) <->
         (p = "postgres" /\ database_is config "postgresql" = true)
         \/ (p = "nginx" /\ features_nginx config = true)
         \/ (p = "redis" /\ features_redis config = true)).
Proof.
  unfold getActiveProfiles, push.
  destruct (database_is config "postgresql"), (features_nginx config),
    (features_redis config); simpl; split;
    try (intros p; simpl; intuition (subst; try discriminate; auto));
    repeat first [apply sublist_nil | apply sublist_skip_cons_hd | apply sublist_skip
                 | apply sublist_cons | apply sublist_nil_l].
Qed.

End ProviderMore.


(** * Properties of the git automation, the type detection and the Docker files *)

Section StringFacts.

Lemma prefix_slash (c : ascii) (rest : string) :
  String.prefix "/" (String c rest) = Ascii.eqb c "/"%char.
Proof.
  change (String.prefix "/" (String c rest))
    with (if ascii_dec "/"%char c then String.prefix EmptyString rest else false).
  destruct (ascii_dec "/"%char c) as [Heq|Hne].
  - subst c. destruct rest; reflexivity.
  - symmetry. apply Ascii.eqb_neq. congruence.
Qed.

Lemma prefix_drop (pat s : string) :
  String.prefix pat s = true -> s = pat ++ drop_chars (String.length pat) s.
Proof.
  revert s. induction pat as [|a pat IH]; intros s H.
  - destruct s; reflexivity.
  - destruct s as [|b s]; [discriminate H|]. simpl in H.
    destruct (ascii_dec a b) as [<-|]; [|discriminate H].
    change (String a s = String a (pat ++ drop_chars (String.length pat) s)).
    f_equal. apply IH, H.
Qed.

(** [replace] substitutes one occurrence, and only touches a string that
    holds the pattern. *)
Lemma js_replace_spec (pat repl s : string) :
  js_includes s pat = true ->
  exists pre post : string,
    s = pre ++ pat ++ post /\ js_replace pat repl s = pre ++ repl ++ post.
Proof.
  induction s as [|c s IH]; intros H.
  - cbn [js_includes] in H. rewrite orb_false_r in H.
    exists EmptyString, (drop_chars (String.length pat) EmptyString).
    split; [apply prefix_drop, H|]. cbn [js_replace]. rewrite H. reflexivity.
  - cbn [js_includes] in H. cbn [js_replace].
    destruct (String.prefix pat (String c s)) eqn:Hp.
    + exists EmptyString, (drop_chars (String.length pat) (String c s)).
      split; [apply prefix_drop, Hp | reflexivity].
    + simpl in H. destruct (IH H) as (pre & post & Hs & Hr).
      exists (String c pre), post. split.
      * rewrite Hs at 1. reflexivity.
      * rewrite Hr. reflexivity.
Qed.

Lemma js_replace_absent (pat repl s : string) :
  js_includes s pat = false -> js_replace pat repl s = s.
Proof.
  induction s as [|c s IH]; intros H; cbn [js_includes] in H;
    apply orb_false_iff in H as [Hp Hr];
    cbn [js_replace]; rewrite Hp; [reflexivity|].
  rewrite (IH Hr). reflexivity.
Qed.

Lemma js_endsWith_app (a suffix : string) : js_endsWith (a ++ suffix) suffix = true.
Proof.
  induction a as [|c a IH].
  - change (EmptyString ++ suffix) with suffix.
    destruct suffix; cbn [js_endsWith]; rewrite String.eqb_refl; reflexivity.
  - change (String c a ++ suffix) with (String c (a ++ suffix)).
    cbn [js_endsWith]. rewrite IH. apply orb_true_r.
Qed.

(** What [split('/')] answers: one part without a slash when the string
    has none, otherwise a first part without a slash, and the parts joined
    by slashes give the string back. *)
Lemma split_slash_spec (s : string) :
  match split_slash s with
  | [] => False
  | [p] => s = p /\ js_includes s "/" = false
  | p :: ps => s = p ++ "/" ++ js_join "/" ps /\ js_includes p "/" = false
  end.
Proof.
  induction s as [|c s IH].
  - simpl. split; reflexivity.
  - cbn [split_slash]. destruct (Ascii.eqb c "/"%char) eqn:Hc.
    + apply Ascii.eqb_eq in Hc. subst c.
      destruct (split_slash s) as [|p ps]; [contradiction|].
      assert (Hjoin : js_join "/" (p :: ps) = s).
      { destruct ps as [|q qs]; [symmetry; apply IH|].
        destruct IH as [IH _]. symmetry. exact IH. }
      rewrite Hjoin. split; reflexivity.
    + destruct (split_slash s) as [|p ps]; [contradiction|].
      destruct ps as [|q qs].
      * destruct IH as [-> Hno]. split; [reflexivity|].
        cbn [js_includes]. rewrite prefix_slash, Hc, Hno. reflexivity.
      * destruct IH as [-> Hno]. split; [reflexivity|].
        cbn [js_includes]. rewrite prefix_slash, Hc, Hno. reflexivity.
Qed.

End StringFacts.

(** ** Git automation *)

Section GitClaims.
Import GitManager MoreExamples.

Example commit_message_two_new_files :
  generateCommitMessage two_new_files = "feat(src): add app.js, util.js".
Proof. vm_compute. reflexivity. Qed.

Example commit_message_clean_tree :
  generateCommitMessage clean_tree = "chore: ".
Proof. vm_compute. reflexivity. Qed.

(** X17. [commit] on a tree without changes does nothing: after reading
    the status it answers [null] and issues no add, commit or push,
    whatever the options ask for (message, push). *)
Theorem commit_without_changes_is_silent (w : GitWorld) (options : CommitOptions)
        (status : Status) (t : list GitEvent) :
  g_status w = Ok status ->
  files status = [] ->
  commit w options t = (Ok None, t).
Proof.
  intros Hs Hf. unfold commit, g_rethrow, g_bind, g_call, g_ret.
  rewrite Hs, Hf. reflexivity.
Qed.

(** Witness for X17. *)
Lemma commit_without_changes_is_silent_witness :
  commit nothing_to_commit commit_and_push [] = (Ok None, []).
Proof.
  apply (commit_without_changes_is_silent nothing_to_commit commit_and_push clean_tree).
  - reflexivity.
  - reflexivity.
Defined.

(** X18. Every failure inside [commit] leaves it as [Commit failed: ...].
    This includes the push: when the commit itself was made and the push
    is then refused, [commit] still throws [Commit failed: Push failed:
    ...], with the commit already in the repository. *)
Theorem commit_failures_are_wrapped (w : GitWorld) (options : CommitOptions)
        (t : list GitEvent) :
  (forall (e : JsError) (t' : list GitEvent),
      commit w options t = (Throw e, t') ->
      exists msg : string, e = new_Error ("Commit failed: " ++ msg))
  /\ (forall (status after : Status) (e0 : JsError),
         g_status w = Ok status -> files status <> [] ->
         is_Ok (g_add w) = true -> is_Ok (g_commit w) = true ->
         opt_push options = true ->
         g_status_after w = Ok after -> g_push w = Throw e0 ->
         exists t' : list GitEvent,
           commit w options t
           = (Throw (new_Error ("Commit failed: Push failed: " ++ e_message e0)), t')
           /\ length (List.filter is_commit t') = S (length (List.filter is_commit t))).
Proof.
  split.
  - intros e t' H. unfold commit, g_rethrow in H.
    match type of H with
    | match ?body t with _ => _ end = _ => destruct (body t) as [[r|e1] t1]
    end; inversion H; subst.
    eexists. reflexivity.
  - intros status after e0 Hs Hf Hadd Hcommit Hpush Hafter He0.
    unfold commit, push_default, stage, g_rethrow, g_bind, g_call, g_ret.
    rewrite Hs. destruct (files status) as [|f fs]; [contradiction Hf; reflexivity|].
    simpl. rewrite Hpush, Hafter, He0.
    destruct (g_add w) as [u|e]; [|discriminate Hadd].
    destruct (g_commit w) as [u'|e]; [|discriminate Hcommit].
    destruct (opt_staged options); simpl;
      (eexists; split; [reflexivity|]);
      unfold push; rewrite !List.filter_app, !length_app; simpl; lia.
Qed.

(** Witness for X18. *)
Lemma commit_failures_are_wrapped_witness :
  exists t' : list GitEvent,
    commit push_rejected commit_and_push []
    = (Throw (new_Error "Commit failed: Push failed: remote rejected"), t')
    /\ length (List.filter is_commit t') = 1.
Proof.
  eapply (proj2 (commit_failures_are_wrapped push_rejected commit_and_push [])
                two_new_files clean_tree rejected); try reflexivity.
  discriminate.
Defined.

Lemma nonempty_length {A} (l : list A) : l <> [] -> Nat.ltb 0 (length l) = true.
Proof. destruct l; [intros H; contradiction H; reflexivity | reflexivity]. Qed.

(** X19. The type of a generated commit message follows the first kind of
    change that is present, in the order created, modified, deleted,
    renamed: [feat], [update], [remove], [refactor]. A status without any
    of them gives the message [chore: ], with an empty subject. *)
Theorem commit_message_type (status : Status) :
  (created status <> [] ->
   String.prefix "feat" (generateCommitMessage status) = true)
  /\ (created status = [] -> modified status <> [] ->
      String.prefix "update" (generateCommitMessage status) = true)
  /\ (created status = [] -> modified status = [] -> deleted status <> [] ->
      String.prefix "remove" (generateCommitMessage status) = true)
  /\ (created status = [] -> modified status = [] -> deleted status = [] ->
      renamed status <> [] ->
      generateCommitMessage status
      = "refactor: rename " ++ pretty (length (renamed status)) ++ " file"
        ++ (if Nat.ltb 1 (length (renamed status)) then "s" else EmptyString))
  /\ (created status = [] -> modified status = [] -> deleted status = [] ->
      renamed status = [] ->
      generateCommitMessage status = "chore: ").
Proof.
  unfold generateCommitMessage, message_parts.
  split; [|split; [|split; [|split]]].
  - intros H. rewrite (nonempty_length _ H).
    destruct (String.eqb (inferScope (created status)) EmptyString); reflexivity.
  - intros -> H. rewrite (nonempty_length _ H). simpl.
    destruct (String.eqb (inferScope (modified status)) EmptyString); reflexivity.
  - intros -> -> H. rewrite (nonempty_length _ H). simpl.
    destruct (String.eqb (inferScope (deleted status)) EmptyString); reflexivity.
  - intros -> -> -> H. rewrite (nonempty_length _ H). reflexivity.
  - intros -> -> -> ->. reflexivity.
Qed.

(** Witness for X19. *)
Lemma commit_message_type_witness :
  String.prefix "feat" (generateCommitMessage two_new_files) = true.
Proof.
  apply (proj1 (commit_message_type two_new_files)). discriminate.
Defined.

(** X20. The scope of a commit message is the first directory of the
    first file: when [inferScope] answers a scope, the first file is that
    scope, a slash and more, and the scope holds no slash. A first file
    without a slash, or one that starts with a slash, gives no scope. *)
Theorem inferScope_first_directory (fs : list string) :
  (inferScope fs <> EmptyString ->
   exists (rest : string) (others : list string),
     fs = (inferScope fs ++ "/" ++ rest) :: others
     /\ js_includes (inferScope fs) "/" = false)
  /\ (forall (f : string) (others : list string),
         fs = f :: others ->
         js_includes f "/" = false \/ String.prefix "/" f = true ->
         inferScope fs = EmptyString).
Proof.
  split.
  - destruct fs as [|f others]; [intros H; contradiction H; reflexivity|].
    unfold inferScope. pose proof (split_slash_spec f) as Hspec.
    destruct (split_slash f) as [|p [|q qs]]; [contradiction| |].
    + intros H. contradiction H. reflexivity.
    + simpl. intros _. destruct Hspec as [Hf Hno].
      exists (js_join "/" (q :: qs)), others. split; [rewrite Hf at 1; reflexivity | exact Hno].
  - intros f others -> Hf. unfold inferScope.
    pose proof (split_slash_spec f) as Hspec.
    destruct (split_slash f) as [|p [|q qs]]; [contradiction|reflexivity|].
    simpl. destruct Hspec as [Heq Hno]. destruct Hf as [Hf|Hf].
    + exfalso. rewrite Heq in Hf. clear - Hf.
      induction p as [|c p IH].
      * change (EmptyString ++ "/" ++ js_join "/" (q :: qs))
          with (String "/"%char (js_join "/" (q :: qs))) in Hf.
        cbn [js_includes] in Hf. rewrite prefix_slash, Ascii.eqb_refl in Hf.
        discriminate Hf.
      * change (String c p ++ "/" ++ js_join "/" (q :: qs))
          with (String c (p ++ "/" ++ js_join "/" (q :: qs))) in Hf.
        cbn [js_includes] in Hf. apply orb_false_iff in Hf as [_ Hf]. exact (IH Hf).
    + destruct p as [|c p]; [reflexivity|]. exfalso.
      rewrite Heq in Hf.
      change (String c p ++ "/" ++ js_join "/" (q :: qs))
        with (String c (p ++ "/" ++ js_join "/" (q :: qs))) in Hf.
      rewrite prefix_slash in Hf.
      cbn [js_includes] in Hno. rewrite prefix_slash, Hf in Hno. discriminate Hno.
Qed.

(** Witness for X20. *)
Lemma inferScope_first_directory_witness :
  exists (rest : string) (others : list string),
    ["src/app.js"; "src/lib/util.js"] = ("src" ++ "/" ++ rest) :: others.
Proof.
  destruct (proj1 (inferScope_first_directory ["src/app.js"; "src/lib/util.js"]))
    as (rest & others & Heq & _).
  - vm_compute. discriminate.
  - exists rest, others. exact Heq.
Defined.

End GitClaims.

(** ** Type detection and the GitHub download *)

Section TypeClaims.
Import ArtifactTypes MoreExamples.

Example next_app_is_react :
  detectDirectoryType ["package.json"; "pages"; "README.md"] (Ok next_app) = Ok "react".
Proof. vm_compute. reflexivity. Qed.

Example html_page_with_div_is_react :
  claude_detectType "<!DOCTYPE html><html><body><div>Hello</div></body></html>"
                    "page.html" false = "react".
Proof. vm_compute. reflexivity. Qed.

Example github_branch_url :
  github_zip_url "https://github.com/acme/site/tree/develop"
  = "https://github.com/acme/site/archive/refs/heads/develop.zip".
Proof. vm_compute. reflexivity. Qed.

Example github_root_url :
  github_zip_url "https://github.com/acme/site/"
  = "https://github.com/acme/site/archive/refs/heads/main.zip".
Proof. vm_compute. reflexivity. Qed.

Lemma includes_package_json (listing : list string) :
  existsb (String.eqb "package.json") listing = true <-> In "package.json" listing.
Proof.
  rewrite existsb_exists. split.
  - intros (x & Hin & Heq). apply String.eqb_eq in Heq. subst x. exact Hin.
  - intros Hin. exists "package.json". split; [exact Hin | reflexivity].
Qed.

(** X21. A directory with a readable [package.json] is typed by its
    dependencies alone, whatever else it holds: the answer is one of
    react, vue, svelte, next, nuxt, node, and it is [react] as soon as
    [react] is a dependency, so [next] is only answered for a package
    that depends on neither [react] nor [react-dom]. An entry of
    [devDependencies] takes the place of the entry of [dependencies] with
    the same name. An unreadable [package.json] makes the detection
    throw. *)
Theorem directory_type_by_dependencies (listing : list string)
        (readJSON : Outcome PackageJson) :
  In "package.json" listing ->
  (forall pkg : PackageJson,
      readJSON = Ok pkg ->
      exists t : string,
        detectDirectoryType listing readJSON = Ok t
        /\ In t directory_types
        /\ (dep (all_deps pkg) "react" = true -> t = "react")
        /\ (t = "next" ->
            dep (all_deps pkg) "react" = false
            /\ dep (all_deps pkg) "react-dom" = false)
        /\ (forall key : string,
               all_deps pkg !! key =
               match devDependencies pkg !! key with
               | Some v => Some v
               | None => dependencies pkg !! key
               end))
  /\ (forall e : JsError,
         readJSON = Throw e -> detectDirectoryType listing readJSON = Throw e).
Proof.
  intros Hin. apply includes_package_json in Hin.
  unfold detectDirectoryType, directory_types. rewrite Hin. split.
  - intros pkg ->. simpl.
    assert (Hun : forall key : string,
               all_deps pkg !! key =
               match devDependencies pkg !! key with
               | Some v => Some v
               | None => dependencies pkg !! key
               end).
    { intros key. unfold all_deps. rewrite lookup_union.
      destruct (devDependencies pkg !! key), (dependencies pkg !! key); reflexivity. }
    destruct (dep (all_deps pkg) "react") eqn:Hr; simpl;
      [eexists; split; [reflexivity|]; simpl; intuition (try discriminate; auto)|].
    destruct (dep (all_deps pkg) "react-dom") eqn:Hrd; simpl;
      [eexists; split; [reflexivity|]; simpl; intuition (try discriminate; auto)|].
    destruct (dep (all_deps pkg) "vue");
      [eexists; split; [reflexivity|]; simpl; intuition (try discriminate; auto)|].
    destruct (dep (all_deps pkg) "svelte");
      [eexists; split; [reflexivity|]; simpl; intuition (try discriminate; auto)|].
    destruct (dep (all_deps pkg) "next");
      [eexists; split; [reflexivity|]; simpl; intuition (try discriminate; auto)|].
    destruct (dep (all_deps pkg) "nuxt");
      eexists; (split; [reflexivity|]); simpl; intuition (try discriminate; auto).
  - intros e ->. reflexivity.
Qed.

(** Witness for X21: a Next.js application is typed [react]. *)
Lemma directory_type_by_dependencies_witness :
  exists t : string,
    detectDirectoryType ["package.json"; "pages"; "README.md"] (Ok next_app) = Ok t
    /\ t = "react".
Proof.
  destruct (proj1 (directory_type_by_dependencies
                     ["package.json"; "pages"; "README.md"] (Ok next_app)
                     ltac:(left; reflexivity)) next_app eq_refl)
    as (t & Ht & _ & Hreact & _).
  exists t. split; [exact Ht|]. apply Hreact. vm_compute. reflexivity.
Defined.

(** X22. For an artifact of the Claude provider the React patterns are
    tried first, and [<div] is one of them: content that holds any of the
    patterns is typed [react], be it a complete HTML document, a Vue
    component or a Svelte file. [html], [vue] and [svelte] are answered
    only for content without a [<div]. *)
Theorem claude_type_react_first (content src : string) (heading : bool) :
  (forall pattern : string,
      In pattern reactPatterns ->
      js_includes content pattern = true ->
      claude_detectType content src heading = "react")
  /\ (claude_detectType content src heading <> "react" ->
      js_includes content "<div" = false
      /\ js_includes content "className=" = false)
  /\ (claude_detectType content src heading = "svelte" ->
      js_endsWith src ".svelte" = true).
Proof.
  split; [|split].
  - intros pattern Hin Hinc. unfold claude_detectType.
    assert (Hc : containsReactPatterns content = true).
    { unfold containsReactPatterns. apply existsb_exists. exists pattern.
      split; assumption. }
    rewrite Hc. reflexivity.
  - intros Hne. unfold claude_detectType in Hne.
    destruct (containsReactPatterns content) eqn:Hc; [contradiction Hne; reflexivity|].
    unfold containsReactPatterns in Hc.
    split.
    + destruct (js_includes content "<div") eqn:Hd; [|reflexivity].
      assert (Hex : existsb (fun pattern => js_includes content pattern) reactPatterns
                    = true).
      { apply existsb_exists. exists "<div". split; [|exact Hd].
        unfold reactPatterns. simpl. tauto. }
      congruence.
    + destruct (js_includes content "className=") eqn:Hd; [|reflexivity].
      assert (Hex : existsb (fun pattern => js_includes content pattern) reactPatterns
                    = true).
      { apply existsb_exists. exists "className=". split; [|exact Hd].
        unfold reactPatterns. simpl. tauto. }
      congruence.
  - unfold claude_detectType.
    destruct (containsReactPatterns content); [discriminate|].
    destruct (js_includes content "<!DOCTYPE html>" || js_includes content "<html");
      [discriminate|].
    destruct (js_endsWith src ".md" || heading); [discriminate|].
    destruct (js_includes content "<template>" || js_includes content "Vue.component");
      [discriminate|].
    destruct (js_endsWith src ".svelte"); [reflexivity|].
    rewrite andb_false_r. discriminate.
Qed.

(** Witness for X22: an HTML document with a [div]. *)
Lemma claude_type_react_first_witness :
  claude_detectType "<!DOCTYPE html><html><body><div>Hello</div></body></html>"
                    "page.html" false = "react".
Proof.
  apply (proj1 (claude_type_react_first _ _ _) "<div").
  - unfold reactPatterns. simpl. tauto.
  - vm_compute. reflexivity.
Defined.

(** X23. The address that the GitHub download uses always ends in [.zip].
    An address with [/tree/] becomes the archive of that branch: the first
    [/tree/] is replaced by [/archive/refs/heads/] and [.zip] is added.
    Without [/tree/], an address that ends in [.zip] is taken as it is. *)
Theorem github_zip_url_shape (src : string) :
  js_endsWith (github_zip_url src) ".zip" = true
  /\ (js_includes src "/tree/" = true ->
      exists pre post : string,
        src = pre ++ "/tree/" ++ post
        /\ github_zip_url src = pre ++ "/archive/refs/heads/" ++ post ++ ".zip")
  /\ (js_includes src "/tree/" = false -> js_endsWith src ".zip" = true ->
      github_zip_url src = src).
Proof.
  unfold github_zip_url. split; [|split].
  - destruct (js_includes src "/tree/"); [apply js_endsWith_app|].
    destruct (js_endsWith src ".zip") eqn:Hz; simpl; [exact Hz|].
    change "/archive/refs/heads/main.zip" with ("/archive/refs/heads/main" ++ ".zip").
    rewrite <- str_app_assoc. apply js_endsWith_app.
  - intros Ht. rewrite Ht.
    destruct (js_replace_spec "/tree/" "/archive/refs/heads/" src Ht)
      as (pre & post & Hs & Hr).
    exists pre, post. split; [exact Hs|]. rewrite Hr, !str_app_assoc. reflexivity.
  - intros -> ->. reflexivity.
Qed.

(** Witness for X23. *)
Lemma github_zip_url_shape_witness :
  exists pre post : string,
    "https://github.com/acme/site/tree/develop" = pre ++ "/tree/" ++ post
    /\ github_zip_url "https://github.com/acme/site/tree/develop"
       = pre ++ "/archive/refs/heads/" ++ post ++ ".zip".
Proof.
  apply (proj1 (proj2 (github_zip_url_shape "https://github.com/acme/site/tree/develop"))).
  vm_compute. reflexivity.
Defined.

End TypeClaims.

(** ** Docker files and status *)

Section DockerClaims.
Import DockerFiles MoreExamples DeploymentManager RunSpec Examples.
Local Open Scope deploy_scope.

Example react_dockerfile :
  dockerfile_for "react" node_template
  = "FROM node:18-alpine" ++ nl ++ "COPY . ." ++ nl ++ "# Build React app" ++ nl
    ++ "RUN npm run build" ++ nl ++ "CMD npm start".
Proof. vm_compute. reflexivity. Qed.

(** X24. The Dockerfile that is written for an artifact. For [html] it is
    the fixed nginx file, whatever the template holds. For [react] the
    first build marker of the template is replaced by the build step, and
    a template without the marker is written unchanged, without a build
    step. For every type other than react, html and next the template is
    written as it is. *)
Theorem dockerfile_by_type (artifactType template : string) :
  (artifactType = "html" ->
   forall other : string,
     dockerfile_for artifactType template = dockerfile_for artifactType other)
  /\ (artifactType = "react" ->
      (js_includes template build_marker = false ->
       dockerfile_for artifactType template = template)
      /\ (js_includes template build_marker = true ->
          exists pre post : string,
            template = pre ++ build_marker ++ post
            /\ dockerfile_for artifactType template
               = pre ++ ("# Build React app" ++ nl ++ "RUN npm run build") ++ post))
  /\ (artifactType <> "react" -> artifactType <> "html" -> artifactType <> "next" ->
      dockerfile_for artifactType template = template).
Proof.
  split; [|split].
  - intros -> other. reflexivity.
  - intros ->. unfold dockerfile_for, customizeForReact. simpl. split.
    + intros H. apply js_replace_absent, H.
    + intros H. apply js_replace_spec, H.
  - intros Hr Hh Hn. unfold dockerfile_for.
    apply String.eqb_neq in Hr, Hh, Hn. rewrite Hr, Hh, Hn. reflexivity.
Qed.

(** Witness for X24: a template without the marker stays as it is. *)
Lemma dockerfile_by_type_witness :
  dockerfile_for "react" "FROM node:18-alpine" = "FROM node:18-alpine".
Proof.
  apply (proj1 (proj1 (proj2 (dockerfile_by_type "react" "FROM node:18-alpine")) eq_refl)).
  vm_compute. reflexivity.
Defined.

(** X25. [checkStatus] never throws and never stops a container. It
    answers [running] only with a non-empty list of project containers
    and no error; when the configuration does not load, the daemon does
    not answer or the containers cannot be listed, it answers not running,
    with the message of the failure. *)
Theorem checkStatus_never_throws (loaded : Outcome Config) (w : DeployWorld)
        (m : Manager) :
  exists (r : StatusReport) (m' : Manager),
    checkStatus loaded w m = (Ok r, m')
    /\ count_events is_stop (trace m') = count_events is_stop (trace m)
    /\ (sr_running r = true ->
        sr_error r = None
        /\ exists cs : list ContainerStatus, sr_containers r = Some cs /\ cs <> [])
    /\ (is_Ok loaded && is_Ok (d_ping w) && is_Ok (list_containers w) = false ->
        sr_running r = false /\ exists msg : string, sr_error r = Some msg)
    /\ (is_Ok (d_ping w) = false -> is_Ok loaded = true ->
        sr_error r
        = Some "Docker daemon is not running. Please start Docker and try again.").
Proof.
  unfold checkStatus, checkDocker, getContainerStatus, try_catch_M, bind, lift, emit,
    ret, throw.
  destruct loaded as [config|e0]; simpl.
  - destruct (d_ping w) as [u|e1]; simpl.
    + destruct (list_containers w) as [cs|e2]; simpl.
      * match goal with
        | |- context [Nat.eqb (length ?l) 0] => destruct l as [|c rest] eqn:Hl
        end; simpl;
          (eexists; eexists; split; [reflexivity|]); simpl;
          rewrite !count_events_push; simpl.
        -- split; [lia|]. split; [discriminate|]. split; discriminate.
        -- split; [lia|]. split; [|split; discriminate].
           intros _. split; [reflexivity|]. eexists. split; [reflexivity|]. discriminate.
      * eexists; eexists. split; [reflexivity|]. simpl.
        rewrite !count_events_push. simpl.
        split; [lia|]. split; [discriminate|]. split; [|discriminate].
        intros _. split; [reflexivity|]. eexists. reflexivity.
    + eexists; eexists. split; [reflexivity|]. simpl.
      rewrite !count_events_push. simpl.
      split; [lia|]. split; [discriminate|]. split.
      * intros _. split; [reflexivity|]. eexists. reflexivity.
      * intros _ _. reflexivity.
  - eexists; eexists. split; [reflexivity|]. simpl.
    rewrite !count_events_push. simpl.
    split; [lia|]. split; [discriminate|]. split.
    + intros _. split; [reflexivity|]. eexists. reflexivity.
    + intros _ Hf. discriminate Hf.
Qed.

End DockerClaims.


(** * Starting and stopping containers in a run *)

Section StartsAndStops.
Import DeploymentManager RunSpec RunMore Examples.
Local Open Scope deploy_scope.

Lemma sn_ret {A} (a : A) : starts_nothing (ret a).
Proof. intros m r m' H. inversion H; subst. reflexivity. Qed.

Lemma sn_throw {A} (e : JsError) : starts_nothing (@throw A e).
Proof. intros m r m' H. inversion H; subst. reflexivity. Qed.

Lemma sn_lift {A} (o : Outcome A) : starts_nothing (lift o).
Proof. intros m r m' H. inversion H; subst. reflexivity. Qed.

Lemma sn_get : starts_nothing get_rollbackState.
Proof. intros m r m' H. inversion H; subst. reflexivity. Qed.

Lemma sn_set (rs : option RollbackState) : starts_nothing (set_rollbackState rs).
Proof. intros m r m' H. inversion H; subst. reflexivity. Qed.

Lemma sn_emit (ev : Event) : is_start ev = false -> starts_nothing (emit ev).
Proof.
  intros Hev m r m' H. inversion H; subst; simpl.
  rewrite count_events_push, Hev. lia.
Qed.

Lemma sn_bind {A B} (c : M A) (k : A -> M B) :
  starts_nothing c -> (forall a, starts_nothing (k a)) -> starts_nothing (bind c k).
Proof.
  intros Hc Hk m r m' H. unfold bind in H.
  destruct (c m) as [[a|e] m1] eqn:Hcm.
  - rewrite (Hk a _ _ _ H). exact (Hc _ _ _ Hcm).
  - inversion H; subst. exact (Hc _ _ _ Hcm).
Qed.

Lemma sn_try_catch {A} (body : M A) (handler : JsError -> M A) :
  starts_nothing body -> (forall e, starts_nothing (handler e)) ->
  starts_nothing (try_catch_M body handler).
Proof.
  intros Hb Hh m r m' H. unfold try_catch_M in H.
  destruct (body m) as [[a|e] m1] eqn:Hbm.
  - inversion H; subst. exact (Hb _ _ _ Hbm).
  - rewrite (Hh e _ _ _ H). exact (Hb _ _ _ Hbm).
Qed.

Ltac sn_step :=
  match goal with
  | |- starts_nothing (bind _ _) => apply sn_bind; [| intros ?]
  | |- starts_nothing (try_catch_M _ _) => apply sn_try_catch; [| intros ?]
  | |- starts_nothing (ret _) => apply sn_ret
  | |- starts_nothing (throw _) => apply sn_throw
  | |- starts_nothing (lift _) => apply sn_lift
  | |- starts_nothing (emit _) => apply sn_emit; reflexivity
  | |- starts_nothing get_rollbackState => apply sn_get
  | |- starts_nothing (set_rollbackState _) => apply sn_set
  | |- starts_nothing (if ?b then _ else _) => destruct b
  | |- starts_nothing (match ?x with _ => _ end) => destruct x
  end.

Ltac sn_solve := repeat sn_step.

Lemma sn_fetchArtifact config w : starts_nothing (fetchArtifact config w).
Proof.
  unfold fetchArtifact.
  apply sn_bind; [unfold Providers.createProvider; sn_solve | intros p].
  apply sn_bind; [unfold Providers.validate; sn_solve | intros _].
  apply sn_bind; [unfold Providers.fetch; sn_solve | intros fetched].
  unfold Providers.prepare. sn_solve.
Qed.

Lemma sn_before_capture config w : starts_nothing (before_capture config w).
Proof.
  unfold before_capture.
  apply sn_bind; [unfold validateEnvironment, checkDocker; sn_solve | intros _].
  apply sn_bind; [apply sn_fetchArtifact | intros art].
  apply sn_bind; [unfold database_initialize; sn_solve | intros _].
  unfold generateDockerfile, generateComposeFile, buildImage. sn_solve.
Qed.

Lemma sn_saveRollbackState config w : starts_nothing (saveRollbackState config w).
Proof. unfold saveRollbackState, getContainerStatus, getCurrentCommit. sn_solve. Qed.

Lemma sn_verifyDeployment config w : starts_nothing (verifyDeployment config w).
Proof. unfold verifyDeployment. sn_solve. Qed.

Lemma sn_commit_step config w : starts_nothing (commit_step config w).
Proof. unfold commit_step, git_commit. sn_solve. Qed.

Lemma sn_finish config art : starts_nothing (finish config art).
Proof. unfold finish, displayDeploymentInfo. sn_solve. Qed.

Lemma sn_rollback w : starts_nothing (rollback w).
Proof. unfold rollback, stopContainers. sn_solve. Qed.

(** [startContainers] issues one [docker-compose up]. *)
Lemma startContainers_once config w m r m' :
  startContainers config w m = (r, m') ->
  count_events is_start (trace m') = S (count_events is_start (trace m)).
Proof.
  unfold startContainers, bind, emit, throw. simpl.
  destruct (compose_up w) as [u|e]; intros H; inversion H; subst; simpl;
    rewrite ?count_events_push; simpl; lia.
Qed.

Lemma after_capture_starts config w art m r m' :
  after_capture config w art m = (r, m') ->
  count_events is_start (trace m') = S (count_events is_start (trace m)).
Proof.
  unfold after_capture. unfold bind at 1. intros H.
  destruct (startContainers config w m) as [[u|e] m1] eqn:H1;
    pose proof (startContainers_once _ _ _ _ _ H1) as Hs;
    [|inversion H; subst; exact Hs].
  assert (Hrest : starts_nothing
            (verifyDeployment config w ;;; commit_step config w ;;; finish config art)).
  { apply sn_bind; [apply sn_verifyDeployment | intros _].
    apply sn_bind; [apply sn_commit_step | intros _]. apply sn_finish. }
  rewrite (Hrest _ _ _ H). exact Hs.
Qed.

(** The handler of [run] starts nothing. *)
Lemma deploy_starts (config : Config) (w : DeployWorld)
      (r : Outcome DeploymentResult) (m1 : Manager) :
  run_body config w started = (r, m1) ->
  count_events is_start (trace (snd (deploy config w)))
  = count_events is_start (trace m1).
Proof.
  intros Hb. rewrite deploy_unfold. unfold try_catch_M. rewrite Hb.
  destruct r as [res|e]; [reflexivity|].
  match goal with
  | |- context [snd (?h ?m)] =>
      assert (Hh : starts_nothing h); [|destruct (h m) as [r' m'] eqn:Hm;
                                         exact (Hh _ _ _ Hm)]
  end.
  apply sn_bind; [apply sn_emit; reflexivity | intros _].
  apply sn_bind; [apply sn_emit; reflexivity | intros _].
  apply sn_bind; [apply sn_get | intros rs].
  apply sn_bind; [destruct rs; [apply sn_rollback | apply sn_ret] | intros _].
  apply sn_throw.
Qed.

Lemma before_capture_split (config : Config) (w : DeployWorld) (m : Manager) :
  before_capture config w m =
  bind (through_generate config w)
       (fun art => buildImage w (str_of_opt (name config) ++ ":latest") ;;; ret art) m.
Proof.
  unfold before_capture, through_generate, bind.
  destruct (validateEnvironment config w m) as [[u|e] m1]; [|reflexivity].
  destruct (fetchArtifact config w m1) as [[art|e] m2]; [|reflexivity].
  destruct (database_initialize config w m2) as [[u1|e] m3]; [|reflexivity].
  destruct (generateDockerfile w (art_type art) m3) as [[u2|e] m4]; [|reflexivity].
  destruct (generateComposeFile w (art_type art) m4) as [[u3|e] m5]; reflexivity.
Qed.

(** X26. When steps 1 to 4 pass and the build is rejected (the build
    request fails, or the progress stream ends with a stream error), the
    run throws [Failed to build image: ...] with the message of that error,
    and no container was started or stopped. Only a rejection counts:
    [followProgress] rejects on a stream error alone, so a failure that the
    daemon reports as an event inside the stream is not one. *)
Theorem rejected_build_touches_no_container (config : Config) (w : DeployWorld)
        (art : Artifact) (m4 : Manager) (e : JsError) :
  through_generate config w started = (Ok art, m4) ->
  docker_build w = Throw e ->
  exists m',
    deploy config w = (Throw (new_Error ("Failed to build image: " ++ e_message e)), m')
    /\ count_events is_start (trace m') = 0
    /\ count_events is_stop (trace m') = 0.
Proof.
  intros Hg Hbuild.
  assert (Hb : exists m5,
             before_capture config w started
             = (Throw (new_Error ("Failed to build image: " ++ e_message e)), m5)).
  { rewrite before_capture_split. unfold bind at 1. rewrite Hg.
    unfold buildImage, bind, emit, throw. rewrite Hbuild. simpl.
    eexists. reflexivity. }
  destruct Hb as (m5 & Hb).
  destruct (before_capture_failure _ _ _ _ Hb) as (m' & Hd & Hstop).
  exists m'. split; [exact Hd|]. split; [|exact Hstop].
  assert (Hrb : run_body config w started
                = (Throw (new_Error ("Failed to build image: " ++ e_message e)), m5)).
  { unfold run_body, bind. rewrite Hb. reflexivity. }
  pose proof (deploy_starts _ _ _ _ Hrb) as Hs. rewrite Hd in Hs. simpl in Hs.
  rewrite Hs, (sn_before_capture _ _ _ _ _ Hb). reflexivity.
Qed.

(** Witness for X26: the build request is rejected for lack of disk
    space. *)
Lemma rejected_build_touches_no_container_witness :
  exists m',
    deploy shop_config build_rejected
    = (Throw (new_Error "Failed to build image: no space left on device"), m')
    /\ count_events is_start (trace m') = 0
    /\ count_events is_stop (trace m') = 0.
Proof.
  eapply (rejected_build_touches_no_container shop_config build_rejected _ _
            (new_Error "no space left on device")).
  - vm_compute. reflexivity.
  - reflexivity.
Defined.

(** X27. In every run the containers are started at most once and
    stopped at most once. They are started only when steps 1 to 5 passed,
    and a run that stops them is a run that fails. *)
Theorem run_starts_and_stops_at_most_once (config : Config) (w : DeployWorld) :
  count_events is_start (trace (snd (deploy config w))) <= 1
  /\ count_events is_stop (trace (snd (deploy config w))) <= 1
  /\ (count_events is_start (trace (snd (deploy config w))) = 1 ->
      is_Ok (fst (before_capture config w started)) = true)
  /\ (count_events is_stop (trace (snd (deploy config w))) = 1 ->
      is_Ok (fst (deploy config w)) = false).
Proof.
  assert (Hstart : count_events is_start (trace (snd (deploy config w)))
                   = if is_Ok (fst (before_capture config w started)) then 1 else 0).
  { destruct (run_body config w started) as [r mb] eqn:Hb.
    rewrite (deploy_starts _ _ _ _ Hb).
    unfold run_body, bind in Hb.
    destruct (before_capture config w started) as [[art|e] m1] eqn:H1;
      pose proof (sn_before_capture _ _ _ _ _ H1) as Hs1; simpl.
    - destruct (saveRollbackState config w m1) as [[rs|e] m2] eqn:H2;
        pose proof (sn_saveRollbackState _ _ _ _ _ H2) as Hs2.
      + simpl in Hb. rewrite (after_capture_starts _ _ _ _ _ _ Hb). simpl.
        rewrite Hs2, Hs1. reflexivity.
      + destruct (saveRollbackState_never_throws_aux config w m1) as (rs & m2' & Hok).
        rewrite Hok in H2. discriminate H2.
    - inversion Hb; subst. rewrite Hs1. reflexivity. }
  assert (Hstop : count_events is_stop (trace (snd (deploy config w))) <= 1
                  /\ (count_events is_stop (trace (snd (deploy config w))) = 1 ->
                      is_Ok (fst (deploy config w)) = false)).
  { destruct (run_body config w started) as [[res|e] mb] eqn:Hb.
    - rewrite deploy_unfold. unfold try_catch_M. rewrite Hb. simpl.
      rewrite (run_body_stops _ _ _ _ _ Hb), count_stop_started.
      split; [lia | discriminate].
    - destruct (run_handler _ _ _ _ Hb) as (m' & Hd & Hc).
      rewrite Hd. cbn [fst snd]. rewrite Hc, (run_body_stops _ _ _ _ _ Hb),
        count_stop_started.
      split; [destruct (rollbackState mb); simpl; lia | reflexivity]. }
  split; [rewrite Hstart; destruct (is_Ok _); lia|].
  split; [exact (proj1 Hstop)|]. split; [|exact (proj2 Hstop)].
  rewrite Hstart. destruct (is_Ok _); [reflexivity | discriminate].
Qed.

End StartsAndStops.
